(** * Smart Session Planner: suggestion engine, progress aggregator and
      session-create route, embedded from the TypeScript sources

    Sources embedded here:
    - [api/app/model/suggestion.ts]   (slot generation, scoring, reasons)
    - [api/app/model/progress.ts]     (progress statistics)
    - [api/app/api/sessions/route.ts] (POST: conflict detection on create;
      GET: the filtered list)
    - [api/app/api/sessions/[id]/route.ts], [api/app/api/suggestions/route.ts],
      [api/app/api/session-types/route.ts] and [[id]/route.ts],
      [api/app/api/availability/route.ts] and [[id]/route.ts],
      [api/app/api/progress/route.ts]  (the other routes, as functions on
      the tables)
    - [mobile/src/model/session.ts], [mobile/src/controller/useSuggestions.ts],
      [mobile/src/controller/sessionsStore.ts]  (the client's session
      utilities, merged suggestions and local list)

    Modelling conventions.
    - A JavaScript [Date] is its time value: milliseconds since the epoch,
      an integer ([Z]).  Local-time accessors ([setHours], [getHours],
      [getDay], [format]) read the clock of a time zone [tz], given by
      the offsets its rules prescribe ([JsDate.Zone]); the offset may
      change, as it does with daylight saving.  An integer used as a zone
      is the zone at that fixed offset (in milliseconds) from UTC: a
      statement whose [tz] is an integer is about such zones.
    - Integer-valued numbers (time values, counts, whole hours and their
      sums) are integers ([Z]): they are taken to be below 2^53 in
      absolute value, where doubles are exact.
    - In the progress statistics the numbers that are not integers are
      IEEE 754 doubles ([Double], on the Standard Library's [SpecFloat]):
      each division and multiplication rounds to nearest, ties to even.
    - In the suggestion engine the scores are exact rationals ([Q]);
      [Infinity] is a separate constructor.  [JsNum.Math_round x] is
      [floor (x + 1/2)].
    - date-fns [differenceInHours] truncates toward zero; [addHours] adds
      [amount * 3600000] milliseconds, fractional amounts included, and
      the resulting time value is truncated to an integer.
    - [durationMinutes] and [lookAheadDays] are integers (the route reads
      them with [parseInt]).
    - The tables are lists of rows in insertion order; a route is a
      function from the tables and the request to the response and the new
      tables.  Requests carry the fields of their TypeScript types, and
      ISO date strings are the time values they parse to. *)

From Stdlib Require Import ZArith QArith Qround Qminmax Lqa Lia Bool List.
From Stdlib Require Import String Ascii DecimalString.
From Stdlib Require Import SpecFloat.
From Stdlib Require Import Sorting.Sorted Sorting.Permutation.
From Equations Require Import Equations.
Import ListNotations.

Local Open Scope Z_scope.

(* ------------------------------------------------------------------ *)
(** ** JavaScript numbers *)

Module JsNum.

(** Rational numbers extended with [Infinity], as produced by
    [cond ? x : Infinity] and consumed by [Math.min]. *)
Inductive num : Type :=
| Fin (q : Q)
| Infinity.

Definition Qltb (x y : Q) : bool := negb (Qle_bool y x).

Definition min2 (a b : num) : num :=
  match a, b with
  | Infinity, _ => b
  | _, Infinity => a
  | Fin x, Fin y => if Qle_bool x y then Fin x else Fin y
  end.

(** [Math.min(...xs)]; [Math.min()] is [Infinity]. *)
Definition Math_min (xs : list num) : num := fold_right min2 Infinity xs.

(** [x < y] for an extended [x] and a finite [y]. *)
Definition ltb_fin (x : num) (y : Q) : bool :=
  match x with
  | Fin q => Qltb q y
  | Infinity => false
  end.

(** [Math.round]: the nearest integer, halves rounded up. *)
Definition Math_round (x : Q) : Z := Qfloor (x + (1 # 2))%Q.

(** Truncation toward zero ([Math.trunc], and the integer conversion a
    [Date] applies to its time value). *)
Definition Math_trunc (x : Q) : Z := Z.quot (Qnum x) (Zpos (Qden x)).

(** Decimal rendering of an integer, as in a template literal. *)
Definition string_of_Z (z : Z) : string :=
  NilZero.string_of_int (Z.to_int z).

(** Rendering of [k / 10] for an integer [k >= 0]: [12] prints as
    "1.2" and [20] as "2". *)
Definition string_of_tenths (k : Z) : string :=
  if k mod 10 =? 0 then string_of_Z (k / 10)
  else (string_of_Z (k / 10) ++ "." ++ string_of_Z (k mod 10))%string.

End JsNum.
Import JsNum.

(* ------------------------------------------------------------------ *)
(** ** JavaScript numbers as IEEE 754 doubles *)

Module Double.

(** Binary64: 53 bits of precision, infinities at exponent 1024. *)
Definition prec : Z := 53.
Definition emax : Z := 1024.

(** The literal [0]. *)
Definition zero : spec_float := S754_zero false.

(** The double of an integer (exact below 2^53 in absolute value). *)
Definition ofZ (z : Z) : spec_float := binary_normalize prec emax z 0 false.

(** [x / y] and [x * y], rounded to nearest, ties to even. *)
Definition div : spec_float -> spec_float -> spec_float := SFdiv prec emax.
Definition mul : spec_float -> spec_float -> spec_float := SFmul prec emax.

(** [x < y] and [x <= y]; false when either is [NaN]. *)
Definition ltb : spec_float -> spec_float -> bool := SFltb.
Definition leb : spec_float -> spec_float -> bool := SFleb.

(** The double nearest to a rational with numerator and denominator
    below 2^53: how a decimal such as 0.1 is held. *)
Definition ofQ (q : Q) : spec_float :=
  div (ofZ (Qnum q)) (ofZ (Zpos (Qden q))).

(** floor(x + 1/2) for the finite double x = (-1)^s * m * 2^e, computed
    exactly. *)
Definition roundHalfUp (s : bool) (m : positive) (e : Z) : Z :=
  let n := if s then Zneg m else Zpos m in
  match e with
  | Zneg p => (2 * n + 2 ^ Zpos p) / 2 ^ (Zpos p + 1)
  | _ => n * 2 ^ e
  end.

(** [Math.round]: the nearest integer, halves rounded up; a result of
    zero keeps the sign of the argument, and [NaN] and the infinities are
    returned as they are. *)
Definition Math_round (x : spec_float) : spec_float :=
  match x with
  | S754_finite s m e =>
      let k := roundHalfUp s m e in
      if k =? 0 then S754_zero s else ofZ k
  | _ => x
  end.

End Double.

(* ------------------------------------------------------------------ *)
(** ** Dates (date-fns and the [Date] object) *)

Module JsDate.

Definition MS_PER_SECOND : Z := 1000.
Definition MS_PER_MINUTE : Z := 60000.
Definition MS_PER_HOUR : Z := 3600000.
Definition MS_PER_DAY : Z := 86400000.

(** date-fns [differenceInHours(left, right)]. *)
Definition differenceInHours (dateLeft dateRight : Z) : Z :=
  Z.quot (dateLeft - dateRight) MS_PER_HOUR.

(** date-fns [addHours(date, amount)]. *)
Definition addHours (date : Z) (amount : Q) : Z :=
  Math_trunc (inject_Z date + amount * inject_Z MS_PER_HOUR)%Q.

(** A time zone, as the [Date] object sees it: the offset of local time
    from UTC, in milliseconds, that the zone's rules give at a UTC
    instant ([offsetAt], LocalTZA(t, true) in ECMAScript) and for a local
    time value ([offsetOfLocal], LocalTZA(t, false)).  The two differ
    around a change of the clocks. *)
Record Zone : Type := mkZone
  { offsetAt : Z -> Z;
    offsetOfLocal : Z -> Z }.

(** The zone that stays [offset] milliseconds ahead of UTC. *)
Definition fixed (offset : Z) : Zone :=
  mkZone (fun _ => offset) (fun _ => offset).

Coercion fixed : Z >-> Zone.

(** An integer written where a zone is expected is that fixed offset. *)
Bind Scope Z_scope with Zone.

Section LocalTime.
Variable tz : Zone.

(** ECMAScript LocalTime(t) and UTC(t). *)
Definition localTime (date : Z) : Z := date + offsetAt tz date.

Definition utcOfLocal (local : Z) : Z := local - offsetOfLocal tz local.

(** Midnight of the local day of [date], as a local time value. *)
Definition startOfLocalDay (date : Z) : Z :=
  localTime date - (localTime date) mod MS_PER_DAY.

(** [d.setHours(h, m, s, ms)], returning the new time value: the local
    day of [d] at the given time of day, read back through the zone. *)
Definition setHours (date h m s ms : Z) : Z :=
  utcOfLocal
    (startOfLocalDay date
     + h * MS_PER_HOUR + m * MS_PER_MINUTE + s * MS_PER_SECOND + ms).

(** [d.setDate(d.getDate() + days)]: the same local time of day, [days]
    local days later. *)
Definition addLocalDays (date days : Z) : Z :=
  utcOfLocal (localTime date + days * MS_PER_DAY).

Definition getHours (date : Z) : Z :=
  ((localTime date) mod MS_PER_DAY) / MS_PER_HOUR.

Definition getMinutes (date : Z) : Z :=
  ((localTime date) mod MS_PER_HOUR) / MS_PER_MINUTE.

(** 0 is Sunday; the epoch fell on a Thursday. *)
Definition getDay (date : Z) : Z :=
  ((localTime date) / MS_PER_DAY + 4) mod 7.

Definition twoDigits (n : Z) : string :=
  if n <? 10 then ("0" ++ string_of_Z n)%string else string_of_Z n.

(** date-fns [format(date, "HH:mm")]. *)
Definition format_HHmm (date : Z) : string :=
  (twoDigits (getHours date) ++ ":" ++ twoDigits (getMinutes date))%string.
End LocalTime.

(** [Number] on a string of decimal digits ([Number("")] is 0); [None]
    stands for [NaN].  Spellings the "HH:mm" format excludes (signs,
    exponents, blanks) are read as [NaN] here. *)
Fixpoint digitsValue (acc : Z) (s : string) : option Z :=
  match s with
  | EmptyString => Some acc
  | String c rest =>
      let n := Z.of_nat (nat_of_ascii c) in
      if (48 <=? n) && (n <=? 57)
      then digitsValue (10 * acc + (n - 48)) rest
      else None
  end.

(** [s.split(":")]. *)
Fixpoint splitColon (cur : string) (s : string) : list string :=
  match s with
  | EmptyString => [cur]
  | String c rest =>
      if Ascii.eqb c ":" then cur :: splitColon EmptyString rest
      else splitColon (cur ++ String c EmptyString)%string rest
  end.

(** [const [h, m] = s.split(":").map(Number)]: [None] when either
    component is [NaN] or missing, which makes the resulting [Date]
    invalid. *)
Definition parseHourMinute (s : string) : option (Z * Z) :=
  match map (digitsValue 0) (splitColon EmptyString s) with
  | Some h :: Some m :: _ => Some (h, m)
  | _ => None
  end.

End JsDate.
Import JsDate.

(* ------------------------------------------------------------------ *)
(** ** Ramda *)

Module R.

Section SortBy.
Context {A : Type} (key : A -> Z).

Fixpoint insertBy (x : A) (l : list A) : list A :=
  match l with
  | [] => [x]
  | y :: l' => if key x <=? key y then x :: l else y :: insertBy x l'
  end.

(** [R.sortBy(key)]: a stable sort, ascending in [key]. *)
Definition sortBy (l : list A) : list A := fold_right insertBy [] l.

(** The order [R.sortBy(key)] sorts by. *)
Definition keyLe (a b : A) : Prop := key a <= key b.
End SortBy.

(** [R.take(n)]. *)
Definition take {A : Type} (n : nat) (l : list A) : list A := firstn n l.

(** [R.aperture(2)]: the consecutive pairs of a list. *)
Fixpoint aperture2 {A : Type} (l : list A) : list (A * A) :=
  match l with
  | a :: (b :: _) as tl => (a, b) :: aperture2 tl
  | _ => []
  end.

(** [R.sum]. *)
Definition sum (l : list Z) : Z := fold_left Z.add l 0.

Section GroupBy.
Context {A : Type} (key : A -> string).

Fixpoint addToGroup (k : string) (x : A) (g : list (string * list A))
  : list (string * list A) :=
  match g with
  | [] => [(k, [x])]
  | (k', xs) :: g' =>
      if String.eqb k k' then (k', xs ++ [x]) :: g'
      else (k', xs) :: addToGroup k x g'
  end.

(** [R.toPairs (R.groupBy key l)]: the groups in order of first
    occurrence of their key (the order of the keys of a JavaScript object
    when none of them is an integer index). *)
Definition groupPairs (l : list A) : list (string * list A) :=
  fold_left (fun g x => addToGroup (key x) x g) l [].
End GroupBy.

End R.

(* ------------------------------------------------------------------ *)
(** ** Data model ([api/app/model/types.ts], Prisma models) *)

Module SessionTypeModel.
Record t : Type := mk
  { id : string; name : string; category : string; priority : Z }.
End SessionTypeModel.

Module SessionModel.
Record t : Type := mk
  { id : string;
    sessionTypeId : string;
    sessionType : SessionTypeModel.t;
    startTime : Z;
    endTime : Z;
    completed : bool }.
End SessionModel.

Module AvailabilityWindowModel.
Record t : Type := mk
  { id : string; dayOfWeek : Z; startTime : string; endTime : string }.
End AvailabilityWindowModel.

(** [startTime] and [endTime] are ISO-8601 renderings of a time value in
    the source ([toISOString]); the time value itself is kept here. *)
Module SessionSuggestion.
Record t : Type := mk
  { sessionTypeId : string;
    startTime : Z;
    endTime : Z;
    reason : string;
    score : Z }.
End SessionSuggestion.

Module TypeCount.
Record t : Type := mk
  { sessionTypeId : string; sessionTypeName : string; count : Z }.
End TypeCount.

Module ProgressStats.
Record t : Type := mk
  { totalScheduled : Z;
    totalCompleted : Z;
    completionRate : spec_float;
    sessionsByType : list TypeCount.t;
    averageSpacing : spec_float }.
End ProgressStats.

(* ------------------------------------------------------------------ *)
(** ** [api/app/model/suggestion.ts] *)

Module Suggestion.

Definition MIN_SPACING_HOURS : Z := 2.
Definition IDEAL_SPACING_HOURS : Z := 24.
Definition MAX_SESSIONS_PER_DAY : Z := 4.
Definition HIGH_PRIORITY_THRESHOLD : Z := 4.

Definition len {A : Type} (l : list A) : Z := Z.of_nat (List.length l).

(** [Math.min(100, x / d * 100)] for an extended [x] and [d > 0]. *)
Definition min100_ratio (x : num) (d : Z) : Q :=
  match x with
  | Infinity => 100
  | Fin q =>
      let r := (q / inject_Z d * 100)%Q in
      if Qle_bool 100 r then 100%Q else r
  end.

(** The spacing of one existing session to the proposed slot (the body
    of the [map] in [calculateSpacingScore]). *)
Definition sessionSpacing (proposedStart proposedEnd : Z)
  (session : SessionModel.t) : num :=
  let sessionStart := SessionModel.startTime session in
  let sessionEnd := SessionModel.endTime session in
  let distanceBefore := differenceInHours proposedStart sessionEnd in
  let distanceAfter := differenceInHours sessionStart proposedEnd in
  Math_min
    [ if 0 <? distanceBefore then Fin (inject_Z distanceBefore) else Infinity;
      if 0 <? distanceAfter then Fin (inject_Z distanceAfter) else Infinity ].

Definition calculateSpacingScore (proposedStart proposedEnd : Z)
  (existingSessions : list SessionModel.t) : Q :=
  if len existingSessions =? 0 then 100%Q
  else
    let spacings := map (sessionSpacing proposedStart proposedEnd)
                        existingSessions in
    let minSpacing := Math_min spacings in
    if ltb_fin minSpacing (inject_Z MIN_SPACING_HOURS) then 0%Q
    else min100_ratio minSpacing IDEAL_SPACING_HOURS.

Definition calculatePriorityScore (priority : Z) : Q :=
  (inject_Z priority / 5 * 100)%Q.

Section Local.
Variable tz : Zone.

Definition calculateDayLoadScore (proposedDate : Z)
  (existingSessions : list SessionModel.t) : Q :=
  let dayStart := setHours tz proposedDate 0 0 0 0 in
  let dayEnd := setHours tz proposedDate 23 59 59 999 in
  let sessionsOnDay :=
    filter (fun session =>
              let sessionDate := SessionModel.startTime session in
              (dayStart <=? sessionDate) && (sessionDate <=? dayEnd))
           existingSessions in
  if MAX_SESSIONS_PER_DAY <=? len sessionsOnDay then 20%Q
  else inject_Z (100 - len sessionsOnDay * 15).

Definition calculateAvailabilityScore (proposedStart proposedEnd : Z)
  (availabilityWindows : list AvailabilityWindowModel.t) : Q :=
  let dayOfWeek := getDay tz proposedStart in
  let startTimeStr := format_HHmm tz proposedStart in
  let endTimeStr := format_HHmm tz proposedEnd in
  let matchingWindows :=
    filter (fun window => AvailabilityWindowModel.dayOfWeek window =? dayOfWeek)
           availabilityWindows in
  if len matchingWindows =? 0 then 50%Q
  else
    let fitsInWindow :=
      existsb (fun window =>
                 String.leb (AvailabilityWindowModel.startTime window) startTimeStr
                 && String.leb endTimeStr (AvailabilityWindowModel.endTime window))
              matchingWindows in
    if fitsInWindow then 100%Q
    else
      let partialFit :=
        existsb (fun window =>
                   (String.leb (AvailabilityWindowModel.startTime window) startTimeStr
                    && String.ltb startTimeStr (AvailabilityWindowModel.endTime window))
                   || (String.ltb (AvailabilityWindowModel.startTime window) endTimeStr
                       && String.leb endTimeStr (AvailabilityWindowModel.endTime window)))
                matchingWindows in
      if partialFit then 50%Q else 0%Q.

End Local.

Definition calculateFatigueScore (proposedStart sessionTypePriority : Z)
  (existingSessions : list SessionModel.t) : Q :=
  if sessionTypePriority <? HIGH_PRIORITY_THRESHOLD then 100%Q
  else
    let windowStart := addHours proposedStart (-48) in
    let windowEnd := addHours proposedStart 48 in
    let nearbyHighPrioritySessions :=
      filter (fun session =>
                let sessionDate := SessionModel.startTime session in
                (windowStart <=? sessionDate) && (sessionDate <=? windowEnd)
                && (HIGH_PRIORITY_THRESHOLD <=?
                      SessionTypeModel.priority (SessionModel.sessionType session)))
             existingSessions in
    if 3 <=? len nearbyHighPrioritySessions then 30%Q
    else if 2 <=? len nearbyHighPrioritySessions then 60%Q
    else 100%Q.

(** The loop
    [while (addHours(currentTime, durationMinutes / 60) <= windowEnd)
       { slots.push(currentTime); currentTime = addHours(currentTime, 0.5) }].
    The measure is the number of half-hour steps still fitting in the
    window. *)
Equations? slotsLoop (durationMinutes windowEnd currentTime : Z) : list Z
  by wf (Z.to_nat
           ((windowEnd - addHours currentTime (inject_Z durationMinutes / 60))
              / 1800000 + 1)) lt :=
  slotsLoop durationMinutes windowEnd currentTime
    with Z_le_dec (addHours currentTime (inject_Z durationMinutes / 60))
                  windowEnd => {
    | left _ =>
        currentTime
          :: slotsLoop durationMinutes windowEnd (addHours currentTime 0.5);
    | right _ => nil }.
Proof.
  assert (Hm : forall c,
             addHours c (inject_Z durationMinutes / 60)
             = c + durationMinutes * 60000).
  { intro c. unfold addHours, Math_trunc, MS_PER_HOUR.
    cbn -[Z.mul Z.add Z.quot].
    replace (c * 60 + durationMinutes * 1 * 3600000 * 1)
      with ((c + durationMinutes * 60000) * 60) by ring.
    apply Z.quot_mul. discriminate. }
  assert (Hh : addHours currentTime 0.5 = currentTime + 1800000).
  { unfold addHours, Math_trunc, MS_PER_HOUR. cbn -[Z.mul Z.add Z.quot].
    replace (currentTime * 10 + 5 * 3600000 * 1)
      with ((currentTime + 1800000) * 10) by ring.
    apply Z.quot_mul. discriminate. }
  rewrite Hh, !Hm in *.
  replace (windowEnd - (currentTime + 1800000 + durationMinutes * 60000))
    with ((windowEnd - (currentTime + durationMinutes * 60000))
          + (-1) * 1800000) by ring.
  rewrite Z.div_add by discriminate.
  assert (0 <= (windowEnd - (currentTime + durationMinutes * 60000)) / 1800000)
    by (apply Z.div_pos; lia).
  lia.
Qed.

(** The conflict test of [generateSuggestions] (the callback of
    [existingSessions.some]). *)
Definition conflictsWith (startTime endTime : Z) (session : SessionModel.t)
  : bool :=
  let sessionStart := SessionModel.startTime session in
  let sessionEnd := SessionModel.endTime session in
  ((sessionStart <=? startTime) && (startTime <? sessionEnd))
  || ((sessionStart <? endTime) && (endTime <=? sessionEnd))
  || ((startTime <=? sessionStart) && (sessionEnd <=? endTime)).

Section Engine.
Variable tz : Zone.

(** Slots of one availability window (the callback of [windows.forEach]).
    A window whose bounds do not parse yields invalid dates, for which the
    loop condition is false. *)
Definition windowSlots (date durationMinutes : Z)
  (window : AvailabilityWindowModel.t) : list Z :=
  match parseHourMinute (AvailabilityWindowModel.startTime window),
        parseHourMinute (AvailabilityWindowModel.endTime window) with
  | Some (startHour, startMinute), Some (endHour, endMinute) =>
      let windowStart := setHours tz date startHour startMinute 0 0 in
      let windowEnd := setHours tz date endHour endMinute 0 0 in
      slotsLoop durationMinutes windowEnd windowStart
  | _, _ => []
  end.

Definition generateTimeSlots (date durationMinutes : Z)
  (availabilityWindows : list AvailabilityWindowModel.t) : list Z :=
  let dayOfWeek := getDay tz date in
  let windows :=
    filter (fun w => AvailabilityWindowModel.dayOfWeek w =? dayOfWeek)
           availabilityWindows in
  if len windows =? 0 then
    let defaultStart := setHours tz date 6 0 0 0 in
    let defaultEnd := setHours tz date 22 0 0 0 in
    slotsLoop durationMinutes defaultEnd defaultStart
  else flat_map (windowSlots date durationMinutes) windows.

Definition scoreTimeSlot (startTime endTime : Z)
  (sessionType : SessionTypeModel.t)
  (existingSessions : list SessionModel.t)
  (availabilityWindows : list AvailabilityWindowModel.t) : Q :=
  let spacingScore := calculateSpacingScore startTime endTime existingSessions in
  let priorityScore :=
    calculatePriorityScore (SessionTypeModel.priority sessionType) in
  let dayLoadScore := calculateDayLoadScore tz startTime existingSessions in
  let availabilityScore :=
    calculateAvailabilityScore tz startTime endTime availabilityWindows in
  let fatigueScore :=
    calculateFatigueScore startTime (SessionTypeModel.priority sessionType)
                          existingSessions in
  (spacingScore * 0.3 + priorityScore * 0.15 + dayLoadScore * 0.2
   + availabilityScore * 0.25 + fatigueScore * 0.1)%Q.

(** The spacing clause of [generateReason]; [Math.round(x * 10) / 10] is
    rendered directly from the integer [Math.round(x * 10)]. *)
Definition spacingReasons (startTime : Z)
  (sameTypeSessions : list SessionModel.t) : list string :=
  match sameTypeSessions with
  | first :: _ =>
      let lastName := SessionTypeModel.name (SessionModel.sessionType first) in
      let spacings :=
        filter (fun h => 0 <? h)
               (map (fun session =>
                       differenceInHours startTime (SessionModel.endTime session))
                    sameTypeSessions) in
      match spacings with
      | h :: rest =>
          let minSpacing := fold_right Z.min h rest in
          if 24 <=? minSpacing then
            [ ("Good spacing ("
               ++ string_of_tenths
                    (Math_round (inject_Z minSpacing / 24 * 10)%Q)
               ++ " days since last " ++ lastName ++ ")")%string ]
          else
            [ ("Good spacing ("
               ++ string_of_Z (Math_round (inject_Z minSpacing))
               ++ " hours since last " ++ lastName ++ ")")%string ]
      | [] => []
      end
  | [] => [ "First session of this type"%string ]
  end.

Definition focusReasons (startTime : Z) : list string :=
  let hour := getHours tz startTime in
  if (6 <=? hour) && (hour <? 12) then [ "Uses your morning focus window"%string ]
  else if (18 <=? hour) && (hour <? 22)
       then [ "Uses your evening focus window"%string ]
       else [].

Definition priorityReasons (priority : Z) : list string :=
  if HIGH_PRIORITY_THRESHOLD <=? priority
  then [ "High priority session"%string ] else [].

Definition joinReasons (reasons : list string) : string :=
  if 0 <? len reasons then String.concat ". " reasons
  else "Good time slot available"%string.

Definition generateReason (startTime : Z) (score : Q) (priority : Z)
  (existingSessions : list SessionModel.t) (sessionTypeId : string) : string :=
  let sameTypeSessions :=
    filter (fun session =>
              String.eqb (SessionModel.sessionTypeId session) sessionTypeId)
           existingSessions in
  let reasons :=
    spacingReasons startTime sameTypeSessions
    ++ focusReasons startTime
    ++ priorityReasons priority in
  joinReasons reasons.

(** The body of [timeSlots.forEach]: the suggestions one slot pushes. *)
Definition slotSuggestions (sessionType : SessionTypeModel.t)
  (existingSessions : list SessionModel.t)
  (availabilityWindows : list AvailabilityWindowModel.t)
  (durationMinutes : Z) (startTime : Z) : list SessionSuggestion.t :=
  let endTime := addHours startTime (inject_Z durationMinutes / 60) in
  let conflicts := existsb (conflictsWith startTime endTime) existingSessions in
  if conflicts then []
  else
    let score := scoreTimeSlot startTime endTime sessionType
                               existingSessions availabilityWindows in
    if Qle_bool 30 score then
      let reason := generateReason startTime score
                      (SessionTypeModel.priority sessionType)
                      existingSessions (SessionTypeModel.id sessionType) in
      [ SessionSuggestion.mk (SessionTypeModel.id sessionType)
          startTime endTime reason (Math_round score) ]
    else [].

(** The values [dayOffset] takes in
    [for (let dayOffset = 0; dayOffset < lookAheadDays; dayOffset++)]. *)
Definition dayOffsets (lookAheadDays : Z) : list Z :=
  map Z.of_nat (seq 0 (Z.to_nat lookAheadDays)).

(** [now] is the time value of [new Date()]. *)
Definition generateSuggestions (now : Z) (sessionType : SessionTypeModel.t)
  (existingSessions : list SessionModel.t)
  (availabilityWindows : list AvailabilityWindowModel.t)
  (durationMinutes lookAheadDays : Z) : list SessionSuggestion.t :=
  let today := setHours tz now 0 0 0 0 in
  let suggestions :=
    flat_map
      (fun dayOffset =>
         let date := addHours today (inject_Z (dayOffset * 24)) in
         let timeSlots :=
           generateTimeSlots date durationMinutes availabilityWindows in
         flat_map (slotSuggestions sessionType existingSessions
                                   availabilityWindows durationMinutes)
                  timeSlots)
      (dayOffsets lookAheadDays) in
  R.take 10 (R.sortBy (fun s => - SessionSuggestion.score s) suggestions).

End Engine.

End Suggestion.

(* ------------------------------------------------------------------ *)
(** ** [api/app/model/progress.ts] *)

Module Progress.

Import Suggestion.

(** The hours and their sum are integers; the two divisions are
    divisions of doubles. *)
Definition calculateAverageSpacing (sessions : list SessionModel.t)
  : spec_float :=
  if len sessions <? 2 then Double.zero
  else
    let sortedSessions := R.sortBy SessionModel.startTime sessions in
    let spacings :=
      map (fun '(prev, curr) =>
             let prevEnd := SessionModel.endTime prev in
             let currStart := SessionModel.startTime curr in
             differenceInHours currStart prevEnd)
          (R.aperture2 sortedSessions) in
    if len spacings =? 0 then Double.zero
    else
      let totalSpacing := R.sum spacings in
      Double.div
        (Double.div (Double.ofZ totalSpacing) (Double.ofZ (len spacings)))
        (Double.ofZ 24).

(** A group produced by [R.groupBy] is never empty; the empty case below
    is unreachable. *)
Definition calculateSessionsByType (sessions : list SessionModel.t)
  : list TypeCount.t :=
  let grouped := R.groupPairs SessionModel.sessionTypeId sessions in
  R.sortBy (fun item => - TypeCount.count item)
    (map (fun '(sessionTypeId, sessionList) =>
            TypeCount.mk sessionTypeId
              match sessionList with
              | firstSession :: _ =>
                  SessionTypeModel.name (SessionModel.sessionType firstSession)
              | [] => EmptyString
              end
              (len sessionList))
         grouped).

Definition calculateProgressStats (sessions : list SessionModel.t)
  : ProgressStats.t :=
  let totalScheduled := len sessions in
  let totalCompleted := len (filter SessionModel.completed sessions) in
  let completionRate :=
    if 0 <? totalScheduled
    then Double.Math_round
           (Double.mul
              (Double.div (Double.ofZ totalCompleted)
                          (Double.ofZ totalScheduled))
              (Double.ofZ 100))
    else Double.zero in
  let sessionsByType := calculateSessionsByType sessions in
  let averageSpacing := calculateAverageSpacing sessions in
  ProgressStats.mk totalScheduled totalCompleted completionRate sessionsByType
    (Double.div
       (Double.Math_round (Double.mul averageSpacing (Double.ofZ 10)))
       (Double.ofZ 10)).

End Progress.

(* ------------------------------------------------------------------ *)
(** ** [api/app/api/sessions/route.ts]: POST *)

Module SessionsRoute.

(** The request body after [parseISO]: [None] is an invalid date. *)
Record CreateSessionRequest : Type := mkRequest
  { sessionTypeId : string;
    startTime : option Z;
    endTime : option Z }.

(** The tables the handler reads and writes through Prisma. *)
Record Db : Type := mkDb
  { sessionTypes : list SessionTypeModel.t;
    sessions : list SessionModel.t }.

(** The JSON responses of the handler, by status. *)
Inductive Response : Type :=
| NotFound
| BadRequest
| Conflict (conflicts : list SessionModel.t)
| Created (session : SessionModel.t).

Definition status (r : Response) : Z :=
  match r with
  | NotFound => 404
  | BadRequest => 400
  | Conflict _ => 409
  | Created _ => 201
  end.

(** [prisma.sessionType.findUnique({ where: { id } })]. *)
Definition findUnique (types : list SessionTypeModel.t) (id : string)
  : option SessionTypeModel.t :=
  find (fun t => String.eqb (SessionTypeModel.id t) id) types.

(** date-fns [isAfter(date, dateToCompare)]; false on invalid dates. *)
Definition isAfter (date dateToCompare : option Z) : bool :=
  match date, dateToCompare with
  | Some d, Some c => c <? d
  | _, _ => false
  end.

(** The [where] clause of the conflict query:
    [startTime: { lt: endTime }, endTime: { gt: startTime }]. *)
Definition overlapsRequest (startTime endTime : Z) (s : SessionModel.t)
  : bool :=
  (SessionModel.startTime s <? endTime) && (startTime <? SessionModel.endTime s).

(** [newId] is the identifier Prisma generates for the created row. *)
Definition POST (db : Db) (newId : string) (body : CreateSessionRequest)
  : Response * Db :=
  match findUnique (sessionTypes db) (sessionTypeId body) with
  | None => (NotFound, db)
  | Some sessionType =>
      if negb (isAfter (endTime body) (startTime body)) then (BadRequest, db)
      else
        match startTime body, endTime body with
        | Some startTime, Some endTime =>
            let conflictingSessions :=
              filter (overlapsRequest startTime endTime) (sessions db) in
            if 0 <? Suggestion.len conflictingSessions
            then (Conflict conflictingSessions, db)
            else
              let session :=
                SessionModel.mk newId (sessionTypeId body) sessionType
                                startTime endTime false in
              (Created session, mkDb (sessionTypes db) (sessions db ++ [session]))
        | _, _ => (BadRequest, db)
        end
  end.

End SessionsRoute.

(* ------------------------------------------------------------------ *)
(** ** Specification-side definitions *)

Module Spec.

Import Suggestion.

(** Half-open intervals [[a, b)] and [[c, d)] overlap. *)
Definition halfOpenOverlap (a b c d : Z) : Prop := a < d /\ c < b.

(** A point lies in the half-open interval [[a, b)]. *)
Definition inHalfOpen (a b t : Z) : Prop := a <= t < b.

Definition properSession (s : SessionModel.t) : Prop :=
  SessionModel.startTime s < SessionModel.endTime s.

Definition validPriority (t : SessionTypeModel.t) : Prop :=
  1 <= SessionTypeModel.priority t <= 5.

(** *** Spacing factor *)

(** The positive gaps, in milliseconds, between a candidate and one
    session, in both directions. *)
Definition positiveGaps (proposedStart proposedEnd : Z) (s : SessionModel.t)
  : list Z :=
  filter (fun g => 0 <? g)
         [ proposedStart - SessionModel.endTime s;
           SessionModel.startTime s - proposedEnd ].

Definition minimumOf (l : list Z) : option Z :=
  match l with
  | [] => None
  | x :: r => Some (fold_right Z.min x r)
  end.

(** The minimum positive gap across all sessions and both directions. *)
Definition minPositiveGap (proposedStart proposedEnd : Z)
  (sessions : list SessionModel.t) : option Z :=
  minimumOf (flat_map (positiveGaps proposedStart proposedEnd) sessions).

Definition min100 (r : Q) : Q := if Qle_bool 100 r then 100%Q else r.

(** The spacing factor as the specification words it, for a minimum
    positive gap of [gap] milliseconds: 0 below two hours, otherwise
    [min(100, (gap / 24h) * 100)]. *)
Definition spacingFactorOfGap (gap : Z) : Q :=
  if gap <? 2 * MS_PER_HOUR then 0%Q
  else min100 (inject_Z gap / inject_Z (24 * MS_PER_HOUR) * 100)%Q.

(** The same, with the gap counted in whole hours. *)
Definition spacingFactorOfWholeHours (gap : Z) : Q :=
  let hours := gap / MS_PER_HOUR in
  if hours <? 2 then 0%Q else min100 (inject_Z hours / 24 * 100)%Q.

(** No session lies within less than one hour of the candidate. *)
Definition noSubHourGap (proposedStart proposedEnd : Z)
  (sessions : list SessionModel.t) : bool :=
  forallb (fun g => MS_PER_HOUR <=? g)
          (flat_map (positiveGaps proposedStart proposedEnd) sessions).

(** The sessions' distances as [calculateSpacingScore] counts them: whole
    hours, the positive ones. *)
Definition positiveHours (proposedStart proposedEnd : Z) (s : SessionModel.t)
  : list Z :=
  filter (fun h => 0 <? h)
         [ differenceInHours proposedStart (SessionModel.endTime s);
           differenceInHours (SessionModel.startTime s) proposedEnd ].

Definition optionMin (a b : option Z) : option Z :=
  match a, b with
  | None, _ => b
  | _, None => a
  | Some x, Some y => Some (Z.min x y)
  end.

(** A minimum of integers as an extended number; no minimum is
    [Infinity]. *)
Definition numOfOption (o : option Z) : num :=
  match o with
  | Some h => Fin (inject_Z h)
  | None => Infinity
  end.

(** *** Average spacing *)

(** Rounding to one decimal, halves up, in exact arithmetic. *)
Definition roundToTenth (x : Q) : Q :=
  (inject_Z (Math_round (x * 10)) / 10)%Q.

Fixpoint consecutiveGaps (gap : Z -> Z -> Q) (l : list SessionModel.t)
  : list Q :=
  match l with
  | prev :: (curr :: _) as tl =>
      gap (SessionModel.endTime prev) (SessionModel.startTime curr)
      :: consecutiveGaps gap tl
  | _ => []
  end.

Definition Qsum (l : list Q) : Q := fold_right Qplus 0%Q l.

(** Sort all sessions by start time, average the gaps between consecutive
    sessions, convert to days and round to one decimal, all in exact
    arithmetic; 0 for fewer than two sessions.  [gap prevEnd currStart]
    measures one gap in hours. *)
Definition averageSpacingWith (gap : Z -> Z -> Q)
  (sessions : list SessionModel.t) : Q :=
  match sessions with
  | [] | [_] => 0%Q
  | _ =>
      let gaps :=
        consecutiveGaps gap (R.sortBy SessionModel.startTime sessions) in
      roundToTenth (Qsum gaps / inject_Z (len gaps) / 24)
  end.

(** A gap in hours, exactly. *)
Definition exactHours (prevEnd currStart : Z) : Q :=
  (inject_Z (currStart - prevEnd) / inject_Z MS_PER_HOUR)%Q.

(** A gap in whole hours, truncated toward zero. *)
Definition wholeHours (prevEnd currStart : Z) : Q :=
  inject_Z (Z.quot (currStart - prevEnd) MS_PER_HOUR).

(** The gaps between consecutive sessions of a list, in whole hours. *)
Fixpoint wholeHourGaps (l : list SessionModel.t) : list Z :=
  match l with
  | prev :: (curr :: _) as tl =>
      Z.quot (SessionModel.startTime curr - SessionModel.endTime prev)
             MS_PER_HOUR
      :: wholeHourGaps tl
  | _ => []
  end.

(** Sort all sessions by start time and take the gaps between
    consecutive sessions in whole hours; then, in doubles, divide their
    sum by their number and by 24, multiply by 10, round half up and
    divide by 10.  0 for fewer than two sessions. *)
Definition averageSpacingDouble (sessions : list SessionModel.t)
  : spec_float :=
  match sessions with
  | [] | [_] => Double.zero
  | _ =>
      let gaps := wholeHourGaps (R.sortBy SessionModel.startTime sessions) in
      let days :=
        Double.div
          (Double.div (Double.ofZ (fold_right Z.add 0 gaps))
                      (Double.ofZ (len gaps)))
          (Double.ofZ 24) in
      Double.div (Double.Math_round (Double.mul days (Double.ofZ 10)))
                 (Double.ofZ 10)
  end.

(** *** Reason strings *)

(** The end of the most recent session that ended before [startTime]. *)
Definition mostRecentEnd (startTime : Z) (sessions : list SessionModel.t)
  : option Z :=
  match filter (fun e => e <? startTime) (map SessionModel.endTime sessions) with
  | [] => None
  | e :: r => Some (fold_right Z.max e r)
  end.

Definition spacingSentence (amount unit lastName : string) : string :=
  ("Good spacing (" ++ amount ++ " " ++ unit ++ " since last "
   ++ lastName ++ ")")%string.

(** The spacing clause for a gap of [gap] milliseconds to the most recent
    session of the type, the number of days or hours taken from the
    exact gap. *)
Definition spacingClauseExact (gap : Z) (lastName : string) : string :=
  if 24 * MS_PER_HOUR <=? gap then
    spacingSentence
      (string_of_tenths
         (Math_round (inject_Z gap / inject_Z (24 * MS_PER_HOUR) * 10)%Q))
      "days" lastName
  else
    spacingSentence
      (string_of_Z (Math_round (inject_Z gap / inject_Z MS_PER_HOUR)%Q))
      "hours" lastName.

(** The same, the gap counted in whole hours. *)
Definition spacingClauseWholeHours (gap : Z) (lastName : string) : string :=
  let hours := gap / MS_PER_HOUR in
  if 24 <=? hours then
    spacingSentence
      (string_of_tenths (Math_round (inject_Z hours / 24 * 10)%Q))
      "days" lastName
  else spacingSentence (string_of_Z hours) "hours" lastName.

Section Reasons.
Variable tz : Zone.
Variable spacingClause : Z -> string -> string.

Definition sameType (sessionTypeId : string)
  (sessions : list SessionModel.t) : list SessionModel.t :=
  filter (fun s => String.eqb (SessionModel.sessionTypeId s) sessionTypeId)
         sessions.

(** Clause (a): spacing relative to the most recent session of the same
    type, or "First session of this type". *)
Definition clauseSpacing (startTime : Z) (same : list SessionModel.t)
  : list string :=
  match same with
  | [] => [ "First session of this type"%string ]
  | first :: _ =>
      match mostRecentEnd startTime same with
      | Some e =>
          [ spacingClause (startTime - e)
              (SessionTypeModel.name (SessionModel.sessionType first)) ]
      | None => []
      end
  end.

(** Clause (b): the focus window of the candidate's start hour. *)
Definition clauseFocus (startTime : Z) : list string :=
  let hour := getHours tz startTime in
  if (6 <=? hour) && (hour <? 12)
  then [ "Uses your morning focus window"%string ]
  else if (18 <=? hour) && (hour <? 22)
       then [ "Uses your evening focus window"%string ]
       else [].

(** Clause (c): high priority. *)
Definition clausePriority (priority : Z) : list string :=
  if 4 <=? priority then [ "High priority session"%string ] else [].

Definition reasonOf (startTime priority : Z) (sessionTypeId : string)
  (sessions : list SessionModel.t) : string :=
  match (clauseSpacing startTime (sameType sessionTypeId sessions)
         ++ clauseFocus startTime ++ clausePriority priority)%list with
  | [] => "Good time slot available"%string
  | clauses => String.concat ". " clauses
  end.

End Reasons.

(** No session of the list ended less than one hour before [startTime]. *)
Definition noSubHourEnd (startTime : Z) (sessions : list SessionModel.t)
  : bool :=
  forallb (fun s =>
             negb ((SessionModel.endTime s <? startTime)
                   && (startTime - SessionModel.endTime s <? MS_PER_HOUR)))
          sessions.

(** *** Progress statistics *)

(** The percentage of [completed] among [scheduled], rounded half up, in
    exact arithmetic. *)
Definition exactRate (completed scheduled : Z) : Z :=
  Math_round (inject_Z completed / inject_Z scheduled * 100)%Q.

(** The same in doubles: the quotient is rounded to a double, then the
    product, then [Math.round] is applied. *)
Definition doubleRate (completed scheduled : Z) : spec_float :=
  Double.Math_round
    (Double.mul (Double.div (Double.ofZ completed) (Double.ofZ scheduled))
                (Double.ofZ 100)).

(** The number of completed sessions. *)
Definition completedCount (sessions : list SessionModel.t) : Z :=
  Z.of_nat (count_occ bool_dec (map SessionModel.completed sessions) true).

End Spec.

(* ------------------------------------------------------------------ *)
(** ** Concrete data (from the test suites) *)

Module Examples.

Definition deepWork : SessionTypeModel.t :=
  SessionTypeModel.mk "type-1" "Deep Work" "Work" 5.

Definition meeting : SessionTypeModel.t :=
  SessionTypeModel.mk "type-2" "Meeting" "Work" 3.

(** The time value of 2024-01-15 (a Monday) at [h:m] UTC. *)
Definition jan15 (h m : Z) : Z :=
  1705276800000 + h * MS_PER_HOUR + m * MS_PER_MINUTE.

(** The existing session of the tests: 10:00-11:00 UTC on 15 January. *)
Definition session1 : SessionModel.t :=
  SessionModel.mk "session-1" "type-2" meeting (jan15 10 0) (jan15 11 0) false.

Definition mondayWindow : AvailabilityWindowModel.t :=
  AvailabilityWindowModel.mk "avail-1" 1 "09:00" "17:00".

(** A completed session from 12:54 to 13:54, 1 h 54 min after [session1]. *)
Definition session2 : SessionModel.t :=
  SessionModel.mk "session-2" "type-2" meeting (jan15 12 54) (jan15 13 54) true.

(** A session overlapping [session1]: 10:30-11:30. *)
Definition session3 : SessionModel.t :=
  SessionModel.mk "session-3" "type-1" deepWork (jan15 10 30) (jan15 11 30) false.

(** A deep-work session that ended on 14 January at 08:06, that is
    25 h 54 min before 10:00 on 15 January. *)
Definition earlierDeepWork : SessionModel.t :=
  SessionModel.mk "session-0" "type-1" deepWork
    (jan15 (-17) 6) (jan15 (-16) 6) true.

Definition db1 : SessionsRoute.Db :=
  SessionsRoute.mkDb [deepWork; meeting] [session1].

Definition createRequest (startTime endTime : Z)
  : SessionsRoute.CreateSessionRequest :=
  SessionsRoute.mkRequest "type-1" (Some startTime) (Some endTime).

(** Forty one-hour meetings, one every two hours from 15 January 00:00
    UTC, of which the first 23 are completed. *)
Definition fortySessions : list SessionModel.t :=
  map (fun i =>
         SessionModel.mk (string_of_Z i) "type-2" meeting
           (jan15 (2 * i) 0) (jan15 (2 * i + 1) 0) (i <? 23))
      (map Z.of_nat (seq 0 40)).

(** Six one-hour meetings starting at 0:00, 2:00, 4:00, 6:00, 8:00 and
    11:00: the gaps between them are 1, 1, 1, 1 and 2 hours. *)
Definition spacedSessions : list SessionModel.t :=
  map (fun h =>
         SessionModel.mk (string_of_Z h) "type-2" meeting
           (jan15 h 0) (jan15 (h + 1) 0) false)
      [0; 2; 4; 6; 8; 11].

End Examples.

(* ------------------------------------------------------------------ *)
(** ** [api/app/api/sessions/[id]/route.ts]: GET, PUT, DELETE *)

Module SessionByIdRoute.

(** The request body of PUT.  For the two times, the outer [None] is a
    missing or empty string (falsy in the source) and the inner [None] an
    invalid date after [parseISO]. *)
Record UpdateSessionRequest : Type := mkUpdate
  { completed : option bool;
    startTime : option (option Z);
    endTime : option (option Z) }.

Inductive Response : Type :=
| Ok (session : SessionModel.t)
| Success
| NotFound
| BadRequest
| Conflict
| ServerError.

Definition status (r : Response) : Z :=
  match r with
  | Ok _ | Success => 200
  | NotFound => 404
  | BadRequest => 400
  | Conflict => 409
  | ServerError => 500
  end.

Definition hasId (id : string) (s : SessionModel.t) : bool :=
  String.eqb (SessionModel.id s) id.

(** [prisma.session.findUnique({ where: { id } })]. *)
Definition findSession (sessions : list SessionModel.t) (id : string)
  : option SessionModel.t :=
  find (hasId id) sessions.

Definition GET (db : SessionsRoute.Db) (id : string) : Response :=
  match findSession (SessionsRoute.sessions db) id with
  | Some session => Ok session
  | None => NotFound
  end.

(** The row after [updateData] is applied. *)
Definition applyUpdate (completed : option bool) (times : option (Z * Z))
  (s : SessionModel.t) : SessionModel.t :=
  SessionModel.mk (SessionModel.id s) (SessionModel.sessionTypeId s)
    (SessionModel.sessionType s)
    (match times with Some (st, _) => st | None => SessionModel.startTime s end)
    (match times with Some (_, et) => et | None => SessionModel.endTime s end)
    (match completed with Some c => c | None => SessionModel.completed s end).

(** [prisma.session.update({ where: { id }, data: updateData })]; a
    missing row raises P2025, answered with 404. *)
Definition update (db : SessionsRoute.Db) (id : string)
  (completed : option bool) (times : option (Z * Z))
  : Response * SessionsRoute.Db :=
  match findSession (SessionsRoute.sessions db) id with
  | None => (NotFound, db)
  | Some row =>
      (Ok (applyUpdate completed times row),
       SessionsRoute.mkDb (SessionsRoute.sessionTypes db)
         (map (fun s => if hasId id s then applyUpdate completed times s else s)
              (SessionsRoute.sessions db)))
  end.

Definition PUT (db : SessionsRoute.Db) (id : string)
  (body : UpdateSessionRequest) : Response * SessionsRoute.Db :=
  match startTime body, endTime body with
  | Some startTime, Some endTime =>
      if negb (SessionsRoute.isAfter endTime startTime) then (BadRequest, db)
      else
        match startTime, endTime with
        | Some startTime, Some endTime =>
            let conflictingSessions :=
              filter (fun s =>
                        negb (hasId id s)
                        && SessionsRoute.overlapsRequest startTime endTime s)
                     (SessionsRoute.sessions db) in
            if 0 <? Suggestion.len conflictingSessions then (Conflict, db)
            else update db id (completed body) (Some (startTime, endTime))
        | _, _ => (BadRequest, db)
        end
  | _, _ => update db id (completed body) None
  end.

(** [prisma.session.delete] raises when the row is missing; the handler
    answers every failure with 500. *)
Definition DELETE (db : SessionsRoute.Db) (id : string)
  : Response * SessionsRoute.Db :=
  match findSession (SessionsRoute.sessions db) id with
  | None => (ServerError, db)
  | Some _ =>
      (Success,
       SessionsRoute.mkDb (SessionsRoute.sessionTypes db)
         (filter (fun s => negb (hasId id s)) (SessionsRoute.sessions db)))
  end.

End SessionByIdRoute.

(* ------------------------------------------------------------------ *)
(** ** [api/app/api/suggestions/route.ts]: GET *)

Module SuggestionsRoute.

Inductive Response : Type :=
| Ok (suggestions : list SessionSuggestion.t)
| BadRequest
| NotFound.

(** [sessionTypeId] is the query parameter ([None] when absent);
    [durationMinutes] and [lookAheadDays] are the values of
    [parseInt(param || default, 10)], [None] standing for [NaN].  With
    [NaN] for either, the loops of [generateSuggestions] never run. *)
Definition GET (tz : Zone) (now : Z) (db : SessionsRoute.Db)
  (availabilityWindows : list AvailabilityWindowModel.t)
  (sessionTypeId : option string) (durationMinutes lookAheadDays : option Z)
  : Response :=
  match sessionTypeId with
  | None => BadRequest
  | Some id =>
      if String.eqb id EmptyString then BadRequest
      else
        match SessionsRoute.findUnique (SessionsRoute.sessionTypes db) id with
        | None => NotFound
        | Some sessionType =>
            Ok match durationMinutes, lookAheadDays with
               | Some d, Some l =>
                   Suggestion.generateSuggestions tz now sessionType
                     (SessionsRoute.sessions db) availabilityWindows d l
               | _, _ => []
               end
        end
  end.

End SuggestionsRoute.

(* ------------------------------------------------------------------ *)
(** ** [api/app/api/availability/route.ts]: POST, and DELETE by id *)

Module AvailabilityRoute.

(** The character is a decimal digit between [lo] and [hi]. *)
Definition digitBetween (lo hi : nat) (c : ascii) : bool :=
  let n := nat_of_ascii c in
  (Nat.leb (48 + lo) n) && (Nat.leb n (48 + hi)).

(** [/^([0-1][0-9]|2[0-3]):[0-5][0-9]$/.test(s)]. *)
Definition timeRegex_test (s : string) : bool :=
  match s with
  | String a (String b (String c (String d (String e EmptyString)))) =>
      ((digitBetween 0 1 a && digitBetween 0 9 b)
       || (Ascii.eqb a "2" && digitBetween 0 3 b))
      && Ascii.eqb c ":" && digitBetween 0 5 d && digitBetween 0 9 e
  | _ => false
  end.

(** The body as its TypeScript type has it: an integer weekday and two
    strings. *)
Record CreateAvailabilityWindowRequest : Type := mkRequest
  { dayOfWeek : Z; startTime : string; endTime : string }.

Inductive Response : Type :=
| Created (window : AvailabilityWindowModel.t)
| Success
| BadRequest
| ServerError.

Definition sameWindow (day : Z) (startTime endTime : string)
  (w : AvailabilityWindowModel.t) : bool :=
  (AvailabilityWindowModel.dayOfWeek w =? day)
  && String.eqb (AvailabilityWindowModel.startTime w) startTime
  && String.eqb (AvailabilityWindowModel.endTime w) endTime.

(** [newId] is the identifier Prisma generates.  The table has a unique
    index on (dayOfWeek, startTime, endTime): creating a duplicate raises
    and is answered with 500. *)
Definition POST (windows : list AvailabilityWindowModel.t) (newId : string)
  (body : CreateAvailabilityWindowRequest)
  : Response * list AvailabilityWindowModel.t :=
  if (dayOfWeek body <? 0) || (6 <? dayOfWeek body) then (BadRequest, windows)
  else if negb (timeRegex_test (startTime body))
          || negb (timeRegex_test (endTime body))
  then (BadRequest, windows)
  else if String.leb (endTime body) (startTime body) then (BadRequest, windows)
  else if existsb (sameWindow (dayOfWeek body) (startTime body) (endTime body))
                  windows
  then (ServerError, windows)
  else
    let window :=
      AvailabilityWindowModel.mk newId (dayOfWeek body)
                                 (startTime body) (endTime body) in
    (Created window, windows ++ [window]).

Definition hasId (id : string) (w : AvailabilityWindowModel.t) : bool :=
  String.eqb (AvailabilityWindowModel.id w) id.

Definition DELETE (windows : list AvailabilityWindowModel.t) (id : string)
  : Response * list AvailabilityWindowModel.t :=
  if existsb (hasId id) windows
  then (Success, filter (fun w => negb (hasId id w)) windows)
  else (ServerError, windows).

End AvailabilityRoute.

(* ------------------------------------------------------------------ *)
(** ** [api/app/api/session-types/route.ts] and [[id]/route.ts] *)

Module SessionTypesRoute.

Record CreateSessionTypeRequest : Type := mkCreate
  { name : string; category : string; priority : Z }.

Record UpdateSessionTypeRequest : Type := mkUpdate
  { newName : option string;
    newCategory : option string;
    newPriority : option Z }.

Inductive Response : Type :=
| Created (sessionType : SessionTypeModel.t)
| Ok (sessionType : SessionTypeModel.t)
| Success
| BadRequest
| ServerError.

Definition hasId (id : string) (t : SessionTypeModel.t) : bool :=
  String.eqb (SessionTypeModel.id t) id.

Definition POST (db : SessionsRoute.Db) (newId : string)
  (body : CreateSessionTypeRequest) : Response * SessionsRoute.Db :=
  if (priority body <? 1) || (5 <? priority body) then (BadRequest, db)
  else
    let sessionType :=
      SessionTypeModel.mk newId (name body) (category body) (priority body) in
    (Created sessionType,
     SessionsRoute.mkDb (SessionsRoute.sessionTypes db ++ [sessionType])
                        (SessionsRoute.sessions db)).

(** [body.name && { name: body.name }]: an empty string is not applied. *)
Definition truthy (o : option string) : option string :=
  match o with
  | Some s => if String.eqb s EmptyString then None else Some s
  | None => None
  end.

Definition applyUpdate (body : UpdateSessionTypeRequest)
  (t : SessionTypeModel.t) : SessionTypeModel.t :=
  SessionTypeModel.mk (SessionTypeModel.id t)
    (match truthy (newName body) with
     | Some n => n | None => SessionTypeModel.name t end)
    (match truthy (newCategory body) with
     | Some c => c | None => SessionTypeModel.category t end)
    (match newPriority body with
     | Some p => p | None => SessionTypeModel.priority t end).

(** The sessions are stored with their type joined in ([include:
    { sessionType: true }]); an update of the type shows in that join. *)
Definition rejoin (id : string) (updated : SessionTypeModel.t)
  (s : SessionModel.t) : SessionModel.t :=
  if String.eqb (SessionModel.sessionTypeId s) id
  then SessionModel.mk (SessionModel.id s) (SessionModel.sessionTypeId s)
         updated (SessionModel.startTime s) (SessionModel.endTime s)
         (SessionModel.completed s)
  else s.

(** [prisma.sessionType.update] raises when the row is missing; this
    handler answers every failure with 500. *)
Definition PUT (db : SessionsRoute.Db) (id : string)
  (body : UpdateSessionTypeRequest) : Response * SessionsRoute.Db :=
  if match newPriority body with
     | Some p => (p <? 1) || (5 <? p)
     | None => false
     end
  then (BadRequest, db)
  else
    match find (hasId id) (SessionsRoute.sessionTypes db) with
    | None => (ServerError, db)
    | Some row =>
        let updated := applyUpdate body row in
        (Ok updated,
         SessionsRoute.mkDb
           (map (fun t => if hasId id t then applyUpdate body t else t)
                (SessionsRoute.sessionTypes db))
           (map (rejoin id updated) (SessionsRoute.sessions db)))
    end.

(** The foreign key of a session to its type is [ON DELETE RESTRICT]:
    deleting a type that still has sessions raises, as does deleting a
    missing row. *)
Definition DELETE (db : SessionsRoute.Db) (id : string)
  : Response * SessionsRoute.Db :=
  if negb (existsb (hasId id) (SessionsRoute.sessionTypes db))
  then (ServerError, db)
  else if existsb (fun s => String.eqb (SessionModel.sessionTypeId s) id)
                  (SessionsRoute.sessions db)
  then (ServerError, db)
  else
    (Success,
     SessionsRoute.mkDb
       (filter (fun t => negb (hasId id t)) (SessionsRoute.sessionTypes db))
       (SessionsRoute.sessions db)).

End SessionTypesRoute.

(* ------------------------------------------------------------------ *)
(** ** [mobile/src/model/session.ts] *)

Module MobileSession.

(** date-fns [isAfter] and [isBefore] on valid dates. *)
Definition isAfter (date dateToCompare : Z) : bool := dateToCompare <? date.
Definition isBefore (date dateToCompare : Z) : bool := date <? dateToCompare.

Definition sessionsOverlap (session1 session2 : SessionModel.t) : bool :=
  let start1 := SessionModel.startTime session1 in
  let end1 := SessionModel.endTime session1 in
  let start2 := SessionModel.startTime session2 in
  let end2 := SessionModel.endTime session2 in
  (isAfter start2 start1 && isBefore start2 end1)
  || (isAfter end2 start1 && isBefore end2 end1)
  || (isBefore start2 start1 && isAfter end2 end1).

Definition findConflictingSessions (session : SessionModel.t)
  (allSessions : list SessionModel.t) : list SessionModel.t :=
  filter (fun other =>
            if String.eqb (SessionModel.id other) (SessionModel.id session)
            then false
            else sessionsOverlap session other)
         allSessions.

Definition daysOfWeek : list string :=
  [ "Sunday"; "Monday"; "Tuesday"; "Wednesday"; "Thursday"; "Friday";
    "Saturday" ]%string.

(** [grouped[day]] on the pairs of an object. *)
Definition prop {A : Type} (k : string) (obj : list (string * A)) : option A :=
  option_map snd (find (fun p => String.eqb (fst p) k) obj).

(** [R.assoc(k, v, obj)]: the key keeps its place when present and is
    added last otherwise. *)
Fixpoint assoc {A : Type} (k : string) (v : A) (obj : list (string * A))
  : list (string * A) :=
  match obj with
  | [] => [(k, v)]
  | (k', v') :: rest =>
      if String.eqb k k' then (k, v) :: rest else (k', v') :: assoc k v rest
  end.

Section Clock.
(** The zone of the device and the time value of [new Date()]. *)
Variable tz : Zone.
Variable now : Z.

Definition isUpcoming (session : SessionModel.t) : bool :=
  (now <? SessionModel.startTime session)
  && negb (SessionModel.completed session).

(** date-fns [isToday]: [startOfDay] of the date and of now are the same
    instant. *)
Definition isTodaySession (session : SessionModel.t) : bool :=
  setHours tz (SessionModel.startTime session) 0 0 0 0
  =? setHours tz now 0 0 0 0.

Definition getTodaySessions (sessions : list SessionModel.t)
  : list SessionModel.t :=
  filter isTodaySession sessions.

Definition getUpcomingSessions (sessions : list SessionModel.t)
  : list SessionModel.t :=
  filter isUpcoming sessions.

(** date-fns [startOfWeek(date, { weekStartsOn: 0 })]: local midnight of
    the Sunday on or before the date. *)
Definition startOfWeek (date : Z) : Z :=
  setHours tz (addLocalDays tz date (- getDay tz date)) 0 0 0 0.

(** date-fns [endOfWeek(date, { weekStartsOn: 0 })]: the last millisecond
    of the Saturday on or after the date. *)
Definition endOfWeek (date : Z) : Z :=
  setHours tz (addLocalDays tz date (6 - getDay tz date)) 23 59 59 999.

Definition getWeekSessions (sessions : list SessionModel.t)
  : list SessionModel.t :=
  let weekStart := startOfWeek now in
  let weekEnd := endOfWeek now in
  filter (fun session =>
            let sessionDate := SessionModel.startTime session in
            (weekStart <=? sessionDate) && (sessionDate <=? weekEnd))
         sessions.

Definition dayName (session : SessionModel.t) : string :=
  nth (Z.to_nat (getDay tz (SessionModel.startTime session))) daysOfWeek
      "undefined"%string.

Definition groupSessionsByDay (sessions : list SessionModel.t)
  : list (string * list SessionModel.t) :=
  let grouped := R.groupPairs dayName sessions in
  fold_left
    (fun acc day =>
       assoc day
             match prop day grouped with
             | Some l => l
             | None => []
             end
             acc)
    daysOfWeek [].

End Clock.

End MobileSession.

(* ------------------------------------------------------------------ *)
(** ** [mobile/src/controller/useSuggestions.ts] *)

Module UseSuggestions.

(** The list [fetchAllSuggestions] stores with [setSuggestions].
    [getSuggestions id] is the outcome of the request for one type,
    [None] when it fails (the failure is replaced by an empty list). *)
Definition fetchAllSuggestions
  (getSuggestions : string -> option (list SessionSuggestion.t))
  (sessionTypeIds : list string) : list SessionSuggestion.t :=
  if Suggestion.len sessionTypeIds =? 0 then []
  else
    let allResults :=
      map (fun id =>
             match getSuggestions id with
             | Some data => data
             | None => []
             end)
          sessionTypeIds in
    let combined := List.concat allResults in
    firstn 5 (R.sortBy (fun s => - SessionSuggestion.score s) combined).

End UseSuggestions.

(* ------------------------------------------------------------------ *)
(** ** [mobile/src/controller/sessionsStore.ts]: the local list *)

Module SessionsStore.

(** The updates of [this.sessions] after the server has answered. *)
Definition createSession (sessions : list SessionModel.t)
  (newSession : SessionModel.t) : list SessionModel.t :=
  sessions ++ [newSession].

Definition updateSession (sessions : list SessionModel.t) (id : string)
  (updatedSession : SessionModel.t) : list SessionModel.t :=
  map (fun s => if String.eqb (SessionModel.id s) id then updatedSession else s)
      sessions.

Definition deleteSession (sessions : list SessionModel.t) (id : string)
  : list SessionModel.t :=
  filter (fun s => negb (String.eqb (SessionModel.id s) id)) sessions.

End SessionsStore.

(* ------------------------------------------------------------------ *)
(** ** The API as a transition system on the tables *)

Module Api.

Definition emptyDb : SessionsRoute.Db := SessionsRoute.mkDb [] [].

Definition sessionIds (db : SessionsRoute.Db) : list string :=
  map SessionModel.id (SessionsRoute.sessions db).

Definition typeIds (db : SessionsRoute.Db) : list string :=
  map SessionTypeModel.id (SessionsRoute.sessionTypes db).

(** One request to a route that writes; identifiers generated by Prisma
    are new. *)
Inductive step : SessionsRoute.Db -> SessionsRoute.Db -> Prop :=
| createSession db newId body :
    ~ In newId (sessionIds db) ->
    step db (snd (SessionsRoute.POST db newId body))
| updateSession db id body :
    step db (snd (SessionByIdRoute.PUT db id body))
| deleteSession db id :
    step db (snd (SessionByIdRoute.DELETE db id))
| createSessionType db newId body :
    ~ In newId (typeIds db) ->
    step db (snd (SessionTypesRoute.POST db newId body))
| updateSessionType db id body :
    step db (snd (SessionTypesRoute.PUT db id body))
| deleteSessionType db id :
    step db (snd (SessionTypesRoute.DELETE db id)).

Inductive reachable (init : SessionsRoute.Db) : SessionsRoute.Db -> Prop :=
| reach_init : reachable init init
| reach_step db db' : reachable init db -> step db db' -> reachable init db'.

(** The availability table under its two writing routes. *)
Inductive windowStep
  : list AvailabilityWindowModel.t -> list AvailabilityWindowModel.t -> Prop :=
| createWindow windows newId body :
    windowStep windows (snd (AvailabilityRoute.POST windows newId body))
| deleteWindow windows id :
    windowStep windows (snd (AvailabilityRoute.DELETE windows id)).

Inductive windowsReachable : list AvailabilityWindowModel.t -> Prop :=
| windows_init : windowsReachable []
| windows_step ws ws' :
    windowsReachable ws -> windowStep ws ws' -> windowsReachable ws'.

End Api.

(* ------------------------------------------------------------------ *)
(** ** [api/app/api/sessions/route.ts]: GET *)

Module SessionsListRoute.

(** The [where] clause.  [completed] is the query parameter ([None] when
    absent); [startDate] and [endDate] are the time values of
    [new Date(param)] for a parameter that is present, not empty and a
    valid date ([None] when absent or empty). *)
Definition matches (completed : option string) (startDate endDate : option Z)
  (s : SessionModel.t) : bool :=
  match completed with
  | Some c => Bool.eqb (SessionModel.completed s) (String.eqb c "true")
  | None => true
  end
  && match startDate with
     | Some d => d <=? SessionModel.startTime s
     | None => true
     end
  && match endDate with
     | Some d => SessionModel.startTime s <=? d
     | None => true
     end.

(** The rows of [findMany] with [orderBy: { startTime: "asc" }]; rows
    with equal start times are kept in table order here. *)
Definition GET (db : SessionsRoute.Db) (completed : option string)
  (startDate endDate : option Z) : list SessionModel.t :=
  R.sortBy SessionModel.startTime
    (filter (matches completed startDate endDate) (SessionsRoute.sessions db)).

End SessionsListRoute.

(* ------------------------------------------------------------------ *)
(** ** [api/app/api/progress/route.ts]: GET *)

Module ProgressRoute.

Definition GET (db : SessionsRoute.Db) : ProgressStats.t :=
  Progress.calculateProgressStats (SessionsRoute.sessions db).

End ProgressRoute.

(* ------------------------------------------------------------------ *)
(** ** Statements about the additional code *)

Module Facts.

Import Spec.

(** No two sessions of the list with different identifiers overlap. *)
Definition pairwiseDisjoint (sessions : list SessionModel.t) : Prop :=
  forall a b,
    In a sessions -> In b sessions ->
    SessionModel.id a <> SessionModel.id b ->
    ~ halfOpenOverlap (SessionModel.startTime a) (SessionModel.endTime a)
                      (SessionModel.startTime b) (SessionModel.endTime b).

(** The sessions of the table have different identifiers, end after they
    start and do not overlap one another. *)
Definition scheduleInvariant (db : SessionsRoute.Db) : Prop :=
  NoDup (Api.sessionIds db)
  /\ Forall properSession (SessionsRoute.sessions db)
  /\ pairwiseDisjoint (SessionsRoute.sessions db).

(** Every session refers to a stored type, and carries that type. *)
Definition joinInvariant (db : SessionsRoute.Db) : Prop :=
  Forall
    (fun s =>
       SessionsRoute.findUnique (SessionsRoute.sessionTypes db)
         (SessionModel.sessionTypeId s)
       = Some (SessionModel.sessionType s))
    (SessionsRoute.sessions db).

Definition prioritiesValid (db : SessionsRoute.Db) : Prop :=
  Forall validPriority (SessionsRoute.sessionTypes db).

(** "HH:mm" for a minute of the day. *)
Definition timeString (minuteOfDay : Z) : string :=
  (twoDigits (minuteOfDay / 60) ++ ":" ++ twoDigits (minuteOfDay mod 60))%string.

Definition minutesOfDay : list Z := map Z.of_nat (seq 0 1440).

(** The minutes of a day with their strings. *)
Definition timeTable : list (Z * string) :=
  map (fun p => (p, timeString p)) minutesOfDay.

(** The order of two strings is the order of their minutes. *)
Definition compareAgrees (a b : Z * string) : bool :=
  match String.compare (snd a) (snd b), fst a ?= fst b with
  | Eq, Eq | Lt, Lt | Gt, Gt => true
  | _, _ => false
  end.

(** The string of a minute is accepted by the regular expression and
    parses back to its hour and minute. *)
Definition parsesBack (p : Z) : bool :=
  AvailabilityRoute.timeRegex_test (timeString p)
  && match parseHourMinute (timeString p) with
     | Some (h, m) => (h =? p / 60) && (m =? p mod 60)
     | None => false
     end.

Definition digitChar (n : nat) : ascii := ascii_of_nat (48 + n).

Definition digitsString (a b d e : nat) : string :=
  String (digitChar a) (String (digitChar b)
    (String ":" (String (digitChar d) (String (digitChar e) EmptyString)))).

(** Four digits [ab:de] spell the minute [(10a+b)*60 + 10d+e]. *)
Definition digitsAgree (a b d e : nat) : bool :=
  String.eqb (digitsString a b d e)
    (timeString (Z.of_nat ((10 * a + b) * 60 + (10 * d + e)))).

(** The minute of the local day of an instant. *)
Definition minuteOfDay (tz : Zone) (date : Z) : Z :=
  ((localTime tz date) mod MS_PER_DAY) / MS_PER_MINUTE.

(** The window was accepted by the availability route: day in range,
    both times in "HH:mm" form, start before end. *)
Definition validWindow (w : AvailabilityWindowModel.t) : Prop :=
  0 <= AvailabilityWindowModel.dayOfWeek w <= 6
  /\ AvailabilityRoute.timeRegex_test (AvailabilityWindowModel.startTime w) = true
  /\ AvailabilityRoute.timeRegex_test (AvailabilityWindowModel.endTime w) = true
  /\ String.ltb (AvailabilityWindowModel.startTime w)
                (AvailabilityWindowModel.endTime w) = true.

(** The index of the Sunday-to-Saturday week that holds the instant. *)
Definition weekIndex (tz : Zone) (date : Z) : Z :=
  (localTime tz date / MS_PER_DAY + 4) / 7.

(** The number of sessions of a type. *)
Definition countOfType (typeId : string) (sessions : list SessionModel.t) : Z :=
  Suggestion.len
    (filter (fun s => String.eqb (SessionModel.sessionTypeId s) typeId) sessions).

(** The columns of the unique index of the availability table. *)
Definition windowKey (w : AvailabilityWindowModel.t) : Z * string * string :=
  (AvailabilityWindowModel.dayOfWeek w,
   AvailabilityWindowModel.startTime w,
   AvailabilityWindowModel.endTime w).

(** The window spans the minutes [p] to [q] of its day. *)
Definition windowMinutes (w : AvailabilityWindowModel.t) (p q : Z) : Prop :=
  0 <= p < q /\ q < 1440
  /\ AvailabilityWindowModel.startTime w = timeString p
  /\ AvailabilityWindowModel.endTime w = timeString q.

(** The second session covers the first and shares one of its ends. *)
Definition coversSharingEnd (session1 session2 : SessionModel.t) : Prop :=
  SessionModel.startTime session2 <= SessionModel.startTime session1
  /\ SessionModel.endTime session1 <= SessionModel.endTime session2
  /\ (SessionModel.startTime session2 = SessionModel.startTime session1
      \/ SessionModel.endTime session2 = SessionModel.endTime session1).

(** The sessions that start on weekday [day] (0 is Sunday). *)
Definition startingOn (tz : Zone) (day : Z) (sessions : list SessionModel.t)
  : list SessionModel.t :=
  filter (fun s => getDay tz (SessionModel.startTime s) =? day) sessions.

(** The responses [fetchAllSuggestions] merges. *)
Definition fetched (getSuggestions : string -> option (list SessionSuggestion.t))
  (sessionTypeIds : list string) : list SessionSuggestion.t :=
  flat_map (fun id => match getSuggestions id with
                      | Some data => data
                      | None => []
                      end)
           sessionTypeIds.

(** The suggestions [generateSuggestions] ranks, before sorting. *)
Definition candidates (tz : Zone) (now : Z)
  (sessionType : SessionTypeModel.t)
  (existingSessions : list SessionModel.t)
  (availabilityWindows : list AvailabilityWindowModel.t)
  (durationMinutes lookAheadDays : Z) : list SessionSuggestion.t :=
  flat_map
    (fun dayOffset =>
       flat_map (Suggestion.slotSuggestions tz sessionType existingSessions
                                 availabilityWindows durationMinutes)
                (Suggestion.generateTimeSlots tz
                   (addHours (setHours tz now 0 0 0 0)
                             (inject_Z (dayOffset * 24)))
                   durationMinutes availabilityWindows))
    (Suggestion.dayOffsets lookAheadDays).

(** The sum of the counts of a breakdown by type. *)
Definition totalCount (l : list TypeCount.t) : Z :=
  fold_right (fun e acc => TypeCount.count e + acc) 0 l.

(** Each session ends by the time every later one of the list starts. *)
Definition inSequence (sessions : list SessionModel.t) : Prop :=
  StronglySorted
    (fun a b => SessionModel.endTime a <= SessionModel.startTime b)
    sessions.

(** The clocks of the zone do not change over [days] local days counted
    from the local day of [from]: the offset is [c] throughout, for the
    local times of those days and at the instants they denote. *)
Definition steady (tz : Zone) (from days c : Z) : Prop :=
  forall local,
    startOfLocalDay tz from <= local
    < startOfLocalDay tz from + days * MS_PER_DAY ->
    offsetOfLocal tz local = c /\ offsetAt tz (local - c) = c.

(** The double is [NaN] or has the sign bit clear. *)
Definition plusSigned (x : spec_float) : Prop :=
  match x with
  | S754_nan => True
  | S754_zero s | S754_infinity s | S754_finite s _ _ => s = false
  end.

(** The double is a number (not [NaN]) with the sign bit clear. *)
Definition plusNumber (x : spec_float) : Prop :=
  match x with
  | S754_nan => False
  | S754_zero s | S754_infinity s | S754_finite s _ _ => s = false
  end.

(** Two doubles are the same datum. *)
Definition sameDouble (a b : spec_float) : bool :=
  match a, b with
  | S754_zero s, S754_zero s' => Bool.eqb s s'
  | S754_infinity s, S754_infinity s' => Bool.eqb s s'
  | S754_nan, S754_nan => true
  | S754_finite s m e, S754_finite s' m' e' =>
      Bool.eqb s s' && Pos.eqb m m' && Z.eqb e e'
  | _, _ => false
  end.

(** The rate in doubles of [completed] among [scheduled] is a whole
    percentage between 0 and 100, the exact rate or one less. *)
Definition rateAgrees (scheduled completed : nat) : bool :=
  let k := exactRate (Z.of_nat completed) (Z.of_nat scheduled) in
  let r := doubleRate (Z.of_nat completed) (Z.of_nat scheduled) in
  (0 <=? k) && (k <=? 100)
  && (sameDouble r (Double.ofZ k)
      || ((1 <=? k) && sameDouble r (Double.ofZ (k - 1)))).

End Facts.

(* ------------------------------------------------------------------ *)
(** ** A run of the routes on the data of the test suites *)

Module Scenario.

(** Booking 12:00-13:00 on 15 January for the deep-work type. *)
Definition bookedRequest : SessionsRoute.CreateSessionRequest :=
  Examples.createRequest (Examples.jan15 12 0) (Examples.jan15 13 0).

Definition booked : SessionModel.t :=
  SessionModel.mk "session-9" "type-1" Examples.deepWork
    (Examples.jan15 12 0) (Examples.jan15 13 0) false.

(** The tables after the booking. *)
Definition bookedDb : SessionsRoute.Db :=
  snd (SessionsRoute.POST Examples.db1 "session-9" bookedRequest).

(** The availability table after the Monday window has been posted. *)
Definition storedWindows : list AvailabilityWindowModel.t :=
  snd (AvailabilityRoute.POST [] "avail-1"
         (AvailabilityRoute.mkRequest 1 "09:00" "17:00")).

(** New York in 2024: five hours behind UTC, four from 10 March 02:00 to
    3 November 02:00 local time.  A local time that the clocks skip or
    show twice is read with the offset before the change. *)
Definition newYork : Zone :=
  mkZone
    (fun t =>
       if t <? 1710054000000 then -18000000
       else if t <? 1730613600000 then -14400000
       else -18000000)
    (fun local =>
       if local <? 1710039600000 then -18000000
       else if local <? 1730599200000 then -14400000
       else -18000000).

(** The time value of 2024-11-03 (a Sunday) at [h:m] UTC. *)
Definition nov3 (h m : Z) : Z :=
  1730592000000 + h * MS_PER_HOUR + m * MS_PER_MINUTE.

(** A window on Sunday from 01:30 to 03:00. *)
Definition earlyWindow : AvailabilityWindowModel.t :=
  AvailabilityWindowModel.mk "avail-2" 0 "01:30" "03:00".

(** The first suggestion in New York at 01:00 on 15 January: Tuesday
    06:00-07:00 local time. *)
Definition slotNewYork : SessionSuggestion.t :=
  SessionSuggestion.mk "type-1" 1705402800000 1705406400000
    "First session of this type. Uses your morning focus window. High priority session"
    88.

(** The suggestion for 11:00-12:00, right after [Examples.session1]. *)
Definition slot11 : SessionSuggestion.t :=
  SessionSuggestion.mk "type-1" (Examples.jan15 11 0) (Examples.jan15 12 0)
    "First session of this type. Uses your morning focus window. High priority session"
    97.

(** The availability table after the Monday window, a Tuesday window and
    the Monday window again have been posted; the third request is
    refused. *)
Definition postedWindows : list AvailabilityWindowModel.t :=
  snd (AvailabilityRoute.POST
         (snd (AvailabilityRoute.POST storedWindows "avail-3"
                 (AvailabilityRoute.mkRequest 2 "09:00" "17:00")))
         "avail-4" (AvailabilityRoute.mkRequest 1 "09:00" "17:00")).

End Scenario.

(* ------------------------------------------------------------------ *)
(** * Properties *)

Import Suggestion Spec.

(** ** Arithmetic of [addHours] and [Math.round] *)

Lemma addHours_minutes (c d : Z) :
  addHours c (inject_Z d / 60) = c + d * 60000.
Proof.
  unfold addHours, Math_trunc, MS_PER_HOUR. cbn -[Z.mul Z.add Z.quot].
  replace (c * 60 + d * 1 * 3600000 * 1) with ((c + d * 60000) * 60) by ring.
  apply Z.quot_mul. discriminate.
Qed.

Lemma addHours_half (c : Z) : addHours c 0.5 = c + 1800000.
Proof.
  unfold addHours, Math_trunc, MS_PER_HOUR. cbn -[Z.mul Z.add Z.quot].
  replace (c * 10 + 5 * 3600000 * 1) with ((c + 1800000) * 10) by ring.
  apply Z.quot_mul. discriminate.
Qed.

Lemma addHours_whole (c h : Z) : addHours c (inject_Z h) = c + h * 3600000.
Proof.
  unfold addHours, Math_trunc, MS_PER_HOUR. cbn -[Z.mul Z.add Z.quot].
  rewrite Z.quot_1_r. ring.
Qed.

Lemma Math_round_lower (x : Q) (n : Z) :
  (inject_Z n <= x)%Q -> n <= Math_round x.
Proof.
  intro H. unfold Math_round.
  rewrite <- (Qfloor_Z n). apply Qfloor_resp_le. lra.
Qed.

Lemma Math_round_upper (x : Q) (n : Z) :
  (x <= inject_Z n)%Q -> Math_round x <= n.
Proof.
  intro H. unfold Math_round.
  assert (Hlt : (inject_Z (Qfloor (x + (1 # 2))) < inject_Z (n + 1))%Q).
  { eapply Qle_lt_trans; [apply Qfloor_le|].
    rewrite inject_Z_plus. change (inject_Z 1) with 1%Q. lra. }
  rewrite <- Zlt_Qlt in Hlt. lia.
Qed.

Lemma Math_round_Z (n : Z) : Math_round (inject_Z n) = n.
Proof.
  apply Z.le_antisymm.
  - apply Math_round_upper. lra.
  - apply Math_round_lower. lra.
Qed.

(** ** [R.sortBy] and [R.take] *)

Section SortFacts.
Context {A : Type} (key : A -> Z).

Lemma insertBy_perm (x : A) (l : list A) :
  Permutation (x :: l) (R.insertBy key x l).
Proof.
  induction l as [|y l IH]; simpl.
  - apply Permutation_refl.
  - destruct (key x <=? key y).
    + apply Permutation_refl.
    + eapply perm_trans; [apply perm_swap|]. now apply perm_skip.
Qed.

Lemma sortBy_perm (l : list A) : Permutation l (R.sortBy key l).
Proof.
  induction l as [|x l IH]; simpl.
  - constructor.
  - eapply perm_trans; [apply perm_skip, IH|]. apply insertBy_perm.
Qed.

Lemma sortBy_In (l : list A) (x : A) : In x (R.sortBy key l) <-> In x l.
Proof.
  split; intro H.
  - eapply Permutation_in; [apply Permutation_sym, sortBy_perm|exact H].
  - eapply Permutation_in; [apply sortBy_perm|exact H].
Qed.

Lemma sortBy_length (l : list A) :
  List.length (R.sortBy key l) = List.length l.
Proof. symmetry. apply Permutation_length, sortBy_perm. Qed.

Lemma insertBy_sorted (x : A) (l : list A) :
  StronglySorted (R.keyLe key) l -> StronglySorted (R.keyLe key) (R.insertBy key x l).
Proof.
  induction 1 as [|y l Hs IH Hall]; simpl.
  - repeat constructor.
  - destruct (key x <=? key y) eqn:E.
    + apply Z.leb_le in E. constructor.
      * now constructor.
      * constructor; [exact E|].
        eapply Forall_impl; [|exact Hall]. unfold R.keyLe. intros; lia.
    + apply Z.leb_gt in E. constructor; [exact IH|].
      apply Forall_forall. intros z Hz.
      apply (Permutation_in _ (Permutation_sym (insertBy_perm x l))) in Hz.
      destruct Hz as [<-|Hz].
      * unfold R.keyLe. lia.
      * rewrite Forall_forall in Hall. now apply Hall.
Qed.

Lemma sortBy_sorted (l : list A) : StronglySorted (R.keyLe key) (R.sortBy key l).
Proof.
  induction l as [|x l IH]; simpl.
  - constructor.
  - now apply insertBy_sorted.
Qed.

End SortFacts.

Lemma take_In {A : Type} (n : nat) (l : list A) (x : A) :
  In x (R.take n l) -> In x l.
Proof.
  unfold R.take. intro H. rewrite <- (firstn_skipn n l).
  apply in_or_app. now left.
Qed.

Lemma take_sorted {A : Type} (R0 : A -> A -> Prop) (n : nat) (l : list A) :
  StronglySorted R0 l -> StronglySorted R0 (R.take n l).
Proof.
  unfold R.take. intro H. revert n.
  induction H as [|x l Hs IH Hall]; intros [|n]; simpl; try constructor.
  - apply IH.
  - apply Forall_forall. intros y Hy.
    rewrite Forall_forall in Hall. apply Hall.
    now apply (take_In n).
Qed.

(** ** Where suggestions come from *)

Lemma slotSuggestions_In tz sessionType existing windows duration startTime sg :
  In sg (slotSuggestions tz sessionType existing windows duration startTime) ->
  let endTime := addHours startTime (inject_Z duration / 60) in
  let score := scoreTimeSlot tz startTime endTime sessionType existing windows in
  sg = SessionSuggestion.mk (SessionTypeModel.id sessionType) startTime endTime
         (generateReason tz startTime score
            (SessionTypeModel.priority sessionType) existing
            (SessionTypeModel.id sessionType))
         (Math_round score)
  /\ existsb (conflictsWith startTime endTime) existing = false
  /\ Qle_bool 30 score = true.
Proof.
  unfold slotSuggestions. cbv zeta.
  destruct (existsb _ existing) eqn:Ec; [intros []|].
  destruct (Qle_bool 30 _) eqn:Es; [|intros []].
  intros [<-|[]]. auto.
Qed.

Lemma generateSuggestions_In tz now sessionType existing windows duration look sg :
  In sg (generateSuggestions tz now sessionType existing windows duration look) ->
  exists startTime,
    In sg (slotSuggestions tz sessionType existing windows duration startTime).
Proof.
  unfold generateSuggestions. cbv zeta. intro H.
  apply take_In in H. apply sortBy_In in H.
  apply in_flat_map in H. destruct H as [dayOffset [_ H]].
  apply in_flat_map in H. destruct H as [startTime [_ H]].
  now exists startTime.
Qed.

(** ** The two overlap tests *)

Lemma conflictsWith_overlap (startTime endTime : Z) (s : SessionModel.t) :
  startTime < endTime ->
  halfOpenOverlap startTime endTime
    (SessionModel.startTime s) (SessionModel.endTime s) ->
  conflictsWith startTime endTime s = true.
Proof.
  unfold halfOpenOverlap, conflictsWith. cbv zeta. intros Hp [H1 H2].
  destruct (Z_le_gt_dec (SessionModel.startTime s) startTime) as [Hle|Hgt].
  - apply orb_true_iff; left. apply orb_true_iff; left.
    apply andb_true_iff; split; [apply Z.leb_le|apply Z.ltb_lt]; lia.
  - destruct (Z_le_gt_dec endTime (SessionModel.endTime s)) as [Hle2|Hgt2].
    + apply orb_true_iff; left. apply orb_true_iff; right.
      apply andb_true_iff; split; [apply Z.ltb_lt|apply Z.leb_le]; lia.
    + apply orb_true_iff; right.
      apply andb_true_iff; split; apply Z.leb_le; lia.
Qed.

Lemma overlapsRequest_iff (startTime endTime : Z) (s : SessionModel.t) :
  SessionsRoute.overlapsRequest startTime endTime s = true <->
  halfOpenOverlap startTime endTime
    (SessionModel.startTime s) (SessionModel.endTime s).
Proof.
  unfold SessionsRoute.overlapsRequest, halfOpenOverlap.
  rewrite andb_true_iff, !Z.ltb_lt. tauto.
Qed.

Lemma conflictsWith_overlapsRequest (startTime endTime : Z)
  (s : SessionModel.t) :
  startTime < endTime ->
  properSession s ->
  conflictsWith startTime endTime s
  = SessionsRoute.overlapsRequest startTime endTime s.
Proof.
  intros Hp Hs. unfold properSession in Hs.
  destruct (SessionsRoute.overlapsRequest startTime endTime s) eqn:E.
  - apply conflictsWith_overlap; [exact Hp|]. now apply overlapsRequest_iff.
  - unfold SessionsRoute.overlapsRequest in E. unfold conflictsWith. cbv zeta.
    apply andb_false_iff in E.
    rewrite !Z.ltb_ge in E.
    apply orb_false_iff; split; [apply orb_false_iff; split|];
      apply andb_false_iff;
      rewrite ?Z.leb_gt, ?Z.ltb_ge; lia.
Qed.

(** C9. For intervals of positive duration on both sides, the
    three-disjunct conflict test of the suggestion engine holds if and
    only if the overlap test of the session-create route holds. *)
Theorem conflict_tests_agree (startTime endTime : Z) (s : SessionModel.t) :
  startTime < endTime ->
  properSession s ->
  (conflictsWith startTime endTime s = true
   <-> SessionsRoute.overlapsRequest startTime endTime s = true)
  /\ (SessionsRoute.overlapsRequest startTime endTime s = true
      <-> (startTime < SessionModel.endTime s
           /\ endTime > SessionModel.startTime s)).
Proof.
  intros Hp Hs. split.
  - now rewrite conflictsWith_overlapsRequest.
  - unfold SessionsRoute.overlapsRequest.
    rewrite andb_true_iff, !Z.ltb_lt. lia.
Qed.

(** ** No conflict among returned suggestions *)

Lemma conflictsWith_touching_after (duration : Z) (s : SessionModel.t) :
  0 < duration -> properSession s ->
  conflictsWith (SessionModel.endTime s)
    (SessionModel.endTime s + duration * MS_PER_MINUTE) s = false.
Proof.
  unfold properSession, conflictsWith, MS_PER_MINUTE. cbv zeta. intros Hd Hs.
  apply orb_false_iff; split; [apply orb_false_iff; split|];
    apply andb_false_iff; rewrite ?Z.leb_gt, ?Z.ltb_ge; lia.
Qed.

Lemma conflictsWith_touching_before (duration : Z) (s : SessionModel.t) :
  0 < duration -> properSession s ->
  conflictsWith (SessionModel.startTime s - duration * MS_PER_MINUTE)
    (SessionModel.startTime s) s = false.
Proof.
  unfold properSession, conflictsWith, MS_PER_MINUTE. cbv zeta. intros Hd Hs.
  apply orb_false_iff; split; [apply orb_false_iff; split|];
    apply andb_false_iff; rewrite ?Z.leb_gt, ?Z.ltb_ge; lia.
Qed.

(** C1. Every suggestion returned by [generateSuggestions] spans
    [[startTime, startTime + durationMinutes)] and, for a positive
    duration, that interval overlaps the interval of no existing session
    under half-open semantics (the two share no instant).  A slot that
    starts where a session ends, or ends where a session starts, is not a
    conflict. *)
Theorem suggestions_never_conflict
  (tz : Zone) (now : Z) (sessionType : SessionTypeModel.t)
  (existingSessions : list SessionModel.t)
  (availabilityWindows : list AvailabilityWindowModel.t)
  (durationMinutes lookAheadDays : Z) :
  0 < durationMinutes ->
  Forall
    (fun sg =>
       SessionSuggestion.endTime sg
       = SessionSuggestion.startTime sg + durationMinutes * MS_PER_MINUTE
       /\ Forall
            (fun s =>
               ~ halfOpenOverlap
                   (SessionSuggestion.startTime sg) (SessionSuggestion.endTime sg)
                   (SessionModel.startTime s) (SessionModel.endTime s)
               /\ (forall t,
                      inHalfOpen (SessionSuggestion.startTime sg)
                                 (SessionSuggestion.endTime sg) t ->
                      ~ inHalfOpen (SessionModel.startTime s)
                                   (SessionModel.endTime s) t))
            existingSessions)
    (generateSuggestions tz now sessionType existingSessions
       availabilityWindows durationMinutes lookAheadDays)
  /\ (forall s,
         properSession s ->
         conflictsWith (SessionModel.endTime s)
           (SessionModel.endTime s + durationMinutes * MS_PER_MINUTE) s = false
         /\ conflictsWith
              (SessionModel.startTime s - durationMinutes * MS_PER_MINUTE)
              (SessionModel.startTime s) s = false).
Proof.
  intro Hd. split.
  - apply Forall_forall. intros sg Hsg.
    apply generateSuggestions_In in Hsg. destruct Hsg as [startTime Hsg].
    apply slotSuggestions_In in Hsg. cbv zeta in Hsg.
    destruct Hsg as [-> [Hc _]]. cbn [SessionSuggestion.startTime
                                       SessionSuggestion.endTime].
    rewrite addHours_minutes in *. unfold MS_PER_MINUTE. split; [reflexivity|].
    apply Forall_forall. intros s Hs.
    assert (Hno : ~ halfOpenOverlap startTime (startTime + durationMinutes * 60000)
                      (SessionModel.startTime s) (SessionModel.endTime s)).
    { intro Ho. apply conflictsWith_overlap in Ho; [|lia].
      assert (Ht : existsb
                     (conflictsWith startTime (startTime + durationMinutes * 60000))
                     existingSessions = true)
        by (apply existsb_exists; now exists s).
      congruence. }
    split; [exact Hno|].
    intros t [Ht1 Ht2] [Ht3 Ht4]. apply Hno. unfold halfOpenOverlap. lia.
  - intros s Hs. split.
    + now apply conflictsWith_touching_after.
    + now apply conflictsWith_touching_before.
Qed.

(** ** Ranking *)

Lemma StronglySorted_weaken {A : Type} (P Q0 : A -> A -> Prop) (l : list A) :
  (forall a b, P a b -> Q0 a b) -> StronglySorted P l -> StronglySorted Q0 l.
Proof.
  intros Himp H. induction H as [|x l Hs IH Hall]; constructor.
  - exact IH.
  - eapply Forall_impl; [|exact Hall]. intros b Hb. now apply Himp.
Qed.

(** C2. The list returned by [generateSuggestions] has at most 10
    elements, each with score at least 30, in descending order of score. *)
Theorem suggestions_ranked
  (tz : Zone) (now : Z) (sessionType : SessionTypeModel.t)
  (existingSessions : list SessionModel.t)
  (availabilityWindows : list AvailabilityWindowModel.t)
  (durationMinutes lookAheadDays : Z) :
  let result :=
    generateSuggestions tz now sessionType existingSessions
      availabilityWindows durationMinutes lookAheadDays in
  (List.length result <= 10)%nat
  /\ Forall (fun sg => 30 <= SessionSuggestion.score sg) result
  /\ StronglySorted
       (fun a b => SessionSuggestion.score b <= SessionSuggestion.score a)
       result.
Proof.
  cbv zeta. split; [|split].
  - unfold generateSuggestions, R.take. cbv zeta. apply firstn_le_length.
  - apply Forall_forall. intros sg Hsg.
    apply generateSuggestions_In in Hsg. destruct Hsg as [startTime Hsg].
    apply slotSuggestions_In in Hsg. cbv zeta in Hsg.
    destruct Hsg as [-> [_ Hs]]. cbn [SessionSuggestion.score].
    apply Math_round_lower. now apply Qle_bool_iff in Hs.
  - unfold generateSuggestions. cbv zeta. apply take_sorted.
    eapply StronglySorted_weaken; [|apply sortBy_sorted].
    unfold R.keyLe. intros a b H. lia.
Qed.

(** ** Bounds on the five factors *)

Lemma min100_ratio_le (x : num) (d : Z) : (min100_ratio x d <= 100)%Q.
Proof.
  destruct x as [q|]; simpl; [|lra].
  destruct (Qle_bool 100 _) eqn:E; [lra|].
  destruct (Qlt_le_dec (q / inject_Z d * 100) 100) as [H|H]; [lra|].
  apply Qle_bool_iff in H. congruence.
Qed.

Lemma calculateSpacingScore_le ps pe sessions :
  (calculateSpacingScore ps pe sessions <= 100)%Q.
Proof.
  unfold calculateSpacingScore. cbv zeta.
  destruct (len sessions =? 0); [lra|].
  destruct (ltb_fin _ _); [lra|]. apply min100_ratio_le.
Qed.

Lemma calculatePriorityScore_le (priority : Z) :
  priority <= 5 -> (calculatePriorityScore priority <= 100)%Q.
Proof.
  intro H. unfold calculatePriorityScore.
  rewrite Zle_Qle in H. change (inject_Z 5) with 5%Q in H.
  assert (E : (inject_Z priority / 5 * 100 == inject_Z priority * 20)%Q)
    by field.
  rewrite E. lra.
Qed.

Lemma calculateDayLoadScore_le tz date sessions :
  (calculateDayLoadScore tz date sessions <= 100)%Q.
Proof.
  unfold calculateDayLoadScore. cbv zeta.
  destruct (MAX_SESSIONS_PER_DAY <=? _); [lra|].
  change 100%Q with (inject_Z 100). rewrite <- Zle_Qle.
  unfold len. lia.
Qed.

Lemma calculateAvailabilityScore_le tz ps pe windows :
  (calculateAvailabilityScore tz ps pe windows <= 100)%Q.
Proof.
  unfold calculateAvailabilityScore. cbv zeta.
  destruct (len _ =? 0); [lra|].
  destruct (existsb _ _); [lra|]. destruct (existsb _ _); lra.
Qed.

Lemma calculateFatigueScore_le ps priority sessions :
  (calculateFatigueScore ps priority sessions <= 100)%Q.
Proof.
  unfold calculateFatigueScore. cbv zeta.
  destruct (priority <? _); [lra|].
  destruct (3 <=? _); [lra|]. destruct (2 <=? _); lra.
Qed.

Lemma scoreTimeSlot_le tz startTime endTime sessionType existing windows :
  SessionTypeModel.priority sessionType <= 5 ->
  (scoreTimeSlot tz startTime endTime sessionType existing windows <= 100)%Q.
Proof.
  intro Hp. unfold scoreTimeSlot. cbv zeta.
  pose proof (calculateSpacingScore_le startTime endTime existing).
  pose proof (calculatePriorityScore_le _ Hp).
  pose proof (calculateDayLoadScore_le tz startTime existing).
  pose proof (calculateAvailabilityScore_le tz startTime endTime windows).
  pose proof (calculateFatigueScore_le startTime
                (SessionTypeModel.priority sessionType) existing).
  lra.
Qed.

(** C10. For a session type whose priority is at most 5, the score of
    every returned suggestion is the weighted sum of its slot rounded to
    the nearest integer, and it lies between 30 and 100. *)
Theorem suggestion_scores_bounded
  (tz : Zone) (now : Z) (sessionType : SessionTypeModel.t)
  (existingSessions : list SessionModel.t)
  (availabilityWindows : list AvailabilityWindowModel.t)
  (durationMinutes lookAheadDays : Z) :
  SessionTypeModel.priority sessionType <= 5 ->
  Forall
    (fun sg =>
       SessionSuggestion.score sg
       = Math_round
           (scoreTimeSlot tz (SessionSuggestion.startTime sg)
              (SessionSuggestion.endTime sg) sessionType existingSessions
              availabilityWindows)
       /\ 30 <= SessionSuggestion.score sg <= 100)
    (generateSuggestions tz now sessionType existingSessions
       availabilityWindows durationMinutes lookAheadDays).
Proof.
  intro Hp. apply Forall_forall. intros sg Hsg.
  apply generateSuggestions_In in Hsg. destruct Hsg as [startTime Hsg].
  apply slotSuggestions_In in Hsg. cbv zeta in Hsg.
  destruct Hsg as [-> [_ Hs]].
  cbn [SessionSuggestion.score SessionSuggestion.startTime
       SessionSuggestion.endTime].
  split; [reflexivity|]. split.
  - apply Math_round_lower. now apply Qle_bool_iff in Hs.
  - apply Math_round_upper. now apply scoreTimeSlot_le.
Qed.

(** ** Slot generation *)

Lemma slotsLoop_step (d e c : Z) :
  c + d * 60000 <= e -> slotsLoop d e c = c :: slotsLoop d e (c + 1800000).
Proof.
  intro H. rewrite slotsLoop_equation_1.
  destruct (Z_le_dec _ _) as [Hl|Hg].
  - simpl. now rewrite addHours_half.
  - exfalso. apply Hg. rewrite addHours_minutes. exact H.
Qed.

Lemma slotsLoop_stop (d e c : Z) :
  e < c + d * 60000 -> slotsLoop d e c = [].
Proof.
  intro H. rewrite slotsLoop_equation_1.
  destruct (Z_le_dec _ _) as [Hl|Hg]; [|reflexivity].
  exfalso. rewrite addHours_minutes in Hl. lia.
Qed.

(** The slots of a window are its start plus whole multiples of thirty
    minutes, as many as leave room for the duration. *)
Lemma slotsLoop_closed (d e c : Z) :
  slotsLoop d e c
  = map (fun k => c + Z.of_nat k * 1800000)
        (seq 0 (Z.to_nat ((e - c - d * 60000) / 1800000 + 1))).
Proof.
  remember (Z.to_nat ((e - c - d * 60000) / 1800000 + 1)) as n eqn:En.
  revert c En. induction n as [|n IH]; intros c En.
  - simpl. apply slotsLoop_stop.
    destruct (Z_lt_le_dec e (c + d * 60000)) as [Hlt|Hge]; [exact Hlt|].
    assert (0 <= (e - c - d * 60000) / 1800000) by (apply Z.div_pos; lia).
    lia.
  - assert (Hq : (e - c - d * 60000) / 1800000 + 1 = Z.of_nat (S n)) by lia.
    assert (Hge : c + d * 60000 <= e).
    { destruct (Z_lt_le_dec e (c + d * 60000)) as [Hlt|Hge]; [|exact Hge].
      assert ((e - c - d * 60000) / 1800000 < 0)
        by (apply Z.div_lt_upper_bound; lia).
      lia. }
    rewrite slotsLoop_step by exact Hge.
    rewrite (IH (c + 1800000)).
    + cbn [seq map]. f_equal; [simpl; lia|].
      rewrite <- seq_shift, map_map. apply map_ext. intro k. lia.
    + replace (e - (c + 1800000) - d * 60000)
        with ((e - c - d * 60000) + (-1) * 1800000) by ring.
      rewrite Z.div_add by discriminate. lia.
Qed.



(** ** Scores with no sessions and no windows *)




(** ** Progress statistics *)

Lemma filter_completed_count (sessions : list SessionModel.t) :
  len (filter SessionModel.completed sessions) = completedCount sessions.
Proof.
  unfold len, completedCount. f_equal.
  induction sessions as [|s l IH]; simpl; [reflexivity|].
  destruct (SessionModel.completed s); simpl.
  - now rewrite IH.
  - exact IH.
Qed.

Lemma completedCount_bounds (sessions : list SessionModel.t) :
  0 <= completedCount sessions <= len sessions.
Proof.
  unfold completedCount, len. split; [lia|].
  apply inj_le. rewrite <- (length_map SessionModel.completed sessions).
  apply count_occ_bound.
Qed.

(** C6 (as amended). [completionRate] is [Math.round] of the double
    [(completed / scheduled) * 100], the quotient being rounded to a
    double before the multiplication, when there is a session, and 0 when
    there is none; the statistics of the empty list are all zero, with an
    empty breakdown by type. *)
Theorem completion_rate_formula (sessions : list SessionModel.t) :
  let stats := Progress.calculateProgressStats sessions in
  let scheduled := Z.of_nat (List.length sessions) in
  let completed := completedCount sessions in
  ProgressStats.totalScheduled stats = scheduled
  /\ ProgressStats.totalCompleted stats = completed
  /\ ProgressStats.completionRate stats
     = (if 0 <? scheduled then doubleRate completed scheduled
        else Double.zero)
  /\ Progress.calculateProgressStats []
     = ProgressStats.mk 0 0 Double.zero [] Double.zero.
Proof.
  cbv zeta. unfold Progress.calculateProgressStats. cbv zeta.
  cbn [ProgressStats.totalScheduled ProgressStats.totalCompleted
       ProgressStats.completionRate].
  rewrite filter_completed_count. fold (len sessions).
  repeat split.
Qed.

(** In exact arithmetic 23 completed sessions of 40 are 57.5 percent,
    which rounds to 58; the double [23 / 40 * 100] is just below 57.5 and
    the code returns 57. *)
Lemma completion_rate_exact_rounding_fails :
  ProgressStats.completionRate
    (Progress.calculateProgressStats Examples.fortySessions)
  <> Double.ofZ
       (exactRate (completedCount Examples.fortySessions)
                  (Z.of_nat (List.length Examples.fortySessions))).
Proof. vm_compute. discriminate. Qed.

Example completion_rate_of_23_in_40 :
  ProgressStats.completionRate
    (Progress.calculateProgressStats Examples.fortySessions)
  = Double.ofZ 57
  /\ exactRate 23 40 = 58.
Proof. split; vm_compute; reflexivity. Qed.

(** ** Average spacing *)

Lemma sum_fold_right (l : list Z) (a : Z) :
  fold_left Z.add l a = a + fold_right Z.add 0 l.
Proof.
  revert a. induction l as [|x l IH]; intro a; simpl; [lia|].
  rewrite IH. lia.
Qed.

Lemma wholeHourGaps_aperture (l : list SessionModel.t) :
  wholeHourGaps l
  = map (fun '(prev, curr) =>
           differenceInHours (SessionModel.startTime curr)
                             (SessionModel.endTime prev))
        (R.aperture2 l).
Proof.
  induction l as [|a l IH]; [reflexivity|].
  destruct l as [|b l]; [reflexivity|].
  change (wholeHourGaps (a :: b :: l))
    with (Z.quot (SessionModel.startTime b - SessionModel.endTime a)
                 MS_PER_HOUR
          :: wholeHourGaps (b :: l)).
  rewrite IH. reflexivity.
Qed.

Lemma aperture2_length {A : Type} (l : list A) :
  List.length (R.aperture2 l) = (List.length l - 1)%nat.
Proof.
  induction l as [|a l IH]; [reflexivity|].
  destruct l as [|b l]; [reflexivity|].
  change (R.aperture2 (a :: b :: l)) with ((a, b) :: R.aperture2 (b :: l)).
  cbn [List.length] in *. rewrite IH. lia.
Qed.

(** C4 (as amended). [averageSpacing] is obtained by sorting all sessions
    by start time and taking for each consecutive pair the gap from the
    earlier session's end to the later session's start in whole hours
    (truncated toward zero, negative gaps kept); then, in doubles, the
    sum of the gaps is divided by their number and by 24, multiplied by
    10, rounded half up to an integer and divided by 10.  It is 0 for
    fewer than two sessions. *)
Theorem average_spacing_whole_hours (sessions : list SessionModel.t) :
  ProgressStats.averageSpacing (Progress.calculateProgressStats sessions)
  = averageSpacingDouble sessions.
Proof.
  unfold Progress.calculateProgressStats. cbn [ProgressStats.averageSpacing].
  destruct sessions as [|a [|b l]]; [reflexivity|reflexivity|].
  set (ss := a :: b :: l).
  change (averageSpacingDouble ss)
    with (let gaps :=
            wholeHourGaps (R.sortBy SessionModel.startTime ss) in
          Double.div
            (Double.Math_round
               (Double.mul
                  (Double.div
                     (Double.div (Double.ofZ (fold_right Z.add 0 gaps))
                                 (Double.ofZ (len gaps)))
                     (Double.ofZ 24))
                  (Double.ofZ 10)))
            (Double.ofZ 10)).
  cbv zeta. do 3 f_equal.
  unfold Progress.calculateAverageSpacing. cbv zeta.
  assert (Hlen : (2 <= List.length ss)%nat) by (subst ss; simpl; lia).
  destruct (len ss <? 2) eqn:E2; [apply Z.ltb_lt in E2; unfold len in E2; lia|].
  rewrite wholeHourGaps_aperture.
  set (sp := map _ (R.aperture2 (R.sortBy SessionModel.startTime ss))).
  assert (Hsp : (1 <= List.length sp)%nat).
  { subst sp. rewrite length_map, aperture2_length, sortBy_length. lia. }
  destruct (len sp =? 0) eqn:E0; [apply Z.eqb_eq in E0; unfold len in E0; lia|].
  unfold R.sum. rewrite sum_fold_right, Z.add_0_l. reflexivity.
Qed.

(** The truncation in [differenceInHours] changes the average: for two
    sessions 1 h 54 min apart the exact gap gives 0.1 days, the code 0. *)
Lemma average_spacing_exact_hours_fails :
  ProgressStats.averageSpacing
    (Progress.calculateProgressStats [Examples.session1; Examples.session2])
  <> Double.ofQ
       (averageSpacingWith exactHours [Examples.session1; Examples.session2]).
Proof. vm_compute. discriminate. Qed.

(** Rounding whole-hour gaps in exact arithmetic would not give the
    code's value either: for gaps of 1, 1, 1, 1 and 2 hours the average
    is 0.05 days exactly, which rounds to 0.1, while the double
    [6 / 5 / 24 * 10] is just below 0.5 and the code returns 0. *)
Example average_spacing_tie_rounds_down :
  ProgressStats.averageSpacing
    (Progress.calculateProgressStats Examples.spacedSessions)
  = Double.zero
  /\ (averageSpacingWith wholeHours Examples.spacedSessions == 1 # 10)%Q.
Proof. split; vm_compute; reflexivity. Qed.

(** Overlapping sessions give a negative gap, which is kept. *)
Example average_spacing_negative :
  ProgressStats.averageSpacing
    (Progress.calculateProgressStats
       [Examples.earlierDeepWork;
        SessionModel.mk "long" "type-1" Examples.deepWork
          (Examples.jan15 (-20) 0) (Examples.jan15 40 0) false;
        Examples.session1])
  = Double.div (Double.ofZ (-6)) (Double.ofZ 10).
Proof. vm_compute. reflexivity. Qed.

(** ** Spacing factor *)

Lemma fold_min_swap (r : list Z) (x y : Z) :
  fold_right Z.min x (y :: r) = Z.min x (fold_right Z.min y r).
Proof.
  revert x y. induction r as [|z r IH]; intros x y.
  - simpl. lia.
  - change (fold_right Z.min x (y :: z :: r))
      with (Z.min y (fold_right Z.min x (z :: r))).
    change (fold_right Z.min y (z :: r))
      with (Z.min z (fold_right Z.min y r)).
    rewrite (IH x z).
    pose proof (IH y z) as Hy. simpl in Hy. lia.
Qed.

Lemma minimumOf_cons (x : Z) (l : list Z) :
  minimumOf (x :: l) = optionMin (Some x) (minimumOf l).
Proof.
  destruct l as [|y r]; [reflexivity|].
  unfold minimumOf, optionMin. f_equal. apply fold_min_swap.
Qed.

Lemma optionMin_assoc (a b c : option Z) :
  optionMin a (optionMin b c) = optionMin (optionMin a b) c.
Proof.
  destruct a, b, c; simpl; try reflexivity. f_equal. lia.
Qed.

Lemma minimumOf_app (l1 l2 : list Z) :
  minimumOf (l1 ++ l2) = optionMin (minimumOf l1) (minimumOf l2).
Proof.
  induction l1 as [|x l1 IH]; [reflexivity|].
  change ((x :: l1) ++ l2) with (x :: (l1 ++ l2)).
  now rewrite !minimumOf_cons, IH, optionMin_assoc.
Qed.

Lemma minimumOf_spec (l : list Z) (m : Z) :
  minimumOf l = Some m -> In m l /\ Forall (fun x => m <= x) l.
Proof.
  revert m. induction l as [|x l IH]; intros m H; [discriminate|].
  rewrite minimumOf_cons in H.
  destruct (minimumOf l) as [m'|] eqn:E.
  - destruct (IH m' eq_refl) as [Hin Hall].
    simpl in H. injection H as <-. split.
    + destruct (Z.min_spec x m') as [[_ ->]|[_ ->]]; [now left|now right].
    + constructor; [lia|].
      eapply Forall_impl; [|exact Hall]. intros; simpl in *; lia.
  - simpl in H. injection H as <-.
    destruct l; [|discriminate]. split; [now left|]. constructor; [lia|constructor].
Qed.

Lemma minimumOf_map_div (l : list Z) :
  minimumOf (map (fun g => g / MS_PER_HOUR) l)
  = option_map (fun g => g / MS_PER_HOUR) (minimumOf l).
Proof.
  induction l as [|x l IH]; [reflexivity|].
  cbn [map]. rewrite !minimumOf_cons, IH.
  destruct (minimumOf l) as [m|]; [|reflexivity].
  simpl. f_equal.
  destruct (Z.le_ge_cases x m) as [H|H].
  - rewrite (Z.min_l x m) by exact H. apply Z.min_l.
    apply Z.div_le_mono; [reflexivity|exact H].
  - rewrite (Z.min_r x m) by exact H. apply Z.min_r.
    apply Z.div_le_mono; [reflexivity|exact H].
Qed.

Lemma min2_numOfOption (a b : option Z) :
  min2 (numOfOption a) (numOfOption b) = numOfOption (optionMin a b).
Proof.
  destruct a as [x|], b as [y|]; try reflexivity.
  simpl. unfold Qle_bool. simpl. rewrite !Z.mul_1_r.
  destruct (x <=? y) eqn:E.
  - apply Z.leb_le in E. now rewrite Z.min_l.
  - apply Z.leb_gt in E. rewrite Z.min_r by lia. reflexivity.
Qed.

Lemma Math_min_hours (l : list Z) :
  Math_min (map (fun h => Fin (inject_Z h)) l) = numOfOption (minimumOf l).
Proof.
  induction l as [|x l IH]; [reflexivity|].
  rewrite minimumOf_cons, <- min2_numOfOption, <- IH. reflexivity.
Qed.

Lemma sessionSpacing_hours (ps pe : Z) (s : SessionModel.t) :
  sessionSpacing ps pe s = numOfOption (minimumOf (positiveHours ps pe s)).
Proof.
  rewrite <- Math_min_hours. unfold sessionSpacing, positiveHours.
  cbv zeta. cbn [filter].
  destruct (0 <? differenceInHours ps (SessionModel.endTime s));
    destruct (0 <? differenceInHours (SessionModel.startTime s) pe);
    reflexivity.
Qed.

Lemma minSpacing_hours (ps pe : Z) (sessions : list SessionModel.t) :
  Math_min (map (sessionSpacing ps pe) sessions)
  = numOfOption (minimumOf (flat_map (positiveHours ps pe) sessions)).
Proof.
  induction sessions as [|s l IH]; [reflexivity|].
  cbn [map flat_map]. rewrite minimumOf_app, <- min2_numOfOption, <- IH.
  rewrite <- sessionSpacing_hours. reflexivity.
Qed.

Lemma quot_hours_nonpos (g : Z) : g <= 0 -> Z.quot g MS_PER_HOUR <= 0.
Proof.
  intro H. unfold MS_PER_HOUR.
  replace g with (- (- g)) by lia.
  rewrite Z.quot_opp_l by discriminate.
  assert (0 <= Z.quot (- g) 3600000) by (apply Z.quot_pos; lia). lia.
Qed.

Lemma quot_hours_pos (g : Z) :
  MS_PER_HOUR <= g ->
  Z.quot g MS_PER_HOUR = g / MS_PER_HOUR /\ 0 < g / MS_PER_HOUR.
Proof.
  unfold MS_PER_HOUR. intro H. split.
  - apply Z.quot_div_nonneg; lia.
  - apply Z.div_str_pos. lia.
Qed.

(** One distance, counted by the code and by the specification. *)
Lemma filter_hours_gap (g : Z) :
  (0 <? g) = false \/ MS_PER_HOUR <= g ->
  filter (fun h => 0 <? h) [Z.quot g MS_PER_HOUR]
  = map (fun x => x / MS_PER_HOUR) (filter (fun x => 0 <? x) [g]).
Proof.
  intros [H|H]; cbn [filter].
  - rewrite H. apply Z.ltb_ge in H.
    pose proof (quot_hours_nonpos g H) as Hq.
    apply Z.ltb_ge in Hq. now rewrite Hq.
  - destruct (quot_hours_pos g H) as [Hq Hp].
    assert (Hg : (0 <? g) = true) by (apply Z.ltb_lt; unfold MS_PER_HOUR in H; lia).
    rewrite Hg, Hq. apply Z.ltb_lt in Hp. now rewrite Hp.
Qed.

Lemma positiveHours_gaps (ps pe : Z) (s : SessionModel.t) :
  forallb (fun g => MS_PER_HOUR <=? g) (positiveGaps ps pe s) = true ->
  positiveHours ps pe s
  = map (fun g => g / MS_PER_HOUR) (positiveGaps ps pe s).
Proof.
  unfold positiveHours, positiveGaps, differenceInHours.
  set (g1 := ps - SessionModel.endTime s).
  set (g2 := SessionModel.startTime s - pe).
  intro H.
  change [Z.quot g1 MS_PER_HOUR; Z.quot g2 MS_PER_HOUR]
    with ([Z.quot g1 MS_PER_HOUR] ++ [Z.quot g2 MS_PER_HOUR]).
  change [g1; g2] with ([g1] ++ [g2]) in *.
  rewrite filter_app in H. rewrite !filter_app. rewrite forallb_app in H.
  apply andb_true_iff in H. destruct H as [H1 H2].
  rewrite map_app. f_equal; apply filter_hours_gap.
  - cbn [filter] in H1. destruct (0 <? g1); [right|now left].
    cbn [forallb] in H1. rewrite andb_true_r in H1. now apply Z.leb_le.
  - cbn [filter] in H2. destruct (0 <? g2); [right|now left].
    cbn [forallb] in H2. rewrite andb_true_r in H2. now apply Z.leb_le.
Qed.

Lemma flat_positiveHours_gaps (ps pe : Z) (sessions : list SessionModel.t) :
  noSubHourGap ps pe sessions = true ->
  flat_map (positiveHours ps pe) sessions
  = map (fun g => g / MS_PER_HOUR) (flat_map (positiveGaps ps pe) sessions).
Proof.
  unfold noSubHourGap. induction sessions as [|s l IH]; [reflexivity|].
  cbn [flat_map]. rewrite forallb_app, andb_true_iff. intros [H1 H2].
  rewrite map_app, IH by exact H2. f_equal. now apply positiveHours_gaps.
Qed.

Lemma calculateSpacingScore_min (ps pe : Z) (sessions : list SessionModel.t)
  (h : Z) :
  minimumOf (flat_map (positiveHours ps pe) sessions) = Some h ->
  calculateSpacingScore ps pe sessions
  = if h <? 2 then 0%Q else min100 (inject_Z h / 24 * 100)%Q.
Proof.
  intro H. unfold calculateSpacingScore. cbv zeta.
  destruct sessions as [|s l]; [discriminate|].
  assert (E : (len (s :: l) =? 0) = false)
    by (apply Z.eqb_neq; unfold len; simpl; lia).
  rewrite E, minSpacing_hours, H. cbn [numOfOption ltb_fin].
  assert (Elt : Qltb (inject_Z h) (inject_Z MIN_SPACING_HOURS) = (h <? 2)).
  { unfold Qltb, Qle_bool, MIN_SPACING_HOURS. simpl.
    rewrite Z.mul_1_r. destruct (Z.ltb_spec h 2); [apply negb_true_iff|apply negb_false_iff].
    - apply Z.leb_gt. lia.
    - apply Z.leb_le. lia. }
  rewrite Elt. reflexivity.
Qed.

(** C3 (as amended). With no existing session the spacing factor is 100.
    When no session lies at a positive distance of less than one hour
    from the candidate, the factor is computed from the minimum positive
    gap to any session, in either direction, counted in whole hours: 0
    below two hours, otherwise [min(100, hours / 24 * 100)].  A candidate
    starting at least one hour and less than two hours after a session's
    end has factor 0. *)
Theorem spacing_factor_whole_hours
  (proposedStart proposedEnd : Z) (sessions : list SessionModel.t) :
  noSubHourGap proposedStart proposedEnd sessions = true ->
  (calculateSpacingScore proposedStart proposedEnd [] == 100)%Q
  /\ (forall gap,
         minPositiveGap proposedStart proposedEnd sessions = Some gap ->
         (calculateSpacingScore proposedStart proposedEnd sessions
          == spacingFactorOfWholeHours gap)%Q)
  /\ (forall s,
         In s sessions ->
         MS_PER_HOUR <= proposedStart - SessionModel.endTime s < 2 * MS_PER_HOUR ->
         (calculateSpacingScore proposedStart proposedEnd sessions == 0)%Q).
Proof.
  intro Hno. split; [reflexivity|split].
  - intros gap Hgap. unfold minPositiveGap in Hgap.
    rewrite (calculateSpacingScore_min _ _ _ (gap / MS_PER_HOUR)).
    + reflexivity.
    + rewrite flat_positiveHours_gaps by exact Hno.
      now rewrite minimumOf_map_div, Hgap.
  - intros s Hs Hgap.
    assert (H1 : In 1 (flat_map (positiveHours proposedStart proposedEnd) sessions)).
    { apply in_flat_map. exists s. split; [exact Hs|].
      unfold positiveHours, differenceInHours.
      assert (Hq : Z.quot (proposedStart - SessionModel.endTime s) MS_PER_HOUR = 1).
      { destruct (quot_hours_pos _ (proj1 Hgap)) as [-> _].
        unfold MS_PER_HOUR in *.
        symmetry. apply (Z.div_unique _ _ 1
          (proposedStart - SessionModel.endTime s - 3600000)); lia. }
      rewrite Hq. cbn [filter]. now left. }
    destruct (minimumOf (flat_map (positiveHours proposedStart proposedEnd) sessions))
      as [h|] eqn:Eh.
    + destruct (minimumOf_spec _ _ Eh) as [Hin Hall].
      rewrite Forall_forall in Hall. pose proof (Hall 1 H1) as Hle.
      apply in_flat_map in Hin. destruct Hin as [s' [_ Hin]].
      unfold positiveHours in Hin. apply filter_In in Hin.
      destruct Hin as [_ Hpos]. apply Z.ltb_lt in Hpos.
      assert (h = 1) by lia. subst h.
      rewrite (calculateSpacingScore_min _ _ _ 1 Eh). reflexivity.
    + destruct (flat_map _ sessions); [destruct H1|discriminate].
Qed.

(** The specification's formula on the exact gap fails: 2 h 30 min after a
    session the code scores 2/24*100, not 2.5/24*100. *)
Lemma spacing_factor_exact_gap_fails :
  minPositiveGap (Examples.jan15 13 30) (Examples.jan15 14 30)
    [Examples.session1] = Some (150 * MS_PER_MINUTE)
  /\ ~ (calculateSpacingScore (Examples.jan15 13 30) (Examples.jan15 14 30)
          [Examples.session1]
        == spacingFactorOfGap (150 * MS_PER_MINUTE))%Q.
Proof.
  split; [reflexivity|]. intro H. vm_compute in H. discriminate H.
Qed.

(** A session that ended thirty minutes before the candidate is not
    counted at all: the factor is 100. *)
Example spacing_factor_sub_hour_gap :
  minPositiveGap (Examples.jan15 11 30) (Examples.jan15 12 30)
    [Examples.session1] = Some (30 * MS_PER_MINUTE)
  /\ (calculateSpacingScore (Examples.jan15 11 30) (Examples.jan15 12 30)
        [Examples.session1] == 100)%Q
  /\ (spacingFactorOfGap (30 * MS_PER_MINUTE) == 0)%Q.
Proof. repeat split. Qed.

(** ** Reason strings *)

Lemma hours_since_antitone (t a b : Z) :
  (t - Z.max a b) / MS_PER_HOUR
  = Z.min ((t - a) / MS_PER_HOUR) ((t - b) / MS_PER_HOUR).
Proof.
  destruct (Z.le_ge_cases a b) as [H|H].
  - rewrite (Z.max_r a b) by exact H. symmetry. apply Z.min_r.
    apply Z.div_le_mono; [reflexivity|lia].
  - rewrite (Z.max_l a b) by exact H. symmetry. apply Z.min_l.
    apply Z.div_le_mono; [reflexivity|lia].
Qed.

Lemma fold_min_hours_since (t e : Z) (r : list Z) :
  fold_right Z.min ((t - e) / MS_PER_HOUR)
    (map (fun x => (t - x) / MS_PER_HOUR) r)
  = (t - fold_right Z.max e r) / MS_PER_HOUR.
Proof.
  induction r as [|z r IH]; [reflexivity|].
  cbn [map fold_right]. rewrite IH. symmetry. apply hours_since_antitone.
Qed.

(** Under [noSubHourEnd], the positive whole-hour distances the code keeps
    are those to the sessions that ended before the start. *)
Lemma spacings_past_ends (t : Z) (l : list SessionModel.t) :
  noSubHourEnd t l = true ->
  filter (fun h => 0 <? h)
         (map (fun s => differenceInHours t (SessionModel.endTime s)) l)
  = map (fun e => (t - e) / MS_PER_HOUR)
        (filter (fun e => e <? t) (map SessionModel.endTime l)).
Proof.
  unfold noSubHourEnd. induction l as [|s l IH]; [reflexivity|].
  cbn [forallb map filter]. rewrite andb_true_iff. intros [Hs Hl].
  rewrite IH by exact Hl. unfold differenceInHours.
  destruct (SessionModel.endTime s <? t) eqn:E.
  - apply Z.ltb_lt in E. simpl in Hs. apply negb_true_iff, Z.ltb_ge in Hs.
    destruct (quot_hours_pos _ Hs) as [Hq Hp].
    rewrite Hq. apply Z.ltb_lt in Hp. rewrite Hp. reflexivity.
  - apply Z.ltb_ge in E.
    assert (Hq : Z.quot (t - SessionModel.endTime s) MS_PER_HOUR <= 0)
      by (apply quot_hours_nonpos; lia).
    apply Z.ltb_ge in Hq. rewrite Hq. reflexivity.
Qed.

Lemma spacingReasons_amended (t : Z) (same : list SessionModel.t) :
  noSubHourEnd t same = true ->
  spacingReasons t same = clauseSpacing spacingClauseWholeHours t same.
Proof.
  intro H. unfold spacingReasons, clauseSpacing, mostRecentEnd.
  destruct same as [|first rest]; [reflexivity|].
  cbv zeta. rewrite (spacings_past_ends t (first :: rest) H).
  destruct (filter (fun e => e <? t) (map SessionModel.endTime (first :: rest)))
    as [|e r]; [reflexivity|].
  cbn [map]. rewrite fold_min_hours_since.
  unfold spacingClauseWholeHours, spacingSentence. cbv zeta.
  destruct (24 <=? _); [reflexivity|].
  now rewrite Math_round_Z.
Qed.

Lemma joinReasons_cases (reasons : list string) :
  joinReasons reasons
  = match reasons with
    | [] => "Good time slot available"%string
    | _ => String.concat ". " reasons
    end.
Proof. destruct reasons; reflexivity. Qed.

Lemma generateReason_amended tz startTime score priority existing typeId :
  noSubHourEnd startTime (sameType typeId existing) = true ->
  generateReason tz startTime score priority existing typeId
  = reasonOf tz spacingClauseWholeHours startTime priority typeId existing.
Proof.
  intro H. unfold generateReason, reasonOf. cbv zeta.
  rewrite joinReasons_cases.
  fold (sameType typeId existing).
  rewrite (spacingReasons_amended _ _ H).
  change (focusReasons tz startTime) with (clauseFocus tz startTime).
  change (priorityReasons priority) with (clausePriority priority).
  destruct (clauseSpacing _ _ _ ++ _)%list; reflexivity.
Qed.

(** C8 (as amended). The reason of a returned suggestion is the
    ". "-joined list, in order, of: (a) "First session of this type" when
    no session of the type exists, otherwise the spacing clause for the
    session of the type that ended most recently before the slot, if
    there is one, with the gap counted in whole hours: "N days" (N the
    hours divided by 24, to one decimal) from 24 hours on, "N hours"
    below; (b) the morning clause for a start hour in [6,12), the evening
    clause for [18,22); (c) the high-priority clause for priority at least
    4; and "Good time slot available" when the list is empty.  This is
    stated for slots with no session of the type ending less than an hour
    before them. *)
Theorem reason_clauses
  (tz : Zone) (now : Z) (sessionType : SessionTypeModel.t)
  (existingSessions : list SessionModel.t)
  (availabilityWindows : list AvailabilityWindowModel.t)
  (durationMinutes lookAheadDays : Z) (sg : SessionSuggestion.t) :
  In sg (generateSuggestions tz now sessionType existingSessions
           availabilityWindows durationMinutes lookAheadDays) ->
  noSubHourEnd (SessionSuggestion.startTime sg)
    (sameType (SessionTypeModel.id sessionType) existingSessions) = true ->
  SessionSuggestion.reason sg
  = reasonOf tz spacingClauseWholeHours (SessionSuggestion.startTime sg)
      (SessionTypeModel.priority sessionType)
      (SessionTypeModel.id sessionType) existingSessions.
Proof.
  intros Hsg Hno.
  apply generateSuggestions_In in Hsg. destruct Hsg as [startTime Hsg].
  apply slotSuggestions_In in Hsg. cbv zeta in Hsg.
  destruct Hsg as [-> _].
  cbn [SessionSuggestion.reason SessionSuggestion.startTime] in *.
  now apply generateReason_amended.
Qed.

(** With the days taken from the exact gap the claim fails: 25 h 54 min
    after the last deep-work session the third suggestion reads "1 days",
    not "1.1 days". *)
Lemma reason_exact_gap_fails :
  ~ Forall
      (fun sg =>
         SessionSuggestion.reason sg
         = reasonOf 0 spacingClauseExact (SessionSuggestion.startTime sg)
             (SessionTypeModel.priority Examples.deepWork)
             (SessionTypeModel.id Examples.deepWork)
             [Examples.earlierDeepWork])
      (generateSuggestions 0 (Examples.jan15 0 0) Examples.deepWork
         [Examples.earlierDeepWork] [Examples.mondayWindow] 60 7).
Proof.
  intro H. rewrite Forall_forall in H.
  specialize (H (SessionSuggestion.mk "type-1"
                   (Examples.jan15 10 0) (Examples.jan15 11 0)
                   "Good spacing (1 days since last Deep Work). Uses your morning focus window. High priority session"
                   100)).
  assert (Hin : In
    (SessionSuggestion.mk "type-1"
       (Examples.jan15 10 0) (Examples.jan15 11 0)
       "Good spacing (1 days since last Deep Work). Uses your morning focus window. High priority session"
       100)
    (generateSuggestions 0 (Examples.jan15 0 0) Examples.deepWork
       [Examples.earlierDeepWork] [Examples.mondayWindow] 60 7)).
  { vm_compute. right. right. left. reflexivity. }
  specialize (H Hin). vm_compute in H. discriminate H.
Qed.

(** ** Session creation *)

Lemma filter_nil_none {A : Type} (f : A -> bool) (l : list A) :
  filter f l = [] -> forall x, In x l -> f x = false.
Proof.
  intros H x Hx. destruct (f x) eqn:E; [|reflexivity].
  assert (Hin : In x (filter f l)) by (apply filter_In; auto).
  rewrite H in Hin. destruct Hin.
Qed.

(** C7. For a request naming an existing session type and with [endTime]
    after [startTime], the create handler answers with the conflict
    status 409, leaving the sessions unchanged, exactly when the requested
    interval overlaps an existing session under the half-open test;
    otherwise it creates the session.  The conflict answer differs from
    the validation (400) and not-found (404) answers, and on sessions of
    positive duration the overlap test agrees with the suggestion
    engine's. *)
Theorem create_rejects_overlap
  (db : SessionsRoute.Db) (newId typeId : string)
  (sessionType : SessionTypeModel.t) (startTime endTime : Z) :
  SessionsRoute.findUnique (SessionsRoute.sessionTypes db) typeId
  = Some sessionType ->
  startTime < endTime ->
  let body := SessionsRoute.mkRequest typeId (Some startTime) (Some endTime) in
  let created :=
    SessionModel.mk newId typeId sessionType startTime endTime false in
  let overlapping :=
    exists s, In s (SessionsRoute.sessions db)
              /\ halfOpenOverlap startTime endTime
                   (SessionModel.startTime s) (SessionModel.endTime s) in
  ((exists conflicts,
       SessionsRoute.POST db newId body
       = (SessionsRoute.Conflict conflicts, db))
   <-> overlapping)
  /\ (~ overlapping ->
      SessionsRoute.POST db newId body
      = (SessionsRoute.Created created,
         SessionsRoute.mkDb (SessionsRoute.sessionTypes db)
           (SessionsRoute.sessions db ++ [created])))
  /\ (forall conflicts,
         SessionsRoute.status (SessionsRoute.Conflict conflicts) = 409
         /\ SessionsRoute.status (SessionsRoute.Conflict conflicts)
            <> SessionsRoute.status SessionsRoute.BadRequest
         /\ SessionsRoute.status (SessionsRoute.Conflict conflicts)
            <> SessionsRoute.status SessionsRoute.NotFound)
  /\ (Forall properSession (SessionsRoute.sessions db) ->
      (overlapping
       <-> existsb (conflictsWith startTime endTime)
                   (SessionsRoute.sessions db) = true)).
Proof.
  intros Hfind Hlt. cbv zeta.
  assert (Hpost :
    SessionsRoute.POST db newId
      (SessionsRoute.mkRequest typeId (Some startTime) (Some endTime))
    = match filter (SessionsRoute.overlapsRequest startTime endTime)
                   (SessionsRoute.sessions db) with
      | [] =>
          (SessionsRoute.Created
             (SessionModel.mk newId typeId sessionType startTime endTime false),
           SessionsRoute.mkDb (SessionsRoute.sessionTypes db)
             (SessionsRoute.sessions db
              ++ [SessionModel.mk newId typeId sessionType
                    startTime endTime false]))
      | c :: cs => (SessionsRoute.Conflict (c :: cs), db)
      end).
  { unfold SessionsRoute.POST.
    cbn [SessionsRoute.sessionTypeId SessionsRoute.startTime
         SessionsRoute.endTime SessionsRoute.isAfter].
    rewrite Hfind. apply Z.ltb_lt in Hlt. rewrite Hlt. cbn [negb].
    destruct (filter _ _); reflexivity. }
  rewrite Hpost.
  destruct (filter (SessionsRoute.overlapsRequest startTime endTime)
                   (SessionsRoute.sessions db)) as [|c cs] eqn:Ef.
  - pose proof (filter_nil_none _ _ Ef) as Hnone.
    split; [|split; [|split]].
    + split.
      * intros [conflicts H]. discriminate H.
      * intros [s [Hs Ho]]. apply overlapsRequest_iff in Ho.
        rewrite (Hnone s Hs) in Ho. discriminate Ho.
    + reflexivity.
    + intro conflicts. simpl. repeat split; discriminate.
    + intro Hproper. rewrite Forall_forall in Hproper. split.
      * intros [s [Hs Ho]]. apply overlapsRequest_iff in Ho.
        rewrite (Hnone s Hs) in Ho. discriminate Ho.
      * intro He. apply existsb_exists in He. destruct He as [s [Hs Hc]].
        rewrite conflictsWith_overlapsRequest in Hc; [|lia|now apply Hproper].
        rewrite (Hnone s Hs) in Hc. discriminate Hc.
  - assert (Hc : In c (SessionsRoute.sessions db)
                 /\ SessionsRoute.overlapsRequest startTime endTime c = true).
    { apply filter_In. rewrite Ef. now left. }
    destruct Hc as [Hc Ho].
    assert (Hov : exists s, In s (SessionsRoute.sessions db)
                            /\ halfOpenOverlap startTime endTime
                                 (SessionModel.startTime s)
                                 (SessionModel.endTime s)).
    { exists c. split; [exact Hc|]. now apply overlapsRequest_iff. }
    split; [|split; [|split]].
    + split; [intros _; exact Hov|]. intros _. now exists (c :: cs).
    + intro Hn. contradiction.
    + intro conflicts. simpl. repeat split; discriminate.
    + intro Hproper. rewrite Forall_forall in Hproper. split.
      * intros _. apply existsb_exists. exists c. split; [exact Hc|].
        rewrite conflictsWith_overlapsRequest; [exact Ho|lia|now apply Hproper].
      * intros _. exact Hov.
Qed.

(* ------------------------------------------------------------------ *)
(** * The properties on the data of the test suites *)

Lemma suggestions_never_conflict_witness :
  0 < 60
  /\ Forall
       (fun sg =>
          ~ halfOpenOverlap
              (SessionSuggestion.startTime sg) (SessionSuggestion.endTime sg)
              (SessionModel.startTime Examples.session1)
              (SessionModel.endTime Examples.session1))
       (generateSuggestions 0 (Examples.jan15 0 53) Examples.deepWork
          [Examples.session1] [Examples.mondayWindow] 60 7).
Proof.
  split; [lia|].
  destruct (suggestions_never_conflict 0 (Examples.jan15 0 53)
              Examples.deepWork [Examples.session1] [Examples.mondayWindow]
              60 7) as [H _]; [lia|].
  eapply Forall_impl; [|exact H].
  intros sg [_ Hs]. apply Forall_inv in Hs. exact (proj1 Hs).
Defined.

(** A slot that starts exactly when [session1] ends is returned. *)
Example touching_slot_is_returned :
  exists sg,
    In sg (generateSuggestions 0 (Examples.jan15 0 53) Examples.deepWork
             [Examples.session1] [Examples.mondayWindow] 60 7)
    /\ SessionSuggestion.startTime sg = SessionModel.endTime Examples.session1.
Proof.
  exists (SessionSuggestion.mk "type-1" (Examples.jan15 11 0)
            (Examples.jan15 12 0)
            "First session of this type. Uses your morning focus window. High priority session"
            97).
  split; [vm_compute; right; left; reflexivity|reflexivity].
Qed.

Lemma conflict_tests_agree_witness :
  conflictsWith (Examples.jan15 10 30) (Examples.jan15 11 30) Examples.session1
  = true
  <-> SessionsRoute.overlapsRequest (Examples.jan15 10 30)
        (Examples.jan15 11 30) Examples.session1 = true.
Proof.
  apply (conflict_tests_agree (Examples.jan15 10 30) (Examples.jan15 11 30)
           Examples.session1).
  - reflexivity.
  - reflexivity.
Defined.

Lemma suggestion_scores_bounded_witness :
  Forall (fun sg => 30 <= SessionSuggestion.score sg <= 100)
    (generateSuggestions 0 (Examples.jan15 0 53) Examples.deepWork
       [Examples.session1] [Examples.mondayWindow] 60 7).
Proof.
  eapply Forall_impl;
    [|apply (suggestion_scores_bounded 0 (Examples.jan15 0 53)
               Examples.deepWork [Examples.session1] [Examples.mondayWindow]
               60 7); simpl; lia].
  intros sg [_ H]. exact H.
Defined.


Lemma spacing_factor_whole_hours_witness :
  (calculateSpacingScore (Examples.jan15 13 30) (Examples.jan15 14 30)
     [Examples.session1]
   == spacingFactorOfWholeHours (150 * MS_PER_MINUTE))%Q.
Proof.
  apply (spacing_factor_whole_hours (Examples.jan15 13 30)
           (Examples.jan15 14 30) [Examples.session1]).
  - reflexivity.
  - reflexivity.
Defined.

Lemma reason_clauses_witness :
  "Good spacing (1 days since last Deep Work). Uses your morning focus window. High priority session"%string
  = reasonOf 0 spacingClauseWholeHours (Examples.jan15 10 0) 5 "type-1"
      [Examples.earlierDeepWork].
Proof.
  apply (reason_clauses 0 (Examples.jan15 0 0) Examples.deepWork
           [Examples.earlierDeepWork] [Examples.mondayWindow] 60 7
           (SessionSuggestion.mk "type-1"
              (Examples.jan15 10 0) (Examples.jan15 11 0)
              "Good spacing (1 days since last Deep Work). Uses your morning focus window. High priority session"
              100)).
  - vm_compute. right. right. left. reflexivity.
  - reflexivity.
Defined.

(** The example of the specification: with a session on 15 January from
    10:00 to 11:00 UTC, creating 10:30-11:30 is a conflict and creating
    12:00-13:00 succeeds. *)
Lemma create_rejects_overlap_witness :
  (exists conflicts,
      SessionsRoute.POST Examples.db1 "new"
        (Examples.createRequest (Examples.jan15 10 30) (Examples.jan15 11 30))
      = (SessionsRoute.Conflict conflicts, Examples.db1))
  /\ SessionsRoute.POST Examples.db1 "new"
       (Examples.createRequest (Examples.jan15 12 0) (Examples.jan15 13 0))
     = (SessionsRoute.Created
          (SessionModel.mk "new" "type-1" Examples.deepWork
             (Examples.jan15 12 0) (Examples.jan15 13 0) false),
        SessionsRoute.mkDb [Examples.deepWork; Examples.meeting]
          [Examples.session1;
           SessionModel.mk "new" "type-1" Examples.deepWork
             (Examples.jan15 12 0) (Examples.jan15 13 0) false]).
Proof.
  split.
  - apply (create_rejects_overlap Examples.db1 "new" "type-1"
             Examples.deepWork (Examples.jan15 10 30) (Examples.jan15 11 30)
             eq_refl eq_refl).
    exists Examples.session1. split; [now left|]. split; reflexivity.
  - apply (create_rejects_overlap Examples.db1 "new" "type-1"
             Examples.deepWork (Examples.jan15 12 0) (Examples.jan15 13 0)
             eq_refl eq_refl).
    intros [s [[<-|[]] [H1 H2]]]. vm_compute in H1. discriminate H1.
Defined.

(** ** Complements *)

(** Whatever the request, a conflict answer is given only to a request
    for an existing type, with [endTime] after [startTime], whose interval
    overlaps a stored session; it lists exactly the overlapping sessions
    and leaves the tables unchanged. *)
Lemma conflict_only_when_overlapping
  (db db' : SessionsRoute.Db) (newId : string)
  (body : SessionsRoute.CreateSessionRequest)
  (conflicts : list SessionModel.t) :
  SessionsRoute.POST db newId body = (SessionsRoute.Conflict conflicts, db') ->
  db' = db
  /\ exists startTime endTime,
       SessionsRoute.startTime body = Some startTime
       /\ SessionsRoute.endTime body = Some endTime
       /\ startTime < endTime
       /\ SessionsRoute.findUnique (SessionsRoute.sessionTypes db)
            (SessionsRoute.sessionTypeId body) <> None
       /\ conflicts
          = filter (SessionsRoute.overlapsRequest startTime endTime)
                   (SessionsRoute.sessions db)
       /\ exists s, In s (SessionsRoute.sessions db)
                    /\ halfOpenOverlap startTime endTime
                         (SessionModel.startTime s) (SessionModel.endTime s).
Proof.
  unfold SessionsRoute.POST.
  destruct (SessionsRoute.findUnique _ _) as [sessionType|]; [|discriminate].
  destruct (SessionsRoute.endTime body) as [e|]; [|discriminate].
  destruct (SessionsRoute.startTime body) as [s|]; [|discriminate].
  cbn [SessionsRoute.isAfter].
  destruct (s <? e) eqn:E; [|discriminate]. cbn [negb].
  destruct (filter (SessionsRoute.overlapsRequest s e) (SessionsRoute.sessions db))
    as [|c cs] eqn:Ef; [discriminate|].
  change (0 <? len (c :: cs)) with true. cbv iota.
  intro H. injection H as <- <-. split; [reflexivity|].
  exists s; exists e. apply Z.ltb_lt in E.
  split; [reflexivity|]. split; [reflexivity|]. split; [exact E|].
  split; [discriminate|]. split; [now rewrite Ef|].
  assert (Hc : In c (filter (SessionsRoute.overlapsRequest s e)
                            (SessionsRoute.sessions db)))
    by (rewrite Ef; now left).
  apply filter_In in Hc. destruct Hc as [Hc Ho].
  exists c. split; [exact Hc|]. now apply overlapsRequest_iff.
Qed.

(** The two overlap tests differ on a session of zero duration, so the
    positive-duration assumption cannot be dropped. *)
Example conflict_tests_differ_on_empty_session :
  let s := SessionModel.mk "empty" "type-1" Examples.deepWork
             (Examples.jan15 10 0) (Examples.jan15 10 0) false in
  conflictsWith (Examples.jan15 10 0) (Examples.jan15 11 0) s = true
  /\ SessionsRoute.overlapsRequest (Examples.jan15 10 0) (Examples.jan15 11 0) s
     = false.
Proof. split; reflexivity. Qed.

(** A session type outside the data model's priority range can score
    above 100. *)
Example score_above_100_outside_priority_range :
  Exists (fun sg => 100 < SessionSuggestion.score sg)
    (generateSuggestions 0 (Examples.jan15 0 53)
       (SessionTypeModel.mk "type-9" "Urgent" "Work" 9)
       [] [Examples.mondayWindow] 60 7).
Proof. vm_compute. apply Exists_cons_hd. reflexivity. Qed.

(* ------------------------------------------------------------------ *)
(** * Properties of the routes *)

Import Facts.

(** ** What a request to a writing route can do to the tables *)

Lemma POST_session_cases (db : SessionsRoute.Db) (newId : string)
  (body : SessionsRoute.CreateSessionRequest) :
  snd (SessionsRoute.POST db newId body) = db
  \/ exists sessionType startTime endTime,
       SessionsRoute.findUnique (SessionsRoute.sessionTypes db)
         (SessionsRoute.sessionTypeId body) = Some sessionType
       /\ startTime < endTime
       /\ (forall x, In x (SessionsRoute.sessions db) ->
                     SessionsRoute.overlapsRequest startTime endTime x = false)
       /\ SessionsRoute.POST db newId body
          = (SessionsRoute.Created
               (SessionModel.mk newId (SessionsRoute.sessionTypeId body)
                  sessionType startTime endTime false),
             SessionsRoute.mkDb (SessionsRoute.sessionTypes db)
               (SessionsRoute.sessions db
                ++ [SessionModel.mk newId (SessionsRoute.sessionTypeId body)
                      sessionType startTime endTime false])).
Proof.
  unfold SessionsRoute.POST.
  destruct (SessionsRoute.findUnique _ _) as [sessionType|]; [|now left].
  destruct (SessionsRoute.endTime body) as [e|]; [|now left].
  destruct (SessionsRoute.startTime body) as [s|]; [|now left].
  cbn [SessionsRoute.isAfter].
  destruct (s <? e) eqn:E; [|now left]. cbn [negb].
  destruct (filter (SessionsRoute.overlapsRequest s e) (SessionsRoute.sessions db))
    as [|c cs] eqn:Ef; [|now left].
  right. exists sessionType; exists s; exists e.
  apply Z.ltb_lt in E. repeat split; try assumption.
  now apply filter_nil_none.
Qed.

Lemma find_hasId_In (id : string) (l : list SessionModel.t) (row : SessionModel.t) :
  SessionByIdRoute.findSession l id = Some row ->
  In row l /\ SessionModel.id row = id.
Proof.
  unfold SessionByIdRoute.findSession. intro H.
  apply find_some in H. destruct H as [Hin Hid].
  split; [exact Hin|]. now apply String.eqb_eq in Hid.
Qed.

Lemma applyUpdate_id completed times s :
  SessionModel.id (SessionByIdRoute.applyUpdate completed times s)
  = SessionModel.id s.
Proof. reflexivity. Qed.

(** The tables after PUT: unchanged, or every row with the identifier
    replaced by its update, whose new times (if any) are in order and
    overlap no other row. *)
Lemma PUT_session_cases (db : SessionsRoute.Db) (id : string)
  (body : SessionByIdRoute.UpdateSessionRequest) :
  snd (SessionByIdRoute.PUT db id body) = db
  \/ exists completed times,
       snd (SessionByIdRoute.PUT db id body)
       = SessionsRoute.mkDb (SessionsRoute.sessionTypes db)
           (map (fun s => if SessionByIdRoute.hasId id s
                          then SessionByIdRoute.applyUpdate completed times s
                          else s)
                (SessionsRoute.sessions db))
       /\ match times with
          | None => True
          | Some (st, et) =>
              st < et
              /\ forall x, In x (SessionsRoute.sessions db) ->
                           SessionModel.id x <> id ->
                           SessionsRoute.overlapsRequest st et x = false
          end.
Proof.
  assert (Hup : forall completed times,
             match times with
             | None => True
             | Some (st, et) =>
                 st < et
                 /\ forall x, In x (SessionsRoute.sessions db) ->
                              SessionModel.id x <> id ->
                              SessionsRoute.overlapsRequest st et x = false
             end ->
             snd (SessionByIdRoute.update db id completed times) = db
             \/ exists completed0 times0,
                  snd (SessionByIdRoute.update db id completed times)
                  = SessionsRoute.mkDb (SessionsRoute.sessionTypes db)
                      (map (fun s => if SessionByIdRoute.hasId id s
                                     then SessionByIdRoute.applyUpdate
                                            completed0 times0 s
                                     else s)
                           (SessionsRoute.sessions db))
                  /\ match times0 with
                     | None => True
                     | Some (st, et) =>
                         st < et
                         /\ forall x, In x (SessionsRoute.sessions db) ->
                                      SessionModel.id x <> id ->
                                      SessionsRoute.overlapsRequest st et x = false
                     end).
  { intros completed times Ht. unfold SessionByIdRoute.update.
    destruct (SessionByIdRoute.findSession _ _); [|now left].
    right. exists completed; exists times. split; [reflexivity|exact Ht]. }
  unfold SessionByIdRoute.PUT.
  destruct (SessionByIdRoute.startTime body) as [s|]; [|now apply Hup].
  destruct (SessionByIdRoute.endTime body) as [e|]; [|now apply Hup].
  destruct e as [e|]; [|now left].
  destruct s as [s|]; [|now left].
  cbn [SessionsRoute.isAfter].
  destruct (s <? e) eqn:E; [|now left]. cbn [negb]. cbv zeta.
  destruct (filter _ (SessionsRoute.sessions db)) as [|c cs] eqn:Ef; [|now left].
  change (0 <? len (@nil SessionModel.t)) with false. cbv iota.
  apply Hup. apply Z.ltb_lt in E. split; [exact E|].
  intros x Hx Hid.
  pose proof (filter_nil_none _ _ Ef x Hx) as Hf. cbv beta in Hf.
  apply andb_false_iff in Hf. destruct Hf as [Hf|Hf]; [|exact Hf].
  apply negb_false_iff in Hf. unfold SessionByIdRoute.hasId in Hf.
  apply String.eqb_eq in Hf. contradiction.
Qed.

Lemma DELETE_session_cases (db : SessionsRoute.Db) (id : string) :
  snd (SessionByIdRoute.DELETE db id) = db
  \/ snd (SessionByIdRoute.DELETE db id)
     = SessionsRoute.mkDb (SessionsRoute.sessionTypes db)
         (filter (fun s => negb (SessionByIdRoute.hasId id s))
                 (SessionsRoute.sessions db)).
Proof.
  unfold SessionByIdRoute.DELETE.
  destruct (SessionByIdRoute.findSession _ _); [now right|now left].
Qed.

Lemma POST_type_cases (db : SessionsRoute.Db) (newId : string)
  (body : SessionTypesRoute.CreateSessionTypeRequest) :
  snd (SessionTypesRoute.POST db newId body) = db
  \/ (1 <= SessionTypesRoute.priority body <= 5
      /\ snd (SessionTypesRoute.POST db newId body)
         = SessionsRoute.mkDb
             (SessionsRoute.sessionTypes db
              ++ [SessionTypeModel.mk newId (SessionTypesRoute.name body)
                    (SessionTypesRoute.category body)
                    (SessionTypesRoute.priority body)])
             (SessionsRoute.sessions db)).
Proof.
  unfold SessionTypesRoute.POST.
  destruct (_ || _) eqn:E; [now left|]. right.
  apply orb_false_iff in E. rewrite !Z.ltb_ge in E. split; [lia|reflexivity].
Qed.

Lemma PUT_type_cases (db : SessionsRoute.Db) (id : string)
  (body : SessionTypesRoute.UpdateSessionTypeRequest) :
  snd (SessionTypesRoute.PUT db id body) = db
  \/ exists row,
       find (SessionTypesRoute.hasId id) (SessionsRoute.sessionTypes db)
       = Some row
       /\ match SessionTypesRoute.newPriority body with
          | Some p => 1 <= p <= 5
          | None => True
          end
       /\ snd (SessionTypesRoute.PUT db id body)
          = SessionsRoute.mkDb
              (map (fun t => if SessionTypesRoute.hasId id t
                             then SessionTypesRoute.applyUpdate body t else t)
                   (SessionsRoute.sessionTypes db))
              (map (SessionTypesRoute.rejoin id
                      (SessionTypesRoute.applyUpdate body row))
                   (SessionsRoute.sessions db)).
Proof.
  unfold SessionTypesRoute.PUT.
  destruct (match SessionTypesRoute.newPriority body with
            | Some p => (p <? 1) || (5 <? p)
            | None => false
            end) eqn:E; [now left|].
  destruct (find _ _) as [row|]; [|now left].
  right. exists row. repeat split.
  destruct (SessionTypesRoute.newPriority body) as [p|]; [|exact I].
  apply orb_false_iff in E. rewrite !Z.ltb_ge in E. lia.
Qed.

Lemma DELETE_type_cases (db : SessionsRoute.Db) (id : string) :
  snd (SessionTypesRoute.DELETE db id) = db
  \/ ((forall s, In s (SessionsRoute.sessions db) ->
                 SessionModel.sessionTypeId s <> id)
      /\ snd (SessionTypesRoute.DELETE db id)
         = SessionsRoute.mkDb
             (filter (fun t => negb (SessionTypesRoute.hasId id t))
                     (SessionsRoute.sessionTypes db))
             (SessionsRoute.sessions db)).
Proof.
  unfold SessionTypesRoute.DELETE.
  destruct (negb _); [now left|].
  destruct (existsb _ (SessionsRoute.sessions db)) eqn:E; [now left|].
  right. split; [|reflexivity].
  intros s Hs Hid.
  assert (Ht : existsb
                 (fun s0 => String.eqb (SessionModel.sessionTypeId s0) id)
                 (SessionsRoute.sessions db) = true).
  { apply existsb_exists. exists s. split; [exact Hs|].
    now apply String.eqb_eq. }
  congruence.
Qed.

(** ** The schedule invariant *)

Lemma halfOpenOverlap_sym (a b c d : Z) :
  halfOpenOverlap a b c d -> halfOpenOverlap c d a b.
Proof. unfold halfOpenOverlap. tauto. Qed.

Lemma NoDup_ids_filter (p : SessionModel.t -> bool) (l : list SessionModel.t) :
  NoDup (map SessionModel.id l) -> NoDup (map SessionModel.id (filter p l)).
Proof.
  induction l as [|x l IH]; simpl; [auto|].
  intro H. apply NoDup_cons_iff in H. destruct H as [Hx Hl].
  destruct (p x); simpl; [|now apply IH].
  apply NoDup_cons; [|now apply IH].
  intro Hin. apply Hx. apply in_map_iff in Hin.
  destruct Hin as [y [Hy Hin]]. apply filter_In in Hin.
  apply in_map_iff. exists y. tauto.
Qed.

Lemma scheduleInvariant_map (f : SessionModel.t -> SessionModel.t)
  (types types' : list SessionTypeModel.t) (l : list SessionModel.t) :
  (forall s, SessionModel.id (f s) = SessionModel.id s) ->
  (forall s, In s l -> properSession (f s)) ->
  (forall a b, In a l -> In b l -> SessionModel.id a <> SessionModel.id b ->
               ~ halfOpenOverlap
                   (SessionModel.startTime (f a)) (SessionModel.endTime (f a))
                   (SessionModel.startTime (f b)) (SessionModel.endTime (f b))) ->
  scheduleInvariant (SessionsRoute.mkDb types l) ->
  scheduleInvariant (SessionsRoute.mkDb types' (map f l)).
Proof.
  intros Hid Hp Hd [Hn _]. unfold scheduleInvariant, Api.sessionIds in *.
  cbn [SessionsRoute.sessions] in *. split; [|split].
  - rewrite map_map. erewrite map_ext; [exact Hn|]. intro s. apply Hid.
  - apply Forall_forall. intros s Hs. apply in_map_iff in Hs.
    destruct Hs as [x [<- Hx]]. now apply Hp.
  - intros a b Ha Hb Hab.
    apply in_map_iff in Ha. destruct Ha as [x [<- Hx]].
    apply in_map_iff in Hb. destruct Hb as [y [<- Hy]].
    rewrite !Hid in Hab. now apply Hd.
Qed.

Lemma scheduleInvariant_filter (p : SessionModel.t -> bool)
  (types types' : list SessionTypeModel.t) (l : list SessionModel.t) :
  scheduleInvariant (SessionsRoute.mkDb types l) ->
  scheduleInvariant (SessionsRoute.mkDb types' (filter p l)).
Proof.
  intros [Hn [Hp Hd]]. unfold scheduleInvariant, Api.sessionIds in *.
  cbn [SessionsRoute.sessions] in *. split; [|split].
  - now apply NoDup_ids_filter.
  - apply Forall_forall. intros s Hs. apply filter_In in Hs.
    rewrite Forall_forall in Hp. now apply Hp.
  - intros a b Ha Hb. apply filter_In in Ha. apply filter_In in Hb.
    apply Hd; tauto.
Qed.

Lemma scheduleInvariant_types (types types' : list SessionTypeModel.t)
  (l : list SessionModel.t) :
  scheduleInvariant (SessionsRoute.mkDb types l) ->
  scheduleInvariant (SessionsRoute.mkDb types' l).
Proof. intro H. exact H. Qed.

Lemma db_eta (db : SessionsRoute.Db) :
  db = SessionsRoute.mkDb (SessionsRoute.sessionTypes db)
                          (SessionsRoute.sessions db).
Proof. now destruct db. Qed.

Lemma step_keeps_schedule (db db' : SessionsRoute.Db) :
  scheduleInvariant db -> Api.step db db' -> scheduleInvariant db'.
Proof.
  intros Hinv Hstep. destruct Hstep as
      [db newId body Hfresh|db id body|db id|db newId body Hfresh
      |db id body|db id].
  - destruct (POST_session_cases db newId body)
      as [->|[sessionType [st [et [_ [Hlt [Hno ->]]]]]]]; [exact Hinv|].
    cbn [snd]. destruct Hinv as [Hn [Hp Hd]].
    unfold scheduleInvariant, Api.sessionIds in *.
    cbn [SessionsRoute.sessions]. split; [|split].
    + rewrite map_app. cbn [map SessionModel.id].
      apply NoDup_app_remove_l with (l := []).
      rewrite app_nil_l.
      apply (Permutation_NoDup (l := newId :: map SessionModel.id
                                              (SessionsRoute.sessions db))).
      * apply Permutation_cons_append.
      * now apply NoDup_cons.
    + apply Forall_app. split; [exact Hp|]. now repeat constructor.
    + intros a b Ha Hb Hab.
      apply in_app_or in Ha. apply in_app_or in Hb.
      destruct Ha as [Ha|[<-|[]]]; destruct Hb as [Hb|[<-|[]]].
      * now apply Hd.
      * cbn [SessionModel.startTime SessionModel.endTime].
        intro Ho. apply halfOpenOverlap_sym in Ho.
        apply overlapsRequest_iff in Ho. rewrite (Hno a Ha) in Ho.
        discriminate Ho.
      * cbn [SessionModel.startTime SessionModel.endTime].
        intro Ho. apply overlapsRequest_iff in Ho.
        rewrite (Hno b Hb) in Ho. discriminate Ho.
      * now elim Hab.
  - destruct (PUT_session_cases db id body)
      as [->|[completed [times [-> Ht]]]]; [exact Hinv|].
    rewrite (db_eta db) in Hinv. destruct Hinv as [Hn [Hp Hd]].
    cbn [SessionsRoute.sessions] in Hp, Hd.
    assert (Hint : forall s,
               In s (SessionsRoute.sessions db) ->
               SessionByIdRoute.hasId id s = true ->
               SessionModel.id s = id).
    { intros s _ H. now apply String.eqb_eq in H. }
    apply (scheduleInvariant_map _ (SessionsRoute.sessionTypes db)).
    + intro s. now destruct (SessionByIdRoute.hasId id s).
    + intros s Hs. rewrite Forall_forall in Hp. specialize (Hp s Hs).
      destruct (SessionByIdRoute.hasId id s); [|exact Hp].
      unfold properSession, SessionByIdRoute.applyUpdate.
      cbn [SessionModel.startTime SessionModel.endTime].
      destruct times as [[st et]|]; [tauto|exact Hp].
    + intros a b Ha Hb Hab.
      destruct (SessionByIdRoute.hasId id a) eqn:Ea;
        destruct (SessionByIdRoute.hasId id b) eqn:Eb.
      * elim Hab. rewrite (Hint a Ha Ea), (Hint b Hb Eb). reflexivity.
      * unfold SessionByIdRoute.applyUpdate.
        cbn [SessionModel.startTime SessionModel.endTime].
        destruct times as [[st et]|]; [|now apply Hd].
        destruct Ht as [_ Ht]. intro Ho. apply overlapsRequest_iff in Ho.
        rewrite (Ht b Hb) in Ho; [discriminate Ho|].
        intro Hid. unfold SessionByIdRoute.hasId in Eb.
        apply String.eqb_neq in Eb. contradiction.
      * unfold SessionByIdRoute.applyUpdate.
        cbn [SessionModel.startTime SessionModel.endTime].
        destruct times as [[st et]|]; [|now apply Hd].
        destruct Ht as [_ Ht]. intro Ho. apply halfOpenOverlap_sym in Ho.
        apply overlapsRequest_iff in Ho.
        rewrite (Ht a Ha) in Ho; [discriminate Ho|].
        intro Hid. unfold SessionByIdRoute.hasId in Ea.
        apply String.eqb_neq in Ea. contradiction.
      * now apply Hd.
    + split; [exact Hn|split; assumption].
  - destruct (DELETE_session_cases db id) as [->| ->]; [exact Hinv|].
    apply (scheduleInvariant_filter _ (SessionsRoute.sessionTypes db)).
    now rewrite <- db_eta.
  - destruct (POST_type_cases db newId body) as [->|[_ ->]]; [exact Hinv|].
    exact Hinv.
  - destruct (PUT_type_cases db id body) as [->|[row [_ [_ ->]]]]; [exact Hinv|].
    rewrite (db_eta db) in Hinv.
    apply (scheduleInvariant_map _ (SessionsRoute.sessionTypes db)).
    + intro s. unfold SessionTypesRoute.rejoin. now destruct (String.eqb _ _).
    + intros s Hs. destruct Hinv as [_ [Hp _]]. rewrite Forall_forall in Hp.
      specialize (Hp s Hs). unfold SessionTypesRoute.rejoin.
      now destruct (String.eqb _ _).
    + intros a b Ha Hb Hab. destruct Hinv as [_ [_ Hd]].
      specialize (Hd a b Ha Hb Hab). unfold SessionTypesRoute.rejoin.
      now destruct (String.eqb (SessionModel.sessionTypeId a) id),
                   (String.eqb (SessionModel.sessionTypeId b) id).
    + exact Hinv.
  - destruct (DELETE_type_cases db id) as [->|[_ ->]]; exact Hinv.
Qed.

(** X1. Starting from tables whose sessions have distinct identifiers, end
    after they start and do not overlap one another, every sequence of
    requests to the writing routes (sessions and session types: create,
    update, delete) leaves tables with the same three properties. *)
Theorem schedule_never_overlaps (init db : SessionsRoute.Db) :
  scheduleInvariant init -> Api.reachable init db -> scheduleInvariant db.
Proof.
  intros Hinit Hreach. induction Hreach as [|db db' _ IH Hstep].
  - exact Hinit.
  - eapply step_keeps_schedule; eassumption.
Qed.

(** ** Sessions and their types *)

Lemma find_map_ids {A : Type} (key : A -> string) (f : A -> A) (k : string)
  (l : list A) :
  (forall x, key (f x) = key x) ->
  find (fun x => String.eqb (key x) k) (map f l)
  = option_map f (find (fun x => String.eqb (key x) k) l).
Proof.
  intro Hk. induction l as [|x l IH]; [reflexivity|].
  cbn [map find]. rewrite Hk. destruct (String.eqb (key x) k); [reflexivity|].
  exact IH.
Qed.

Lemma find_filter_other {A : Type} (key : A -> string) (k id : string)
  (l : list A) :
  k <> id ->
  find (fun x => String.eqb (key x) k)
       (filter (fun x => negb (String.eqb (key x) id)) l)
  = find (fun x => String.eqb (key x) k) l.
Proof.
  intro Hne. induction l as [|x l IH]; [reflexivity|].
  cbn [filter find]. destruct (String.eqb (key x) id) eqn:Eid; cbn [negb].
  - apply String.eqb_eq in Eid.
    destruct (String.eqb (key x) k) eqn:Ek; [|exact IH].
    apply String.eqb_eq in Ek. congruence.
  - cbn [find]. destruct (String.eqb (key x) k); [reflexivity|exact IH].
Qed.

Lemma find_app_some {A : Type} (f : A -> bool) (l l' : list A) (x : A) :
  find f l = Some x -> find f (l ++ l') = Some x.
Proof.
  induction l as [|y l IH]; [discriminate|].
  cbn [app find]. destruct (f y); [auto|exact IH].
Qed.

Lemma step_keeps_join (db db' : SessionsRoute.Db) :
  joinInvariant db -> Api.step db db' -> joinInvariant db'.
Proof.
  unfold joinInvariant. intros Hinv Hstep.
  destruct Hstep as
      [db newId body Hfresh|db id body|db id|db newId body Hfresh
      |db id body|db id].
  - destruct (POST_session_cases db newId body)
      as [->|[sessionType [st [et [Hfind [_ [_ ->]]]]]]]; [exact Hinv|].
    cbn [snd SessionsRoute.sessions SessionsRoute.sessionTypes].
    apply Forall_app. split; [exact Hinv|]. now repeat constructor.
  - destruct (PUT_session_cases db id body)
      as [->|[completed [times [-> _]]]]; [exact Hinv|].
    cbn [SessionsRoute.sessions SessionsRoute.sessionTypes].
    apply Forall_forall. intros s Hs. apply in_map_iff in Hs.
    destruct Hs as [x [<- Hx]]. rewrite Forall_forall in Hinv.
    specialize (Hinv x Hx).
    now destruct (SessionByIdRoute.hasId id x).
  - destruct (DELETE_session_cases db id) as [->| ->]; [exact Hinv|].
    cbn [SessionsRoute.sessions SessionsRoute.sessionTypes].
    apply Forall_forall. intros s Hs. apply filter_In in Hs.
    rewrite Forall_forall in Hinv. now apply Hinv.
  - destruct (POST_type_cases db newId body) as [->|[_ ->]]; [exact Hinv|].
    cbn [SessionsRoute.sessions SessionsRoute.sessionTypes].
    eapply Forall_impl; [|exact Hinv]. intros s Hs.
    unfold SessionsRoute.findUnique in *. now apply find_app_some.
  - destruct (PUT_type_cases db id body) as [->|[row [Hrow [_ ->]]]];
      [exact Hinv|].
    cbn [SessionsRoute.sessions SessionsRoute.sessionTypes].
    apply Forall_forall. intros s Hs. apply in_map_iff in Hs.
    destruct Hs as [x [<- Hx]]. rewrite Forall_forall in Hinv.
    specialize (Hinv x Hx). unfold SessionsRoute.findUnique in *.
    rewrite (find_map_ids SessionTypeModel.id)
      by (intro t; unfold SessionTypesRoute.hasId;
          now destruct (String.eqb (SessionTypeModel.id t) id)).
    unfold SessionTypesRoute.rejoin.
    destruct (String.eqb (SessionModel.sessionTypeId x) id) eqn:E.
    + apply String.eqb_eq in E.
      cbn [SessionModel.sessionTypeId SessionModel.sessionType].
      rewrite E in *. unfold SessionTypesRoute.hasId in Hrow.
      rewrite Hrow. cbn [option_map].
      unfold SessionTypesRoute.hasId.
      assert (Hid : String.eqb (SessionTypeModel.id row) id = true)
        by (apply find_some in Hrow; tauto).
      now rewrite Hid.
    + rewrite Hinv. cbn [option_map]. f_equal.
      unfold SessionTypesRoute.hasId.
      assert (Hid : String.eqb
                      (SessionTypeModel.id (SessionModel.sessionType x)) id
                    = false).
      { apply find_some in Hinv. destruct Hinv as [_ Hk].
        apply String.eqb_eq in Hk. rewrite Hk. exact E. }
      now rewrite Hid.
  - destruct (DELETE_type_cases db id) as [->|[Hnone ->]]; [exact Hinv|].
    cbn [SessionsRoute.sessions SessionsRoute.sessionTypes].
    apply Forall_forall. intros s Hs. rewrite Forall_forall in Hinv.
    unfold SessionsRoute.findUnique, SessionTypesRoute.hasId in *.
    rewrite (find_filter_other SessionTypeModel.id) by now apply Hnone.
    now apply Hinv.
Qed.

(** X2. Starting from tables in which every session refers to a stored
    session type and carries that type's current data, every sequence of
    requests to the writing routes keeps it so: no session is left
    without its type, and a type update shows in the sessions. *)
Theorem sessions_keep_their_type (init db : SessionsRoute.Db) :
  joinInvariant init -> Api.reachable init db -> joinInvariant db.
Proof.
  intros Hinit Hreach. induction Hreach as [|db db' _ IH Hstep].
  - exact Hinit.
  - eapply step_keeps_join; eassumption.
Qed.

Lemma step_keeps_priorities (db db' : SessionsRoute.Db) :
  prioritiesValid db -> Api.step db db' -> prioritiesValid db'.
Proof.
  unfold prioritiesValid. intros Hinv Hstep.
  destruct Hstep as
      [db newId body Hfresh|db id body|db id|db newId body Hfresh
      |db id body|db id].
  - destruct (POST_session_cases db newId body)
      as [->|[sessionType [st [et [_ [_ [_ ->]]]]]]]; exact Hinv.
  - destruct (PUT_session_cases db id body)
      as [->|[completed [times [-> _]]]]; exact Hinv.
  - destruct (DELETE_session_cases db id) as [->| ->]; exact Hinv.
  - destruct (POST_type_cases db newId body) as [->|[Hp ->]]; [exact Hinv|].
    cbn [SessionsRoute.sessionTypes]. apply Forall_app.
    split; [exact Hinv|]. now repeat constructor.
  - destruct (PUT_type_cases db id body) as [->|[row [_ [Hp ->]]]];
      [exact Hinv|].
    cbn [SessionsRoute.sessionTypes]. apply Forall_forall.
    intros t Ht. apply in_map_iff in Ht. destruct Ht as [x [<- Hx]].
    rewrite Forall_forall in Hinv. specialize (Hinv x Hx).
    destruct (SessionTypesRoute.hasId id x); [|exact Hinv].
    unfold validPriority, SessionTypesRoute.applyUpdate.
    cbn [SessionTypeModel.priority].
    destruct (SessionTypesRoute.newPriority body); [exact Hp|exact Hinv].
  - destruct (DELETE_type_cases db id) as [->|[_ ->]]; [exact Hinv|].
    cbn [SessionsRoute.sessionTypes]. apply Forall_forall.
    intros t Ht. apply filter_In in Ht.
    rewrite Forall_forall in Hinv. now apply Hinv.
Qed.

(** X3. The session-type routes never store a priority outside 1..5:
    from tables whose types all have a priority in that range, every
    sequence of requests leaves only such types. *)
Theorem priorities_stay_valid (init db : SessionsRoute.Db) :
  prioritiesValid init -> Api.reachable init db -> prioritiesValid db.
Proof.
  intros Hinit Hreach. induction Hreach as [|db db' _ IH Hstep].
  - exact Hinit.
  - eapply step_keeps_priorities; eassumption.
Qed.

(** ** Suggestions and the create route *)

Lemma filter_all_false {A : Type} (f : A -> bool) (l : list A) :
  (forall x, In x l -> f x = false) -> filter f l = [].
Proof.
  induction l as [|x l IH]; [reflexivity|]. intro H. cbn [filter].
  rewrite (H x (or_introl eq_refl)). apply IH. intros y Hy. apply H. now right.
Qed.

Lemma findUnique_id (types : list SessionTypeModel.t) (id : string)
  (t : SessionTypeModel.t) :
  SessionsRoute.findUnique types id = Some t ->
  In t types /\ SessionTypeModel.id t = id.
Proof.
  unfold SessionsRoute.findUnique. intro H. apply find_some in H.
  destruct H as [Hin Hid]. split; [exact Hin|]. now apply String.eqb_eq.
Qed.

Lemma suggestion_origin tz now sessionType existing windows d look sg :
  In sg (generateSuggestions tz now sessionType existing windows d look) ->
  SessionSuggestion.sessionTypeId sg = SessionTypeModel.id sessionType
  /\ SessionSuggestion.endTime sg = SessionSuggestion.startTime sg + d * 60000
  /\ SessionSuggestion.score sg
     = Math_round (scoreTimeSlot tz (SessionSuggestion.startTime sg)
                     (SessionSuggestion.endTime sg) sessionType existing windows)
  /\ 30 <= SessionSuggestion.score sg
  /\ forall s, In s existing ->
               conflictsWith (SessionSuggestion.startTime sg)
                             (SessionSuggestion.endTime sg) s = false.
Proof.
  intro Hsg. apply generateSuggestions_In in Hsg.
  destruct Hsg as [startTime Hsg].
  apply slotSuggestions_In in Hsg. cbv zeta in Hsg.
  destruct Hsg as [-> [Hc Hs]].
  cbn [SessionSuggestion.sessionTypeId SessionSuggestion.startTime
       SessionSuggestion.endTime SessionSuggestion.score].
  split; [reflexivity|]. split; [apply addHours_minutes|].
  split; [reflexivity|]. split.
  - apply Math_round_lower. now apply Qle_bool_iff in Hs.
  - intros s Hin. destruct (conflictsWith _ _ s) eqn:E; [|reflexivity].
    assert (Ht : existsb (conflictsWith startTime
                            (addHours startTime (inject_Z d / 60)))
                         existing = true)
      by (apply existsb_exists; now exists s).
    congruence.
Qed.

Lemma GET_suggestions_Ok tz now db windows typeId d look suggestions :
  SuggestionsRoute.GET tz now db windows (Some typeId) (Some d) (Some look)
  = SuggestionsRoute.Ok suggestions ->
  exists sessionType,
    SessionsRoute.findUnique (SessionsRoute.sessionTypes db) typeId
    = Some sessionType
    /\ suggestions
       = generateSuggestions tz now sessionType (SessionsRoute.sessions db)
           windows d look.
Proof.
  unfold SuggestionsRoute.GET.
  destruct (String.eqb typeId EmptyString); [discriminate|].
  destruct (SessionsRoute.findUnique _ _) as [sessionType|]; [|discriminate].
  intro H. injection H as <-. now exists sessionType.
Qed.

(** X4. Every suggestion the suggestions route returns for a positive
    duration can be booked as it is: posting its session type, start and
    end to the create route creates the session, whatever the tables
    hold. *)
Theorem suggestion_can_be_booked
  (tz : Zone) (now : Z) (db : SessionsRoute.Db)
  (windows : list AvailabilityWindowModel.t)
  (typeId newId : string) (durationMinutes lookAheadDays : Z)
  (suggestions : list SessionSuggestion.t) (sg : SessionSuggestion.t) :
  0 < durationMinutes ->
  SuggestionsRoute.GET tz now db windows (Some typeId)
    (Some durationMinutes) (Some lookAheadDays)
  = SuggestionsRoute.Ok suggestions ->
  In sg suggestions ->
  exists created,
    SessionsRoute.POST db newId
      (SessionsRoute.mkRequest (SessionSuggestion.sessionTypeId sg)
         (Some (SessionSuggestion.startTime sg))
         (Some (SessionSuggestion.endTime sg)))
    = (SessionsRoute.Created created,
       SessionsRoute.mkDb (SessionsRoute.sessionTypes db)
         (SessionsRoute.sessions db ++ [created]))
    /\ SessionModel.id created = newId
    /\ SessionModel.startTime created = SessionSuggestion.startTime sg
    /\ SessionModel.endTime created = SessionSuggestion.endTime sg
    /\ SessionModel.completed created = false.
Proof.
  intros Hd Hget Hsg.
  apply GET_suggestions_Ok in Hget. destruct Hget as [sessionType [Hfind ->]].
  apply suggestion_origin in Hsg.
  destruct Hsg as [Hid [Hend [_ [_ Hno]]]].
  destruct (findUnique_id _ _ _ Hfind) as [_ Htid].
  exists (SessionModel.mk newId typeId sessionType
            (SessionSuggestion.startTime sg) (SessionSuggestion.endTime sg)
            false).
  split; [|repeat split].
  unfold SessionsRoute.POST.
  cbn [SessionsRoute.sessionTypeId SessionsRoute.startTime
       SessionsRoute.endTime SessionsRoute.isAfter].
  rewrite Hid, Htid, Hfind.
  assert (Hlt : (SessionSuggestion.startTime sg <? SessionSuggestion.endTime sg)
                = true) by (apply Z.ltb_lt; lia).
  rewrite Hlt. cbn [negb].
  assert (Hf : filter (SessionsRoute.overlapsRequest
                         (SessionSuggestion.startTime sg)
                         (SessionSuggestion.endTime sg))
                      (SessionsRoute.sessions db) = []).
  { apply filter_all_false. intros s Hs.
    destruct (SessionsRoute.overlapsRequest _ _ s) eqn:E; [|reflexivity].
    apply overlapsRequest_iff in E.
    apply conflictsWith_overlap in E; [|lia].
    rewrite (Hno s Hs) in E. discriminate E. }
  rewrite Hf. reflexivity.
Qed.

(** X5. On tables reached through the routes from tables with valid
    priorities, the suggestions route returns at most 10 suggestions, all
    for the requested type and with an integer score between 30 and 100,
    for any duration and look-ahead. *)
Theorem suggestions_route_scores
  (tz : Zone) (now : Z) (init db : SessionsRoute.Db)
  (windows : list AvailabilityWindowModel.t) (typeId : string)
  (durationMinutes lookAheadDays : Z)
  (suggestions : list SessionSuggestion.t) :
  prioritiesValid init ->
  Api.reachable init db ->
  SuggestionsRoute.GET tz now db windows (Some typeId)
    (Some durationMinutes) (Some lookAheadDays)
  = SuggestionsRoute.Ok suggestions ->
  (List.length suggestions <= 10)%nat
  /\ Forall (fun sg =>
               SessionSuggestion.sessionTypeId sg = typeId
               /\ 30 <= SessionSuggestion.score sg <= 100)
            suggestions.
Proof.
  intros Hinit Hreach Hget.
  assert (Hvalid : prioritiesValid db).
  { clear Hget. induction Hreach as [|db db' _ IH Hstep]; [exact Hinit|].
    eapply step_keeps_priorities; eassumption. }
  apply GET_suggestions_Ok in Hget. destruct Hget as [sessionType [Hfind ->]].
  destruct (findUnique_id _ _ _ Hfind) as [Hin Htid].
  unfold prioritiesValid in Hvalid. rewrite Forall_forall in Hvalid.
  specialize (Hvalid sessionType Hin). destruct Hvalid as [_ Hp5].
  split.
  - unfold generateSuggestions, R.take. cbv zeta. apply firstn_le_length.
  - apply Forall_forall. intros sg Hsg. apply suggestion_origin in Hsg.
    destruct Hsg as [Hid [_ [Hscore [H30 _]]]].
    split; [congruence|]. split; [exact H30|].
    rewrite Hscore. apply Math_round_upper. now apply scoreTimeSlot_le.
Qed.

(** ** Updating and deleting one session *)

Lemma POST_Created_inv (db db' : SessionsRoute.Db) (newId : string)
  (body : SessionsRoute.CreateSessionRequest) (created : SessionModel.t) :
  SessionsRoute.POST db newId body = (SessionsRoute.Created created, db') ->
  SessionModel.id created = newId
  /\ db' = SessionsRoute.mkDb (SessionsRoute.sessionTypes db)
             (SessionsRoute.sessions db ++ [created]).
Proof.
  unfold SessionsRoute.POST.
  destruct (SessionsRoute.findUnique _ _); [|discriminate].
  destruct (negb _); [discriminate|].
  destruct (SessionsRoute.startTime body); [|discriminate].
  destruct (SessionsRoute.endTime body); [|discriminate].
  destruct (0 <? _); [discriminate|].
  intro H. injection H as <- <-. split; reflexivity.
Qed.

Lemma find_app_none {A : Type} (f : A -> bool) (l l' : list A) :
  find f l = None -> find f (l ++ l') = find f l'.
Proof.
  induction l as [|y l IH]; [reflexivity|].
  cbn [app find]. destruct (f y); [discriminate|exact IH].
Qed.

Lemma find_fresh (id : string) (l : list SessionModel.t) :
  ~ In id (map SessionModel.id l) ->
  SessionByIdRoute.findSession l id = None
  /\ filter (fun s => negb (SessionByIdRoute.hasId id s)) l = l.
Proof.
  intro Hfresh. unfold SessionByIdRoute.findSession.
  assert (Hall : forall s, In s l -> SessionByIdRoute.hasId id s = false).
  { intros s Hs. unfold SessionByIdRoute.hasId. apply String.eqb_neq.
    intro Hid. apply Hfresh. apply in_map_iff. now exists s. }
  split.
  - destruct (find _ l) as [row|] eqn:E; [|reflexivity].
    apply find_some in E. destruct E as [Hin Hid].
    rewrite (Hall row Hin) in Hid. discriminate Hid.
  - apply forallb_filter_id. apply forallb_forall. intros s Hs.
    now rewrite (Hall s Hs).
Qed.

(** X6. A session just created under a new identifier can be read back
    under it, and deleting it restores the tables as they were; in those
    tables the identifier is not found (404) and deleting it again is
    answered with 500, leaving the tables unchanged. *)
Theorem create_read_delete
  (db db1 : SessionsRoute.Db) (newId : string)
  (body : SessionsRoute.CreateSessionRequest) (created : SessionModel.t) :
  ~ In newId (Api.sessionIds db) ->
  SessionsRoute.POST db newId body = (SessionsRoute.Created created, db1) ->
  SessionByIdRoute.GET db1 newId = SessionByIdRoute.Ok created
  /\ SessionByIdRoute.DELETE db1 newId = (SessionByIdRoute.Success, db)
  /\ SessionByIdRoute.GET db newId = SessionByIdRoute.NotFound
  /\ SessionByIdRoute.DELETE db newId = (SessionByIdRoute.ServerError, db).
Proof.
  intros Hfresh Hpost.
  destruct (find_fresh newId (SessionsRoute.sessions db) Hfresh)
    as [Hnone Hfilter].
  destruct (POST_Created_inv _ _ _ _ _ Hpost) as [Hcid ->].
  - set (new := created).
    assert (Hself : SessionByIdRoute.hasId newId new = true)
      by (unfold SessionByIdRoute.hasId; subst new; rewrite Hcid;
          apply String.eqb_refl).
    assert (HA : SessionByIdRoute.findSession
                   (SessionsRoute.sessions db ++ [new]) newId = Some new).
    { unfold SessionByIdRoute.findSession in *.
      rewrite (find_app_none _ _ _ Hnone). cbn [find]. now rewrite Hself. }
    assert (HB : filter (fun s => negb (SessionByIdRoute.hasId newId s))
                        (SessionsRoute.sessions db ++ [new])
                 = SessionsRoute.sessions db).
    { rewrite filter_app, Hfilter. cbn [filter]. rewrite Hself.
      cbn [negb]. apply app_nil_r. }
    unfold SessionByIdRoute.GET, SessionByIdRoute.DELETE.
    cbn [SessionsRoute.sessions SessionsRoute.sessionTypes].
    rewrite HA, HB, Hnone.
    split; [reflexivity|]. split; [|split; reflexivity].
    f_equal. symmetry. apply db_eta.
Qed.

(** X7. In tables that satisfy the schedule invariant, moving a stored
    session to an interval inside its current one is never a conflict:
    the other sessions are checked, the session itself is not. *)
Theorem reschedule_within_own_interval
  (db : SessionsRoute.Db) (id : string) (row : SessionModel.t)
  (completed : option bool) (newStart newEnd : Z) :
  scheduleInvariant db ->
  SessionByIdRoute.findSession (SessionsRoute.sessions db) id = Some row ->
  SessionModel.startTime row <= newStart ->
  newStart < newEnd ->
  newEnd <= SessionModel.endTime row ->
  fst (SessionByIdRoute.PUT db id
         (SessionByIdRoute.mkUpdate completed
            (Some (Some newStart)) (Some (Some newEnd))))
  = SessionByIdRoute.Ok
      (SessionByIdRoute.applyUpdate completed (Some (newStart, newEnd)) row).
Proof.
  intros [_ [_ Hd]] Hfind H1 H2 H3.
  destruct (find_hasId_In _ _ _ Hfind) as [Hrow Hid].
  unfold SessionByIdRoute.PUT.
  cbn [SessionByIdRoute.startTime SessionByIdRoute.endTime
       SessionByIdRoute.completed SessionsRoute.isAfter].
  apply Z.ltb_lt in H2. rewrite H2. cbn [negb]. cbv zeta.
  apply Z.ltb_lt in H2.
  rewrite filter_all_false.
  - change (0 <? len (@nil SessionModel.t)) with false. cbv iota.
    unfold SessionByIdRoute.update. now rewrite Hfind.
  - intros x Hx. apply andb_false_iff.
    destruct (SessionByIdRoute.hasId id x) eqn:E; [now left|right].
    destruct (SessionsRoute.overlapsRequest newStart newEnd x) eqn:Eo;
      [|reflexivity].
    exfalso. apply overlapsRequest_iff in Eo.
    apply (Hd row x Hrow Hx).
    + rewrite Hid. intro Heq. unfold SessionByIdRoute.hasId in E.
      apply String.eqb_neq in E. congruence.
    + unfold halfOpenOverlap in *. lia.
Qed.

(** ** The local store of the mobile client *)

Lemma NoDup_map_eq {A B : Type} (f : A -> B) (l : list A) (x y : A) :
  NoDup (map f l) -> In x l -> In y l -> f x = f y -> x = y.
Proof.
  induction l as [|a l IH]; [intros _ []|].
  cbn [map]. intro H. apply NoDup_cons_iff in H. destruct H as [Ha Hl].
  intros [<-|Hx] [<-|Hy] Heq.
  - reflexivity.
  - exfalso. apply Ha. rewrite Heq. now apply in_map.
  - exfalso. apply Ha. rewrite <- Heq. now apply in_map.
  - now apply IH.
Qed.

(** X8. The local list of the sessions store follows the server: if it
    holds the server's sessions in some order, then after a successful
    create, update or delete, the list as the store updates it holds the
    server's sessions again (identifiers being unique on the server). *)
Theorem store_follows_server
  (local : list SessionModel.t) (db db' : SessionsRoute.Db) :
  Permutation local (SessionsRoute.sessions db) ->
  NoDup (Api.sessionIds db) ->
  (forall newId body created,
      SessionsRoute.POST db newId body = (SessionsRoute.Created created, db') ->
      Permutation (SessionsStore.createSession local created)
                  (SessionsRoute.sessions db'))
  /\ (forall id body updated,
         SessionByIdRoute.PUT db id body = (SessionByIdRoute.Ok updated, db') ->
         Permutation (SessionsStore.updateSession local id updated)
                     (SessionsRoute.sessions db'))
  /\ (forall id,
         SessionByIdRoute.DELETE db id = (SessionByIdRoute.Success, db') ->
         Permutation (SessionsStore.deleteSession local id)
                     (SessionsRoute.sessions db')).
Proof.
  intros Hperm Hnodup. split; [|split].
  - intros newId body created Hpost.
    destruct (POST_Created_inv _ _ _ _ _ Hpost) as [_ ->].
    cbn [SessionsRoute.sessions]. unfold SessionsStore.createSession.
    now apply Permutation_app_tail.
  - intros id body updated Hput.
    assert (Hup : exists completed times row,
               SessionByIdRoute.findSession (SessionsRoute.sessions db) id
               = Some row
               /\ updated = SessionByIdRoute.applyUpdate completed times row
               /\ SessionsRoute.sessions db'
                  = map (fun s => if SessionByIdRoute.hasId id s
                                  then SessionByIdRoute.applyUpdate
                                         completed times s
                                  else s)
                        (SessionsRoute.sessions db)).
    { assert (Hu : forall completed times,
                 SessionByIdRoute.update db id completed times
                 = (SessionByIdRoute.Ok updated, db') ->
                 exists completed0 times0 row,
                   SessionByIdRoute.findSession (SessionsRoute.sessions db) id
                   = Some row
                   /\ updated
                      = SessionByIdRoute.applyUpdate completed0 times0 row
                   /\ SessionsRoute.sessions db'
                      = map (fun s => if SessionByIdRoute.hasId id s
                                      then SessionByIdRoute.applyUpdate
                                             completed0 times0 s
                                      else s)
                            (SessionsRoute.sessions db)).
      { intros completed times. unfold SessionByIdRoute.update.
        destruct (SessionByIdRoute.findSession _ _) as [row|]; [|discriminate].
        intro H. injection H as <- <-.
        exists completed; exists times; exists row. auto. }
      unfold SessionByIdRoute.PUT in Hput.
      destruct (SessionByIdRoute.startTime body) as [s|]; [|now apply Hu in Hput].
      destruct (SessionByIdRoute.endTime body) as [e|]; [|now apply Hu in Hput].
      destruct (negb _); [discriminate|].
      destruct s as [s|]; [|discriminate].
      destruct e as [e|]; [|discriminate].
      cbv zeta in Hput. destruct (0 <? _); [discriminate|].
      now apply Hu in Hput. }
    destruct Hup as [completed [times [row [Hfind [-> ->]]]]].
    destruct (find_hasId_In _ _ _ Hfind) as [Hrow Hid].
    unfold SessionsStore.updateSession.
    rewrite (Permutation_map _ Hperm).
    erewrite map_ext_in; [apply Permutation_refl|].
    intros x Hx. cbv beta. unfold SessionByIdRoute.hasId.
    destruct (String.eqb (SessionModel.id x) id) eqn:E; [|reflexivity].
    apply String.eqb_eq in E. f_equal.
    unfold Api.sessionIds in Hnodup.
    apply (NoDup_map_eq SessionModel.id (SessionsRoute.sessions db)).
    + exact Hnodup.
    + exact Hrow.
    + exact Hx.
    + congruence.
  - intros id Hdel. unfold SessionByIdRoute.DELETE in Hdel.
    destruct (SessionByIdRoute.findSession _ _); [|discriminate].
    injection Hdel as <-. cbn [SessionsRoute.sessions].
    unfold SessionsStore.deleteSession, SessionByIdRoute.hasId.
    clear -Hperm. induction Hperm; cbn [filter].
    + constructor.
    + destruct (negb _); [now constructor|assumption].
    + destruct (negb (String.eqb (SessionModel.id x) id)),
               (negb (String.eqb (SessionModel.id y) id));
        try apply Permutation_refl. apply perm_swap.
    + eapply perm_trans; eassumption.
Qed.

(** ** "HH:mm" strings *)

Lemma minutesOfDay_In (p : Z) : In p minutesOfDay <-> 0 <= p < 1440.
Proof.
  unfold minutesOfDay. rewrite in_map_iff. split.
  - intros [n [<- Hn]]. apply in_seq in Hn. lia.
  - intro H. exists (Z.to_nat p). split; [lia|]. apply in_seq. lia.
Qed.

Lemma timeTable_In (p : Z) :
  0 <= p < 1440 -> In (p, timeString p) timeTable.
Proof.
  intro H. unfold timeTable. apply in_map_iff. exists p.
  split; [reflexivity|]. now apply minutesOfDay_In.
Qed.

Lemma forallb2_In {A : Type} (f : A -> A -> bool) (l : list A) :
  forallb (fun a => forallb (f a) l) l = true ->
  forall a b, In a l -> In b l -> f a b = true.
Proof.
  intros H a b Ha Hb. rewrite forallb_forall in H. specialize (H a Ha).
  rewrite forallb_forall in H. now apply H.
Qed.

(** All pairs of minutes of a day, by computation. *)
Lemma timeTable_checked :
  forallb (fun a => forallb (compareAgrees a) timeTable) timeTable = true.
Proof. vm_compute. reflexivity. Qed.

Lemma minutesOfDay_parse : forallb parsesBack minutesOfDay = true.
Proof. vm_compute. reflexivity. Qed.

Lemma digits_checked :
  forallb
    (fun a =>
       forallb
         (fun b =>
            forallb (fun d => forallb (digitsAgree a b d) (seq 0 10))
                    (seq 0 6))
         (seq 0 10))
    (seq 0 3) = true.
Proof. vm_compute. reflexivity. Qed.

Lemma timeString_compare (p q : Z) :
  0 <= p < 1440 -> 0 <= q < 1440 ->
  String.compare (timeString p) (timeString q) = (p ?= q).
Proof.
  intros Hp Hq.
  pose proof (forallb2_In compareAgrees timeTable timeTable_checked _ _
                (timeTable_In p Hp) (timeTable_In q Hq)) as H.
  unfold compareAgrees in H. cbn [fst snd] in H.
  destruct (String.compare (timeString p) (timeString q)), (p ?= q);
    try reflexivity; discriminate H.
Qed.

Lemma timeString_leb (p q : Z) :
  0 <= p < 1440 -> 0 <= q < 1440 ->
  String.leb (timeString p) (timeString q) = (p <=? q).
Proof.
  intros Hp Hq. unfold String.leb, Z.leb.
  now rewrite (timeString_compare p q Hp Hq).
Qed.

Lemma timeString_ltb (p q : Z) :
  0 <= p < 1440 -> 0 <= q < 1440 ->
  String.ltb (timeString p) (timeString q) = (p <? q).
Proof.
  intros Hp Hq. unfold String.ltb, Z.ltb.
  now rewrite (timeString_compare p q Hp Hq).
Qed.

Lemma timeString_parse (p : Z) :
  0 <= p < 1440 ->
  AvailabilityRoute.timeRegex_test (timeString p) = true
  /\ parseHourMinute (timeString p) = Some (p / 60, p mod 60).
Proof.
  intro Hp. pose proof minutesOfDay_parse as Hcheck.
  rewrite forallb_forall in Hcheck.
  specialize (Hcheck p (proj2 (minutesOfDay_In p) Hp)).
  unfold parsesBack in Hcheck.
  apply andb_true_iff in Hcheck. destruct Hcheck as [Hre Hparse].
  split; [exact Hre|].
  destruct (parseHourMinute (timeString p)) as [[h m]|]; [|discriminate].
  apply andb_true_iff in Hparse. destruct Hparse as [Hh Hm].
  apply Z.eqb_eq in Hh. apply Z.eqb_eq in Hm. now subst.
Qed.

Lemma digitBetween_inv (lo hi : nat) (c : ascii) :
  AvailabilityRoute.digitBetween lo hi c = true ->
  exists n, (lo <= n <= hi)%nat /\ c = digitChar n.
Proof.
  unfold AvailabilityRoute.digitBetween. cbv zeta. intro H.
  apply andb_true_iff in H. destruct H as [H1 H2].
  apply Nat.leb_le in H1. apply Nat.leb_le in H2.
  exists (nat_of_ascii c - 48)%nat. split; [lia|].
  unfold digitChar.
  replace (48 + (nat_of_ascii c - 48))%nat with (nat_of_ascii c) by lia.
  symmetry. apply ascii_nat_embedding.
Qed.

Lemma digitsString_time (a b d e : nat) :
  (a <= 2)%nat -> (b <= 9)%nat -> (d <= 5)%nat -> (e <= 9)%nat ->
  digitsString a b d e
  = timeString (Z.of_nat ((10 * a + b) * 60 + (10 * d + e))).
Proof.
  intros Ha Hb Hd He. pose proof digits_checked as Hcheck.
  rewrite forallb_forall in Hcheck.
  specialize (Hcheck a). rewrite forallb_forall in Hcheck.
  assert (Ha' : In a (seq 0 3)) by (apply in_seq; lia).
  specialize (Hcheck Ha' b). rewrite forallb_forall in Hcheck.
  assert (Hb' : In b (seq 0 10)) by (apply in_seq; lia).
  specialize (Hcheck Hb' d). rewrite forallb_forall in Hcheck.
  assert (Hd' : In d (seq 0 6)) by (apply in_seq; lia).
  assert (He' : In e (seq 0 10)) by (apply in_seq; lia).
  specialize (Hcheck Hd' e He'). unfold digitsAgree in Hcheck.
  now apply String.eqb_eq in Hcheck.
Qed.

(** A string the regular expression accepts is the "HH:mm" of a minute
    of the day. *)
Lemma timeRegex_inv (s : string) :
  AvailabilityRoute.timeRegex_test s = true ->
  exists p, 0 <= p < 1440 /\ s = timeString p.
Proof.
  unfold AvailabilityRoute.timeRegex_test.
  destruct s as [|a [|b [|c [|d [|e [|x s]]]]]]; try discriminate.
  intro H. repeat (apply andb_true_iff in H; destruct H as [H ?]).
  match goal with Hc : Ascii.eqb c ":" = true |- _ =>
    apply Ascii.eqb_eq in Hc; subst c end.
  match goal with Hd : AvailabilityRoute.digitBetween 0 5 d = true |- _ =>
    apply digitBetween_inv in Hd; destruct Hd as [nd [Hnd ->]] end.
  match goal with He : AvailabilityRoute.digitBetween 0 9 e = true |- _ =>
    apply digitBetween_inv in He; destruct He as [ne [Hne ->]] end.
  assert (Hab : exists na nb,
             (10 * na + nb <= 23)%nat /\ (nb <= 9)%nat
             /\ a = digitChar na /\ b = digitChar nb).
  { apply orb_true_iff in H. destruct H as [H|H];
      apply andb_true_iff in H; destruct H as [Ha Hb].
    - apply digitBetween_inv in Ha. destruct Ha as [na [Hna ->]].
      apply digitBetween_inv in Hb. destruct Hb as [nb [Hnb ->]].
      exists na; exists nb. repeat split; lia.
    - apply Ascii.eqb_eq in Ha. subst a.
      apply digitBetween_inv in Hb. destruct Hb as [nb [Hnb ->]].
      exists 2%nat; exists nb. repeat split; lia. }
  destruct Hab as [na [nb [Hh [Hnb [-> ->]]]]].
  exists (Z.of_nat ((10 * na + nb) * 60 + (10 * nd + ne))).
  split; [lia|]. apply (digitsString_time na nb nd ne); lia.
Qed.

Lemma format_HHmm_minute (tz : Zone) (date : Z) :
  format_HHmm tz date = timeString (minuteOfDay tz date).
Proof.
  unfold format_HHmm, timeString, minuteOfDay, getHours, getMinutes.
  unfold MS_PER_DAY, MS_PER_HOUR, MS_PER_MINUTE.
  set (x := localTime tz date).
  replace (x mod 86400000 / 60000 / 60) with (x mod 86400000 / 3600000)
    by (Z.to_euclidean_division_equations; lia).
  replace (x mod 86400000 / 60000 mod 60) with (x mod 3600000 / 60000)
    by (Z.to_euclidean_division_equations; lia).
  reflexivity.
Qed.

(** ** The availability table *)

Lemma String_leb_false_ltb (a b : string) :
  String.leb a b = false -> String.ltb b a = true.
Proof.
  unfold String.leb, String.ltb. rewrite (String.compare_antisym b a).
  destruct (String.compare a b); simpl; congruence.
Qed.

Lemma validWindow_minutes (w : AvailabilityWindowModel.t) :
  validWindow w -> exists p q, windowMinutes w p q.
Proof.
  intros [_ [Hs [He Hlt]]].
  apply timeRegex_inv in Hs. destruct Hs as [p [Hp Hs]].
  apply timeRegex_inv in He. destruct He as [q [Hq He]].
  exists p; exists q. unfold windowMinutes.
  rewrite Hs, He in Hlt. rewrite (timeString_ltb p q Hp Hq) in Hlt.
  apply Z.ltb_lt in Hlt. repeat split; try assumption; lia.
Qed.

Lemma windowStep_valid (ws ws' : list AvailabilityWindowModel.t) :
  Api.windowStep ws ws' -> Forall validWindow ws -> Forall validWindow ws'.
Proof.
  intros Hstep Hv. destruct Hstep as [ws newId body|ws id].
  - unfold AvailabilityRoute.POST.
    destruct ((AvailabilityRoute.dayOfWeek body <? 0)
              || (6 <? AvailabilityRoute.dayOfWeek body)) eqn:Ed;
      [exact Hv|].
    destruct (negb (AvailabilityRoute.timeRegex_test
                      (AvailabilityRoute.startTime body))
              || negb (AvailabilityRoute.timeRegex_test
                         (AvailabilityRoute.endTime body))) eqn:Er;
      [exact Hv|].
    destruct (String.leb (AvailabilityRoute.endTime body)
                         (AvailabilityRoute.startTime body)) eqn:El;
      [exact Hv|].
    destruct (existsb _ ws); [exact Hv|].
    cbn [snd]. apply Forall_app. split; [exact Hv|].
    constructor; [|constructor].
    apply orb_false_iff in Ed. destruct Ed as [Ed1 Ed2].
    apply Z.ltb_ge in Ed1. apply Z.ltb_ge in Ed2.
    apply orb_false_iff in Er. destruct Er as [Er1 Er2].
    apply negb_false_iff in Er1. apply negb_false_iff in Er2.
    unfold validWindow.
    cbn [AvailabilityWindowModel.dayOfWeek AvailabilityWindowModel.startTime
         AvailabilityWindowModel.endTime].
    repeat split; try assumption. now apply String_leb_false_ltb.
  - unfold AvailabilityRoute.DELETE. destruct (existsb _ ws); [|exact Hv].
    cbn [snd]. rewrite Forall_forall in *. intros w Hw.
    apply filter_In in Hw. now apply Hv.
Qed.

(** X9. Every window the availability table can hold after any sequence
    of requests to its routes has a weekday between 0 and 6 and spans
    the minutes p to q of a day with 0 <= p < q < 1440, both printed as
    "HH:mm". *)
Theorem stored_windows_well_formed
  (ws : list AvailabilityWindowModel.t) (w : AvailabilityWindowModel.t) :
  Api.windowsReachable ws -> In w ws ->
  0 <= AvailabilityWindowModel.dayOfWeek w <= 6
  /\ exists p q, windowMinutes w p q.
Proof.
  intros Hreach Hin.
  assert (Hv : Forall validWindow ws).
  { clear Hin. induction Hreach as [|ws ws' _ IH Hstep]; [constructor|].
    eapply windowStep_valid; eauto. }
  rewrite Forall_forall in Hv. specialize (Hv w Hin).
  split; [apply Hv|]. now apply validWindow_minutes.
Qed.

Lemma windowKey_sameWindow (w w' : AvailabilityWindowModel.t) :
  AvailabilityRoute.sameWindow (AvailabilityWindowModel.dayOfWeek w)
    (AvailabilityWindowModel.startTime w) (AvailabilityWindowModel.endTime w)
    w' = true
  <-> windowKey w' = windowKey w.
Proof.
  unfold AvailabilityRoute.sameWindow, windowKey.
  rewrite !andb_true_iff, Z.eqb_eq, !String.eqb_eq. split.
  - intros [[-> ->] ->]. reflexivity.
  - intro H. injection H as -> -> ->. auto.
Qed.

Lemma filter_keeps_distinct_keys {Row Key : Type} (key : Row -> Key)
  (keep : Row -> bool) (rows : list Row) :
  NoDup (map key rows) -> NoDup (map key (filter keep rows)).
Proof.
  induction rows as [|row rows IH]; cbn [map filter]; intro Hrows;
    [constructor|].
  apply NoDup_cons_iff in Hrows. destruct Hrows as [Hrow Hrest].
  destruct (keep row); [|now apply IH].
  cbn [map]. apply NoDup_cons; [|now apply IH].
  intro Hin. apply Hrow. apply in_map_iff in Hin.
  destruct Hin as [other [Hkey Hother]]. apply filter_In in Hother.
  apply in_map_iff. exists other. tauto.
Qed.

Lemma NoDup_snoc {A : Type} (l : list A) (x : A) :
  NoDup l -> ~ In x l -> NoDup (l ++ [x]).
Proof.
  intros Hn Hx.
  apply (Permutation_NoDup (l := x :: l)).
  - apply Permutation_cons_append.
  - now constructor.
Qed.

Lemma windowStep_unique (ws ws' : list AvailabilityWindowModel.t) :
  Api.windowStep ws ws' ->
  NoDup (map windowKey ws) -> NoDup (map windowKey ws').
Proof.
  intros Hstep Hn. destruct Hstep as [ws newId body|ws id].
  - unfold AvailabilityRoute.POST.
    destruct (_ || _); [exact Hn|]. destruct (_ || _); [exact Hn|].
    destruct (String.leb _ _); [exact Hn|].
    destruct (existsb _ ws) eqn:Ee; [exact Hn|].
    cbn [snd]. rewrite map_app. cbn [map].
    apply NoDup_snoc; [exact Hn|].
    intro Hin. apply in_map_iff in Hin. destruct Hin as [w' [Hk Hw']].
    assert (Ht : existsb
                   (AvailabilityRoute.sameWindow
                      (AvailabilityRoute.dayOfWeek body)
                      (AvailabilityRoute.startTime body)
                      (AvailabilityRoute.endTime body)) ws = true).
    { apply existsb_exists. exists w'. split; [exact Hw'|].
      set (w := AvailabilityWindowModel.mk newId _ _ _) in Hk.
      exact (proj2 (windowKey_sameWindow w w') Hk). }
    congruence.
  - unfold AvailabilityRoute.DELETE. destruct (existsb _ ws); [|exact Hn].
    cbn [snd]. now apply filter_keeps_distinct_keys.
Qed.

(** X10. The availability table never holds two windows with the same
    weekday, start and end, whatever requests its routes have served:
    posting the weekday, start and end of a stored window again is
    answered with 500 and leaves the table as it is. *)
Theorem stored_windows_unique (ws : list AvailabilityWindowModel.t) :
  Api.windowsReachable ws ->
  NoDup (map windowKey ws)
  /\ forall w newId,
       In w ws ->
       AvailabilityRoute.POST ws newId
         (AvailabilityRoute.mkRequest
            (AvailabilityWindowModel.dayOfWeek w)
            (AvailabilityWindowModel.startTime w)
            (AvailabilityWindowModel.endTime w))
       = (AvailabilityRoute.ServerError, ws).
Proof.
  intro Hreach. split.
  - induction Hreach as [|ws ws' _ IH Hstep]; [constructor|].
    eapply windowStep_unique; eauto.
  - intros w newId Hin.
    assert (Hv : Forall validWindow ws).
    { clear Hin. induction Hreach as [|ws ws' _ IH Hstep]; [constructor|].
      eapply windowStep_valid; eauto. }
    rewrite Forall_forall in Hv.
    destruct (Hv w Hin) as [[Hd0 Hd6] [Hs [He Hlt]]].
    unfold AvailabilityRoute.POST.
    cbn [AvailabilityRoute.dayOfWeek AvailabilityRoute.startTime
         AvailabilityRoute.endTime].
    replace (AvailabilityWindowModel.dayOfWeek w <? 0) with false
      by (symmetry; apply Z.ltb_ge; lia).
    replace (6 <? AvailabilityWindowModel.dayOfWeek w) with false
      by (symmetry; apply Z.ltb_ge; lia).
    rewrite Hs, He. cbn [orb negb].
    assert (Hle : String.leb (AvailabilityWindowModel.endTime w)
                             (AvailabilityWindowModel.startTime w) = false).
    { unfold String.ltb in Hlt. unfold String.leb.
      rewrite (String.compare_antisym (AvailabilityWindowModel.endTime w)
                 (AvailabilityWindowModel.startTime w)).
      destruct (String.compare (AvailabilityWindowModel.startTime w)
                  (AvailabilityWindowModel.endTime w));
        try discriminate Hlt. reflexivity. }
    rewrite Hle.
    assert (Hex : existsb
                    (AvailabilityRoute.sameWindow
                       (AvailabilityWindowModel.dayOfWeek w)
                       (AvailabilityWindowModel.startTime w)
                       (AvailabilityWindowModel.endTime w)) ws = true).
    { apply existsb_exists. exists w. split; [exact Hin|].
      now apply windowKey_sameWindow. }
    rewrite Hex. reflexivity.
Qed.

(** ** Slots of availability windows *)

Lemma steady_local (tz : Zone) (from days c local : Z) :
  steady tz from days c ->
  startOfLocalDay tz from <= local
  < startOfLocalDay tz from + days * MS_PER_DAY ->
  utcOfLocal tz local = local - c /\ localTime tz (local - c) = local.
Proof.
  intros Hs Hl. destruct (Hs local Hl) as [H1 H2].
  unfold utcOfLocal, localTime. rewrite H1, H2. lia.
Qed.

Lemma steady_fixed (offset from days : Z) :
  steady (fixed offset) from days offset.
Proof. intros local _. split; reflexivity. Qed.

Lemma setHours_minutes (tz : Zone) (date p : Z) :
  setHours tz date (p / 60) (p mod 60) 0 0
  = utcOfLocal tz (startOfLocalDay tz date + p * MS_PER_MINUTE).
Proof.
  unfold setHours, MS_PER_HOUR, MS_PER_MINUTE, MS_PER_SECOND. f_equal.
  pose proof (Z.div_mod p 60). lia.
Qed.

Lemma setHours_steady (tz : Zone) (date c p : Z) :
  steady tz date 1 c -> 0 <= p < 1440 ->
  setHours tz date (p / 60) (p mod 60) 0 0
  = startOfLocalDay tz date + p * MS_PER_MINUTE - c.
Proof.
  intros Hs Hp. rewrite setHours_minutes.
  apply (steady_local tz date 1 c); [exact Hs|].
  unfold MS_PER_MINUTE, MS_PER_DAY. lia.
Qed.

Lemma windowSlots_In (tz : Zone) (date d : Z) (w : AvailabilityWindowModel.t)
  (p q slot : Z) :
  windowMinutes w p q ->
  In slot (windowSlots tz date d w)
  <-> exists k, 0 <= k
                /\ slot = setHours tz date (p / 60) (p mod 60) 0 0
                          + k * (30 * MS_PER_MINUTE)
                /\ slot + d * MS_PER_MINUTE
                   <= setHours tz date (q / 60) (q mod 60) 0 0.
Proof.
  intros [Hp [Hq [Hs He]]]. unfold windowSlots. rewrite Hs, He.
  rewrite (proj2 (timeString_parse p ltac:(lia))).
  rewrite (proj2 (timeString_parse q ltac:(lia))).
  cbv zeta. rewrite slotsLoop_closed.
  set (a := setHours tz date (p / 60) (p mod 60) 0 0).
  set (b := setHours tz date (q / 60) (q mod 60) 0 0).
  unfold MS_PER_MINUTE. rewrite in_map_iff. split.
  - intros [k [<- Hk]]. apply in_seq in Hk. exists (Z.of_nat k).
    split; [lia|]. split; [lia|].
    assert (Z.of_nat k <= (b - a - d * 60000) / 1800000) by lia.
    pose proof (Z.mul_div_le (b - a - d * 60000) 1800000 ltac:(lia)). lia.
  - intros [k [Hk [-> Hfit]]]. exists (Z.to_nat k). split; [lia|].
    apply in_seq.
    assert (k <= (b - a - d * 60000) / 1800000)
      by (apply Z.div_le_lower_bound; lia).
    lia.
Qed.

Lemma reachable_windows_valid (ws : list AvailabilityWindowModel.t) :
  Api.windowsReachable ws -> Forall validWindow ws.
Proof.
  induction 1 as [|ws ws' _ IH Hstep]; [constructor|].
  eapply windowStep_valid; eauto.
Qed.

(** X11. The slots generated for a stored window, which spans the
    minutes p to q of a day, are the instant at which the local clock of
    the day reads the window's start, plus 30k minutes (k = 0, 1, ...),
    for as long as the session still ends by the instant at which the
    clock reads the window's end.  On a day without a change of the
    clocks these are the instants p + 30k minutes after local midnight
    with p + 30k + duration <= q. *)
Theorem window_slots_half_hour_grid
  (tz : Zone) (date durationMinutes : Z)
  (ws : list AvailabilityWindowModel.t)
  (w : AvailabilityWindowModel.t) (slot : Z) :
  Api.windowsReachable ws -> In w ws ->
  exists p q,
    windowMinutes w p q
    /\ (In slot (windowSlots tz date durationMinutes w)
        <-> exists k,
              0 <= k
              /\ slot = setHours tz date (p / 60) (p mod 60) 0 0
                        + k * (30 * MS_PER_MINUTE)
              /\ slot + durationMinutes * MS_PER_MINUTE
                 <= setHours tz date (q / 60) (q mod 60) 0 0)
    /\ (forall c,
           steady tz date 1 c ->
           In slot (windowSlots tz date durationMinutes w)
           <-> exists k,
                 0 <= k /\ p + 30 * k + durationMinutes <= q
                 /\ slot = setHours tz date 0 0 0 0
                           + (p + 30 * k) * MS_PER_MINUTE).
Proof.
  intros Hreach Hin.
  pose proof (reachable_windows_valid ws Hreach) as Hv.
  rewrite Forall_forall in Hv. specialize (Hv w Hin).
  destruct (validWindow_minutes w Hv) as [p [q Hpq]].
  exists p; exists q. split; [exact Hpq|]. split.
  - now apply windowSlots_In.
  - intros c Hs. rewrite (windowSlots_In tz date durationMinutes w p q slot Hpq).
    destruct Hpq as [Hp [Hq _]].
    rewrite (setHours_steady tz date c p Hs) by lia.
    rewrite (setHours_steady tz date c q Hs) by lia.
    assert (H0 : setHours tz date 0 0 0 0 = startOfLocalDay tz date - c).
    { pose proof (setHours_steady tz date c 0 Hs ltac:(lia)) as H.
      change (0 / 60) with 0 in H. change (0 mod 60) with 0 in H.
      rewrite H. lia. }
    rewrite H0. unfold MS_PER_MINUTE.
    split; intros [k [Hk H]]; exists k; (split; [exact Hk|]); lia.
Qed.

Lemma minuteOfDay_steady (tz : Zone) (date c m : Z) :
  steady tz date 1 c -> 0 <= m < 1440 ->
  minuteOfDay tz (startOfLocalDay tz date + m * MS_PER_MINUTE - c) = m
  /\ getDay tz (startOfLocalDay tz date + m * MS_PER_MINUTE - c)
     = getDay tz date.
Proof.
  intros Hs Hm. unfold minuteOfDay, getDay.
  destruct (steady_local tz date 1 c
              (startOfLocalDay tz date + m * MS_PER_MINUTE) Hs) as [_ Hl];
    [unfold MS_PER_MINUTE, MS_PER_DAY; lia|].
  rewrite Hl. unfold startOfLocalDay, MS_PER_DAY, MS_PER_MINUTE.
  split; Z.to_euclidean_division_equations; lia.
Qed.

Lemma windowSlots_score (tz : Zone) (date d c : Z)
  (windows : list AvailabilityWindowModel.t)
  (w : AvailabilityWindowModel.t) (slot : Z) :
  validWindow w -> 0 <= d -> steady tz date 1 c -> In w windows ->
  AvailabilityWindowModel.dayOfWeek w = getDay tz date ->
  In slot (windowSlots tz date d w) ->
  calculateAvailabilityScore tz slot (addHours slot (inject_Z d / 60)) windows
  = 100%Q.
Proof.
  intros Hv Hd Hsteady Hin Hday Hslot.
  destruct (validWindow_minutes w Hv) as [p [q Hpq]].
  apply (windowSlots_In tz date d w p q slot Hpq) in Hslot.
  destruct Hslot as [k [Hk [-> Hfit]]].
  destruct Hpq as [Hp [Hq [Hs He]]].
  rewrite (setHours_steady tz date c p Hsteady) in * by lia.
  rewrite (setHours_steady tz date c q Hsteady) in Hfit by lia.
  rewrite addHours_minutes. unfold MS_PER_MINUTE in *.
  replace (startOfLocalDay tz date + p * 60000 - c + k * (30 * 60000))
    with (startOfLocalDay tz date + (p + 30 * k) * 60000 - c) by ring.
  replace (startOfLocalDay tz date + (p + 30 * k) * 60000 - c + d * 60000)
    with (startOfLocalDay tz date + (p + 30 * k + d) * 60000 - c) by ring.
  unfold calculateAvailabilityScore. cbv zeta.
  rewrite !format_HHmm_minute.
  destruct (minuteOfDay_steady tz date c (p + 30 * k) Hsteady ltac:(lia))
    as [Hm1 Hg1].
  destruct (minuteOfDay_steady tz date c (p + 30 * k + d) Hsteady ltac:(lia))
    as [Hm2 _].
  unfold MS_PER_MINUTE in *. rewrite Hm1, Hm2, Hg1.
  set (matching := filter _ windows).
  assert (Hm : In w matching).
  { apply filter_In. split; [exact Hin|]. now apply Z.eqb_eq. }
  assert (Hlen : (len matching =? 0) = false).
  { apply Z.eqb_neq. unfold len. destruct matching; [destruct Hm|].
    cbn [List.length]. lia. }
  rewrite Hlen.
  assert (Hfits : existsb
                    (fun window =>
                       String.leb (AvailabilityWindowModel.startTime window)
                                  (timeString (p + 30 * k))
                       && String.leb (timeString (p + 30 * k + d))
                                     (AvailabilityWindowModel.endTime window))
                    matching = true).
  { apply existsb_exists. exists w. split; [exact Hm|].
    rewrite Hs, He, !timeString_leb by lia.
    apply andb_true_iff. split; apply Z.leb_le; lia. }
  rewrite Hfits. reflexivity.
Qed.

(** X12. With stored availability windows and a non-negative duration,
    on a day without a change of the clocks that has at least one
    window, every slot generated for the day lies within one of its
    windows: its availability factor is 100. *)
Theorem generated_slots_fit_a_window
  (tz : Zone) (date durationMinutes c : Z)
  (windows : list AvailabilityWindowModel.t) (slot : Z) :
  Api.windowsReachable windows ->
  0 <= durationMinutes ->
  steady tz date 1 c ->
  filter (fun w => AvailabilityWindowModel.dayOfWeek w =? getDay tz date)
         windows <> [] ->
  In slot (generateTimeSlots tz date durationMinutes windows) ->
  calculateAvailabilityScore tz slot
    (addHours slot (inject_Z durationMinutes / 60)) windows = 100%Q.
Proof.
  intros Hreach Hd Hsteady Hne Hslot.
  pose proof (reachable_windows_valid windows Hreach) as Hv.
  unfold generateTimeSlots in Hslot. cbv zeta in Hslot.
  destruct (filter _ windows) as [|w0 rest] eqn:Ef; [now contradiction Hne|].
  change (len (w0 :: rest) =? 0) with
    (Z.of_nat (S (List.length rest)) =? 0) in Hslot.
  replace (Z.of_nat (S (List.length rest)) =? 0) with false in Hslot
    by (symmetry; apply Z.eqb_neq; lia).
  apply in_flat_map in Hslot. destruct Hslot as [w [Hw Hslot]].
  rewrite <- Ef in Hw. apply filter_In in Hw. destruct Hw as [Hw Hday].
  apply Z.eqb_eq in Hday. rewrite Forall_forall in Hv.
  exact (windowSlots_score tz date durationMinutes c windows w slot
           (Hv w Hw) Hd Hsteady Hw Hday Hslot).
Qed.

(** ** The horizon of the suggestions *)

Lemma generateSuggestions_slot tz now sessionType existing windows d look sg :
  In sg (generateSuggestions tz now sessionType existing windows d look) ->
  exists k,
    0 <= k < look
    /\ In (SessionSuggestion.startTime sg)
          (generateTimeSlots tz
             (setHours tz now 0 0 0 0 + k * MS_PER_DAY) d windows).
Proof.
  unfold generateSuggestions. cbv zeta. intro H.
  apply take_In in H. apply sortBy_In in H.
  apply in_flat_map in H. destruct H as [dayOffset [Hk H]].
  apply in_flat_map in H. destruct H as [startTime [Hslot H]].
  apply slotSuggestions_In in H. cbv zeta in H. destruct H as [-> _].
  cbn [SessionSuggestion.startTime].
  unfold dayOffsets in Hk. apply in_map_iff in Hk.
  destruct Hk as [n [<- Hn]]. apply in_seq in Hn.
  exists (Z.of_nat n). split; [lia|].
  rewrite addHours_whole in Hslot.
  replace (setHours tz now 0 0 0 0 + Z.of_nat n * MS_PER_DAY)
    with (setHours tz now 0 0 0 0 + Z.of_nat n * 24 * 3600000)
    by (unfold MS_PER_DAY; ring).
  exact Hslot.
Qed.

(** Under steady clocks, [today] plus k days is local midnight of day k. *)
Lemma later_day_steady (tz : Zone) (now look c k : Z) :
  steady tz now look c -> 0 <= k < look ->
  setHours tz now 0 0 0 0 + k * MS_PER_DAY
  = startOfLocalDay tz now + k * MS_PER_DAY - c
  /\ startOfLocalDay tz (setHours tz now 0 0 0 0 + k * MS_PER_DAY)
     = startOfLocalDay tz now + k * MS_PER_DAY.
Proof.
  intros Hs Hk.
  assert (H0 : setHours tz now 0 0 0 0 = startOfLocalDay tz now - c).
  { unfold setHours.
    replace (startOfLocalDay tz now + 0 * MS_PER_HOUR + 0 * MS_PER_MINUTE
             + 0 * MS_PER_SECOND + 0)
      with (startOfLocalDay tz now) by ring.
    apply (steady_local tz now look c); [exact Hs|].
    unfold MS_PER_DAY. lia. }
  rewrite H0. split; [lia|].
  replace (startOfLocalDay tz now - c + k * MS_PER_DAY)
    with (startOfLocalDay tz now + k * MS_PER_DAY - c) by ring.
  unfold startOfLocalDay at 1.
  destruct (steady_local tz now look c
              (startOfLocalDay tz now + k * MS_PER_DAY) Hs) as [_ Hl];
    [unfold MS_PER_DAY; nia|].
  rewrite Hl. unfold startOfLocalDay, MS_PER_DAY.
  Z.to_euclidean_division_equations. lia.
Qed.

Lemma steady_later_day (tz : Zone) (now look c k : Z) :
  steady tz now look c -> 0 <= k < look ->
  steady tz (setHours tz now 0 0 0 0 + k * MS_PER_DAY) 1 c.
Proof.
  intros Hs Hk local Hl.
  rewrite (proj2 (later_day_steady tz now look c k Hs Hk)) in Hl.
  apply Hs. unfold MS_PER_DAY in *. nia.
Qed.

Lemma generateTimeSlots_day (tz : Zone) (date d c : Z)
  (windows : list AvailabilityWindowModel.t) (slot : Z) :
  Forall validWindow windows ->
  steady tz date 1 c ->
  In slot (generateTimeSlots tz date d windows) ->
  startOfLocalDay tz date - c <= slot
  /\ slot + d * 60000 <= startOfLocalDay tz date - c + MS_PER_DAY.
Proof.
  intros Hv Hs Hslot. unfold generateTimeSlots in Hslot. cbv zeta in Hslot.
  destruct (len _ =? 0).
  - rewrite slotsLoop_closed in Hslot. apply in_map_iff in Hslot.
    destruct Hslot as [k [<- Hk]]. apply in_seq in Hk.
    pose proof (setHours_steady tz date c 360 Hs ltac:(lia)) as H6.
    pose proof (setHours_steady tz date c 1320 Hs ltac:(lia)) as H22.
    change (360 / 60) with 6 in H6. change (360 mod 60) with 0 in H6.
    change (1320 / 60) with 22 in H22. change (1320 mod 60) with 0 in H22.
    rewrite H6, H22 in *. unfold MS_PER_MINUTE, MS_PER_DAY in *.
    split; [lia|].
    set (span := startOfLocalDay tz date + 1320 * 60000 - c
                 - (startOfLocalDay tz date + 360 * 60000 - c)
                 - d * 60000) in *.
    assert (Z.of_nat k <= span / 1800000) by lia.
    pose proof (Z.mul_div_le span 1800000 ltac:(lia)).
    subst span. lia.
  - apply in_flat_map in Hslot. destruct Hslot as [w [Hw Hslot]].
    apply filter_In in Hw. destruct Hw as [Hw _].
    rewrite Forall_forall in Hv.
    destruct (validWindow_minutes w (Hv w Hw)) as [p [q Hpq]].
    apply (windowSlots_In tz date d w p q slot Hpq) in Hslot.
    destruct Hslot as [k [Hk [-> Hfit]]].
    destruct Hpq as [Hp [Hq _]].
    rewrite (setHours_steady tz date c p Hs) in * by lia.
    rewrite (setHours_steady tz date c q Hs) in Hfit by lia.
    unfold MS_PER_MINUTE, MS_PER_DAY in *. lia.
Qed.

(** X13. With stored availability windows, in a zone whose clocks do not
    change during the look-ahead period, every suggestion lies within one
    local day of the period: for some day k with 0 <= k < lookAheadDays
    it starts at or after local midnight of today plus k days and ends
    at or before the next midnight.  The start is not compared with the
    current time. *)
Theorem suggestions_within_look_ahead
  (tz : Zone) (now c : Z) (sessionType : SessionTypeModel.t)
  (existing : list SessionModel.t)
  (windows : list AvailabilityWindowModel.t)
  (durationMinutes lookAheadDays : Z) (sg : SessionSuggestion.t) :
  Api.windowsReachable windows ->
  steady tz now lookAheadDays c ->
  In sg (generateSuggestions tz now sessionType existing windows
           durationMinutes lookAheadDays) ->
  exists k,
    0 <= k < lookAheadDays
    /\ setHours tz now 0 0 0 0 + k * MS_PER_DAY
       <= SessionSuggestion.startTime sg
    /\ SessionSuggestion.endTime sg
       <= setHours tz now 0 0 0 0 + (k + 1) * MS_PER_DAY.
Proof.
  intros Hreach Hsteady Hsg.
  pose proof (reachable_windows_valid windows Hreach) as Hv.
  destruct (suggestion_origin _ _ _ _ _ _ _ _ Hsg) as [_ [Hend _]].
  apply generateSuggestions_slot in Hsg. destruct Hsg as [k [Hk Hslot]].
  apply (generateTimeSlots_day _ _ _ c _ _ Hv) in Hslot;
    [|now apply (steady_later_day tz now lookAheadDays c k)].
  destruct (later_day_steady tz now lookAheadDays c k Hsteady Hk)
    as [Hday Hsold].
  rewrite Hsold in Hslot.
  exists k. split; [exact Hk|]. rewrite Hend. unfold MS_PER_DAY in *. lia.
Qed.

(** ** The overlap test of the mobile client *)

Import MobileSession.

Lemma sessionsOverlap_iff (s1 s2 : SessionModel.t) :
  properSession s1 -> properSession s2 ->
  sessionsOverlap s1 s2 = true
  <-> halfOpenOverlap (SessionModel.startTime s1) (SessionModel.endTime s1)
                      (SessionModel.startTime s2) (SessionModel.endTime s2)
      /\ ~ coversSharingEnd s1 s2.
Proof.
  unfold properSession, sessionsOverlap, isAfter, isBefore, halfOpenOverlap,
    coversSharingEnd.
  cbv zeta. intros H1 H2.
  rewrite !orb_true_iff, !andb_true_iff, !Z.ltb_lt. lia.
Qed.

(** X14. For sessions that end after they start, the client's overlap
    test holds exactly when the create route's conflict query matches
    and the second session does not cover the first while sharing its
    start or its end; two sessions with identical times are not
    reported. *)
Theorem mobile_overlap_misses_shared_ends (session1 session2 : SessionModel.t) :
  properSession session1 -> properSession session2 ->
  sessionsOverlap session1 session2 = true
  <-> SessionsRoute.overlapsRequest (SessionModel.startTime session1)
        (SessionModel.endTime session1) session2 = true
      /\ ~ coversSharingEnd session1 session2.
Proof.
  intros H1 H2. rewrite (sessionsOverlap_iff _ _ H1 H2).
  unfold SessionsRoute.overlapsRequest, halfOpenOverlap.
  rewrite andb_true_iff, !Z.ltb_lt. tauto.
Qed.

(** X15. On tables reached through the routes from a schedule without
    overlaps, the client's conflict search finds nothing for any stored
    session. *)
Theorem stored_sessions_show_no_conflict
  (init db : SessionsRoute.Db) (session : SessionModel.t) :
  scheduleInvariant init -> Api.reachable init db ->
  In session (SessionsRoute.sessions db) ->
  findConflictingSessions session (SessionsRoute.sessions db) = [].
Proof.
  intros Hinit Hreach Hin.
  assert (Hinv : scheduleInvariant db).
  { clear Hin. induction Hreach as [|db db' _ IH Hstep]; [exact Hinit|].
    eapply step_keeps_schedule; eassumption. }
  destruct Hinv as [_ [Hproper Hdisj]]. rewrite Forall_forall in Hproper.
  unfold findConflictingSessions. apply filter_all_false. intros other Ho.
  destruct (String.eqb (SessionModel.id other) (SessionModel.id session))
    eqn:Eid; [reflexivity|].
  apply String.eqb_neq in Eid.
  destruct (sessionsOverlap session other) eqn:E; [|reflexivity].
  apply (sessionsOverlap_iff _ _ (Hproper _ Hin) (Hproper _ Ho)) in E.
  destruct E as [E _]. exfalso.
  apply (Hdisj session other Hin Ho); [congruence|exact E].
Qed.

(** ** Sessions by weekday and week *)

Lemma find_addToGroup {A : Type} (k k' : string) (x : A)
  (g : list (string * list A)) :
  prop k (R.addToGroup k' x g)
  = if String.eqb k k'
    then Some (match prop k g with Some xs => xs ++ [x] | None => [x] end)
    else prop k g.
Proof.
  unfold prop. induction g as [|[k0 xs] g IH]; cbn [R.addToGroup].
  - cbn [find fst]. rewrite (String.eqb_sym k' k).
    destruct (String.eqb k k'); reflexivity.
  - destruct (String.eqb k' k0) eqn:E0.
    + apply String.eqb_eq in E0. subst k0. cbn [find fst].
      rewrite (String.eqb_sym k' k).
      destruct (String.eqb k k'); reflexivity.
    + cbn [find fst]. destruct (String.eqb k0 k) eqn:E1.
      * apply String.eqb_eq in E1. subst k0.
        rewrite (String.eqb_sym k k'), E0. reflexivity.
      * exact IH.
Qed.

Lemma prop_fold_groups {A : Type} (key : A -> string) (k : string)
  (l : list A) (g : list (string * list A)) :
  prop k (fold_left (fun g x => R.addToGroup (key x) x g) l g)
  = match prop k g, filter (fun x => String.eqb (key x) k) l with
    | Some xs, more => Some (xs ++ more)
    | None, [] => None
    | None, more => Some more
    end.
Proof.
  revert g. induction l as [|x l IH]; intro g; cbn [fold_left filter].
  - destruct (prop k g); [now rewrite app_nil_r|reflexivity].
  - rewrite IH, find_addToGroup, (String.eqb_sym (key x) k).
    destruct (String.eqb k (key x)).
    + destruct (prop k g); [now rewrite <- app_assoc|reflexivity].
    + reflexivity.
Qed.

Lemma prop_groupPairs {A : Type} (key : A -> string) (k : string) (l : list A) :
  match prop k (R.groupPairs key l) with Some xs => xs | None => [] end
  = filter (fun x => String.eqb (key x) k) l.
Proof.
  unfold R.groupPairs. rewrite prop_fold_groups.
  change (prop k (@nil (string * list A))) with (@None (list A)).
  destruct (filter _ l); reflexivity.
Qed.

Lemma getDay_range (tz : Zone) (date : Z) : 0 <= getDay tz date <= 6.
Proof. unfold getDay. pose proof (Z.mod_pos_bound (localTime tz date / MS_PER_DAY + 4) 7). lia. Qed.

Lemma dayName_eqb (tz : Zone) (s : SessionModel.t) (i : nat) :
  (i < 7)%nat ->
  String.eqb (dayName tz s) (nth i daysOfWeek "undefined"%string)
  = (getDay tz (SessionModel.startTime s) =? Z.of_nat i).
Proof.
  intro Hi. unfold dayName.
  pose proof (getDay_range tz (SessionModel.startTime s)) as Hr.
  set (d := getDay tz (SessionModel.startTime s)) in *.
  assert (Hd : d = Z.of_nat (Z.to_nat d)) by lia.
  rewrite Hd at 2.
  assert (Hn : (Z.to_nat d < 7)%nat) by lia.
  destruct (Z.to_nat d) as [|[|[|[|[|[|[|n]]]]]]]; try lia;
    destruct i as [|[|[|[|[|[|[|i]]]]]]]; try lia; reflexivity.
Qed.

(** X16. [groupSessionsByDay] returns the seven weekdays from Sunday to
    Saturday, each with the sessions that start on that local weekday,
    in their order in the list. *)
Theorem groups_hold_each_weekday (tz : Zone) (sessions : list SessionModel.t) :
  groupSessionsByDay tz sessions
  = map (fun i => (nth i daysOfWeek "undefined"%string,
                   startingOn tz (Z.of_nat i) sessions))
        (seq 0 7).
Proof.
  unfold groupSessionsByDay. cbv zeta.
  assert (Hb : forall i, (i < 7)%nat ->
             match prop (nth i daysOfWeek "undefined"%string)
                        (R.groupPairs (dayName tz) sessions) with
             | Some l => l
             | None => []
             end = startingOn tz (Z.of_nat i) sessions).
  { intros i Hi. rewrite prop_groupPairs. unfold startingOn.
    apply filter_ext. intro s. now apply dayName_eqb. }
  pose proof (Hb 0%nat ltac:(lia)) as H0. pose proof (Hb 1%nat ltac:(lia)) as H1.
  pose proof (Hb 2%nat ltac:(lia)) as H2. pose proof (Hb 3%nat ltac:(lia)) as H3.
  pose proof (Hb 4%nat ltac:(lia)) as H4. pose proof (Hb 5%nat ltac:(lia)) as H5.
  pose proof (Hb 6%nat ltac:(lia)) as H6.
  cbn [nth daysOfWeek] in H0, H1, H2, H3, H4, H5, H6.
  unfold daysOfWeek. cbn [fold_left seq map nth].
  rewrite H0, H1, H2, H3, H4, H5, H6. reflexivity.
Qed.

(** X17. [getWeekSessions] keeps exactly the sessions that start in the
    Sunday-to-Saturday week of the current local date.  Stated for a
    zone at a fixed offset from UTC. *)
Theorem week_sessions_same_week
  (tz now : Z) (sessions : list SessionModel.t) (s : SessionModel.t) :
  In s (getWeekSessions tz now sessions)
  <-> In s sessions
      /\ weekIndex tz (SessionModel.startTime s) = weekIndex tz now.
Proof.
  unfold getWeekSessions. cbv zeta. rewrite filter_In.
  rewrite andb_true_iff, !Z.leb_le.
  unfold startOfWeek, endOfWeek, weekIndex, setHours, addLocalDays,
    startOfLocalDay, getDay, utcOfLocal, localTime,
    MS_PER_DAY, MS_PER_HOUR, MS_PER_MINUTE, MS_PER_SECOND.
  cbn [offsetAt offsetOfLocal fixed].
  split; intros [Hin H]; (split; [exact Hin|]);
    revert H; Z.to_euclidean_division_equations; lia.
Qed.

(** ** Keeping the best of a ranking *)

Lemma sorted_firstn_skipn {A : Type} (R0 : A -> A -> Prop) (n : nat)
  (l : list A) :
  StronglySorted R0 l ->
  forall a b, In a (firstn n l) -> In b (skipn n l) -> R0 a b.
Proof.
  intro H. revert n. induction H as [|x l Hs IH Hall]; intros n a b Ha Hb.
  - destruct n; destruct Ha.
  - destruct n as [|n]; [destruct Ha|].
    cbn [firstn skipn] in Ha, Hb. destruct Ha as [<-|Ha].
    + rewrite Forall_forall in Hall. apply Hall.
      rewrite <- (firstn_skipn n l). apply in_or_app. now right.
    + now apply (IH n).
Qed.

Lemma best_of_ranking {A : Type} (score : A -> Z) (n : nat) (l : list A) :
  let result := firstn n (R.sortBy (fun s => - score s) l) in
  (List.length result <= n)%nat
  /\ StronglySorted (fun a b => score b <= score a) result
  /\ exists rest,
       Permutation (result ++ rest) l
       /\ forall a b, In a result -> In b rest -> score b <= score a.
Proof.
  cbv zeta. split; [apply firstn_le_length|]. split.
  - apply (take_sorted _ n).
    eapply StronglySorted_weaken; [|apply sortBy_sorted].
    unfold R.keyLe. intros a b H. lia.
  - exists (skipn n (R.sortBy (fun s => - score s) l)). split.
    + rewrite firstn_skipn. apply Permutation_sym, sortBy_perm.
    + intros a b Ha Hb.
      pose proof (sorted_firstn_skipn _ n _
                    (sortBy_sorted (fun s => - score s) l) a b Ha Hb) as H.
      unfold R.keyLe in H. lia.
Qed.

(** X18. [fetchAllSuggestions] keeps at most five of the suggestions
    received for the listed types, in descending order of score, and
    drops only suggestions scoring no more than each one it keeps;
    a failed request contributes nothing. *)
Theorem merged_suggestions_are_the_best
  (getSuggestions : string -> option (list SessionSuggestion.t))
  (sessionTypeIds : list string) :
  let result := UseSuggestions.fetchAllSuggestions getSuggestions sessionTypeIds in
  (List.length result <= 5)%nat
  /\ StronglySorted
       (fun a b => SessionSuggestion.score b <= SessionSuggestion.score a)
       result
  /\ exists dropped,
       Permutation (result ++ dropped) (fetched getSuggestions sessionTypeIds)
       /\ forall a b, In a result -> In b dropped ->
                      SessionSuggestion.score b <= SessionSuggestion.score a.
Proof.
  cbv zeta. unfold UseSuggestions.fetchAllSuggestions, fetched.
  destruct sessionTypeIds as [|id ids].
  - cbn. split; [lia|]. split; [constructor|].
    exists []. split; [constructor|]. intros a b [].
  - replace (len (id :: ids) =? 0) with false
      by (symmetry; apply Z.eqb_neq; unfold len; cbn [List.length]; lia).
    cbv zeta. rewrite <- flat_map_concat_map.
    apply (best_of_ranking SessionSuggestion.score 5).
Qed.

(** X19. The suggestions [generateSuggestions] returns are the best of
    the candidate slots that passed the conflict test and the minimum
    score: every candidate left out scores no more than each returned
    suggestion. *)
Theorem returned_suggestions_are_the_best
  (tz : Zone) (now : Z) (sessionType : SessionTypeModel.t)
  (existingSessions : list SessionModel.t)
  (availabilityWindows : list AvailabilityWindowModel.t)
  (durationMinutes lookAheadDays : Z) :
  exists dropped,
    Permutation
      (generateSuggestions tz now sessionType existingSessions
         availabilityWindows durationMinutes lookAheadDays ++ dropped)
      (candidates tz now sessionType existingSessions availabilityWindows
         durationMinutes lookAheadDays)
    /\ forall a b,
         In a (generateSuggestions tz now sessionType existingSessions
                 availabilityWindows durationMinutes lookAheadDays) ->
         In b dropped ->
         SessionSuggestion.score b <= SessionSuggestion.score a.
Proof.
  unfold generateSuggestions, candidates, R.take. cbv zeta.
  apply (best_of_ranking SessionSuggestion.score 10).
Qed.

(** ** The breakdown by session type *)

Import Progress.

Section Groups.
Context {A : Type} (key : A -> string).

Lemma addToGroup_keys (k k' : string) (x : A) (g : list (string * list A)) :
  In k' (map fst (R.addToGroup k x g)) <-> k' = k \/ In k' (map fst g).
Proof.
  induction g as [|[k0 xs] g IH]; cbn [R.addToGroup].
  - cbn. intuition.
  - destruct (String.eqb k k0) eqn:E.
    + apply String.eqb_eq in E. subst k0. cbn. intuition.
    + cbn [map fst In]. rewrite IH. intuition.
Qed.

Lemma addToGroup_NoDup (k : string) (x : A) (g : list (string * list A)) :
  NoDup (map fst g) -> NoDup (map fst (R.addToGroup k x g)).
Proof.
  induction g as [|[k0 xs] g IH]; cbn [R.addToGroup]; intro H.
  - cbn. constructor; [intros []|constructor].
  - destruct (String.eqb k k0) eqn:E; [exact H|].
    cbn [map fst] in *. inversion H as [|? ? Hn Hd]; subst.
    constructor; [|now apply IH].
    rewrite addToGroup_keys. intros [->|Hin]; [|contradiction].
    now rewrite String.eqb_refl in E.
Qed.

Lemma groupPairs_NoDup (l : list A) : NoDup (map fst (R.groupPairs key l)).
Proof.
  unfold R.groupPairs.
  assert (H : forall g, NoDup (map fst g) ->
              NoDup (map fst (fold_left
                                (fun g x => R.addToGroup (key x) x g) l g))).
  { induction l as [|x l IH]; intros g Hg; cbn [fold_left]; [exact Hg|].
    apply IH. now apply addToGroup_NoDup. }
  apply H. constructor.
Qed.

Lemma In_prop (k : string) (xs : list A) (g : list (string * list A)) :
  NoDup (map fst g) -> In (k, xs) g -> MobileSession.prop k g = Some xs.
Proof.
  unfold MobileSession.prop.
  induction g as [|[k0 ys] g IH]; intros Hn Hin; [destruct Hin|].
  cbn [map fst] in Hn. inversion Hn as [|? ? Hk Hd]; subst.
  cbn [find fst]. destruct Hin as [Heq|Hin].
  - injection Heq as -> ->. now rewrite String.eqb_refl.
  - destruct (String.eqb k0 k) eqn:E.
    + apply String.eqb_eq in E. subst k0. exfalso. apply Hk.
      apply in_map_iff. now exists (k, xs).
    + now apply IH.
Qed.

Lemma groupPairs_In (k : string) (xs : list A) (l : list A) :
  In (k, xs) (R.groupPairs key l) ->
  xs = filter (fun x => String.eqb (key x) k) l /\ xs <> [].
Proof.
  intro Hin. apply In_prop in Hin; [|apply groupPairs_NoDup].
  unfold R.groupPairs in Hin. rewrite prop_fold_groups in Hin.
  change (MobileSession.prop k (@nil (string * list A)))
    with (@None (list A)) in Hin.
  destruct (filter _ l) as [|y more]; [discriminate|].
  injection Hin as <-. split; [reflexivity|discriminate].
Qed.

Lemma groupPairs_key (x : A) (l : list A) :
  In x l -> In (key x) (map fst (R.groupPairs key l)).
Proof.
  unfold R.groupPairs.
  assert (H : forall g,
             In x l \/ In (key x) (map fst g) ->
             In (key x)
                (map fst (fold_left
                            (fun g x => R.addToGroup (key x) x g) l g))).
  { induction l as [|y l IH]; intros g Hx; cbn [fold_left].
    - destruct Hx as [[]|Hx]. exact Hx.
    - apply IH. destruct Hx as [[->|Hx]|Hx].
      + right. apply addToGroup_keys. now left.
      + now left.
      + right. apply addToGroup_keys. now right. }
  intro Hx. apply H. now left.
Qed.

Lemma addToGroup_total (k : string) (x : A) (g : list (string * list A)) :
  fold_right (fun p acc => len (snd p) + acc) 0 (R.addToGroup k x g)
  = fold_right (fun p acc => len (snd p) + acc) 0 g + 1.
Proof.
  induction g as [|[k0 xs] g IH]; cbn [R.addToGroup].
  - reflexivity.
  - destruct (String.eqb k k0); cbn [fold_right snd].
    + unfold len. rewrite length_app. cbn [List.length]. lia.
    + rewrite IH. lia.
Qed.

Lemma groupPairs_total (l : list A) :
  fold_right (fun p acc => len (snd p) + acc) 0 (R.groupPairs key l) = len l.
Proof.
  unfold R.groupPairs.
  assert (H : forall g,
             fold_right (fun p acc => len (snd p) + acc) 0
               (fold_left (fun g x => R.addToGroup (key x) x g) l g)
             = fold_right (fun p acc => len (snd p) + acc) 0 g + len l).
  { induction l as [|x l IH]; intro g; cbn [fold_left].
    - unfold len. cbn. lia.
    - rewrite IH, addToGroup_total. unfold len. cbn [List.length]. lia. }
  rewrite H. reflexivity.
Qed.

End Groups.

Lemma totalCount_perm (l l' : list TypeCount.t) :
  Permutation l l' -> totalCount l = totalCount l'.
Proof.
  unfold totalCount.
  induction 1; cbn [fold_right]; try lia.
Qed.

Lemma calculateSessionsByType_In (sessions : list SessionModel.t)
  (e : TypeCount.t) :
  In e (calculateSessionsByType sessions) ->
  exists first rest,
    filter (fun s => String.eqb (SessionModel.sessionTypeId s)
                                (TypeCount.sessionTypeId e)) sessions
    = first :: rest
    /\ TypeCount.sessionTypeName e
       = SessionTypeModel.name (SessionModel.sessionType first)
    /\ TypeCount.count e = countOfType (TypeCount.sessionTypeId e) sessions.
Proof.
  unfold calculateSessionsByType. cbv zeta. intro H.
  apply sortBy_In in H. apply in_map_iff in H.
  destruct H as [[k xs] [<- Hin]].
  apply groupPairs_In in Hin. destruct Hin as [Hxs Hne].
  cbn [TypeCount.sessionTypeId TypeCount.sessionTypeName TypeCount.count].
  unfold countOfType. rewrite <- Hxs.
  destruct xs as [|first rest]; [now contradiction Hne|].
  exists first; exists rest. auto.
Qed.

(** X20. In the statistics, the breakdown by type has one entry for each
    session type that occurs among the sessions and no other, with
    distinct type identifiers; each entry counts the sessions of its
    type and is named after the first of them in the list. *)
Theorem breakdown_counts_each_type (sessions : list SessionModel.t) :
  let breakdown :=
    ProgressStats.sessionsByType (calculateProgressStats sessions) in
  NoDup (map TypeCount.sessionTypeId breakdown)
  /\ (forall s, In s sessions ->
        exists e, In e breakdown
                  /\ TypeCount.sessionTypeId e = SessionModel.sessionTypeId s)
  /\ (forall e, In e breakdown ->
        exists first rest,
          filter (fun s => String.eqb (SessionModel.sessionTypeId s)
                                      (TypeCount.sessionTypeId e)) sessions
          = first :: rest
          /\ TypeCount.sessionTypeName e
             = SessionTypeModel.name (SessionModel.sessionType first)
          /\ TypeCount.count e
             = countOfType (TypeCount.sessionTypeId e) sessions).
Proof.
  cbv zeta. unfold calculateProgressStats. cbv zeta.
  cbn [ProgressStats.sessionsByType].
  split; [|split].
  - unfold calculateSessionsByType. cbv zeta.
    eapply Permutation_NoDup.
    + apply Permutation_map. apply sortBy_perm.
    + rewrite map_map.
      erewrite map_ext; [apply (groupPairs_NoDup SessionModel.sessionTypeId)|].
      intros [k xs]. reflexivity.
  - intros s Hs.
    pose proof (groupPairs_key SessionModel.sessionTypeId s sessions Hs) as Hk.
    apply in_map_iff in Hk. destruct Hk as [[k xs] [Hk Hin]].
    cbn [fst] in Hk. subst k.
    exists (TypeCount.mk (SessionModel.sessionTypeId s)
              match xs with
              | firstSession :: _ =>
                  SessionTypeModel.name (SessionModel.sessionType firstSession)
              | [] => EmptyString
              end (len xs)).
    split; [|reflexivity].
    unfold calculateSessionsByType. cbv zeta. apply sortBy_In.
    apply in_map_iff. exists (SessionModel.sessionTypeId s, xs).
    split; [reflexivity|exact Hin].
  - intros e He. now apply calculateSessionsByType_In.
Qed.

(** X21. The counts of the breakdown by type add up to the number of
    scheduled sessions, and the breakdown is in descending order of
    count. *)
Theorem breakdown_adds_up (sessions : list SessionModel.t) :
  let stats := calculateProgressStats sessions in
  totalCount (ProgressStats.sessionsByType stats)
  = ProgressStats.totalScheduled stats
  /\ StronglySorted
       (fun a b => TypeCount.count b <= TypeCount.count a)
       (ProgressStats.sessionsByType stats).
Proof.
  cbv zeta. unfold calculateProgressStats. cbv zeta.
  cbn [ProgressStats.sessionsByType ProgressStats.totalScheduled].
  unfold calculateSessionsByType. cbv zeta. split.
  - rewrite <- (totalCount_perm _ _ (sortBy_perm _ _)).
    rewrite <- (groupPairs_total SessionModel.sessionTypeId sessions).
    unfold totalCount.
    induction (R.groupPairs SessionModel.sessionTypeId sessions)
      as [|[k xs] g IH]; [reflexivity|].
    cbn [map fold_right TypeCount.count snd]. now rewrite IH.
  - eapply StronglySorted_weaken; [|apply sortBy_sorted].
    unfold R.keyLe. intros a b H. lia.
Qed.

(** ** Suggestions after a booking *)

(** X22. Once the create route has stored a session, the suggestions
    route proposes nothing that overlaps it, for any session type,
    positive duration and look-ahead. *)
Theorem created_session_is_avoided
  (tz : Zone) (now : Z) (db db' : SessionsRoute.Db)
  (windows : list AvailabilityWindowModel.t) (newId : string)
  (body : SessionsRoute.CreateSessionRequest) (created : SessionModel.t)
  (typeId : string) (durationMinutes lookAheadDays : Z)
  (suggestions : list SessionSuggestion.t) (sg : SessionSuggestion.t) :
  0 < durationMinutes ->
  SessionsRoute.POST db newId body = (SessionsRoute.Created created, db') ->
  SuggestionsRoute.GET tz now db' windows (Some typeId)
    (Some durationMinutes) (Some lookAheadDays)
  = SuggestionsRoute.Ok suggestions ->
  In sg suggestions ->
  ~ halfOpenOverlap
      (SessionSuggestion.startTime sg) (SessionSuggestion.endTime sg)
      (SessionModel.startTime created) (SessionModel.endTime created).
Proof.
  intros Hd Hpost Hget Hsg Hov.
  destruct (POST_Created_inv _ _ _ _ _ Hpost) as [_ ->].
  apply GET_suggestions_Ok in Hget. destruct Hget as [sessionType [_ ->]].
  cbn [SessionsRoute.sessions] in Hsg.
  apply suggestion_origin in Hsg. destruct Hsg as [_ [Hend [_ [_ Hno]]]].
  assert (Hin : In created (SessionsRoute.sessions db ++ [created]))
    by (apply in_or_app; right; now left).
  apply conflictsWith_overlap in Hov; [|lia].
  rewrite (Hno created Hin) in Hov. discriminate Hov.
Qed.

(** ** Listing the sessions, and their spacing *)

Lemma sorted_in_sequence (l : list SessionModel.t) :
  StronglySorted (R.keyLe SessionModel.startTime) l ->
  NoDup (map SessionModel.id l) ->
  Forall properSession l ->
  pairwiseDisjoint l ->
  inSequence l.
Proof.
  unfold inSequence.
  induction 1 as [|x l Hs IH Hall]; intros Hn Hp Hd; constructor.
  - apply IH.
    + now inversion Hn.
    + now inversion Hp.
    + intros a b Ha Hb. apply Hd; now right.
  - rewrite Forall_forall in *. intros y Hy.
    specialize (Hall y Hy). unfold R.keyLe in Hall.
    cbn [map] in Hn. apply NoDup_cons_iff in Hn. destruct Hn as [Hx _].
    assert (Hid : SessionModel.id x <> SessionModel.id y).
    { intro E. apply Hx. rewrite E. now apply in_map. }
    pose proof (Hd x y (or_introl eq_refl) (or_intror Hy) Hid) as Hno.
    pose proof (Hp y (or_intror Hy)) as Hproper.
    unfold halfOpenOverlap, properSession in *. lia.
Qed.

Lemma schedule_in_sequence (p : SessionModel.t -> bool)
  (sessions : list SessionModel.t) :
  NoDup (map SessionModel.id sessions) ->
  Forall properSession sessions ->
  pairwiseDisjoint sessions ->
  inSequence (R.sortBy SessionModel.startTime (filter p sessions)).
Proof.
  intros Hn Hp Hd.
  pose proof (sortBy_perm SessionModel.startTime (filter p sessions)) as Hperm.
  assert (Hin : forall s,
             In s (R.sortBy SessionModel.startTime (filter p sessions)) ->
             In s sessions).
  { intros s Hs. apply sortBy_In in Hs. now apply filter_In in Hs. }
  apply sorted_in_sequence.
  - apply sortBy_sorted.
  - eapply Permutation_NoDup; [apply Permutation_map, Hperm|].
    now apply NoDup_ids_filter.
  - rewrite Forall_forall in *. intros s Hs. now apply Hp, Hin.
  - intros a b Ha Hb. apply Hd; now apply Hin.
Qed.

Lemma reachable_schedule (init db : SessionsRoute.Db) :
  scheduleInvariant init -> Api.reachable init db -> scheduleInvariant db.
Proof.
  intros Hinit Hreach. induction Hreach as [|db db' _ IH Hstep];
    [exact Hinit|].
  eapply step_keeps_schedule; eassumption.
Qed.

(** X23. On tables reached through the writing routes from a schedule
    without overlaps, the list route returns, for any filters, exactly
    the stored sessions that pass the filters, each ending by the time
    the next one starts. *)
Theorem listed_sessions_in_sequence
  (init db : SessionsRoute.Db) (completed : option string)
  (startDate endDate : option Z) :
  scheduleInvariant init -> Api.reachable init db ->
  inSequence (SessionsListRoute.GET db completed startDate endDate)
  /\ forall s,
       In s (SessionsListRoute.GET db completed startDate endDate)
       <-> In s (SessionsRoute.sessions db)
           /\ SessionsListRoute.matches completed startDate endDate s = true.
Proof.
  intros Hinit Hreach.
  destruct (reachable_schedule init db Hinit Hreach) as [Hn [Hp Hd]].
  split.
  - now apply schedule_in_sequence.
  - intro s. unfold SessionsListRoute.GET.
    rewrite sortBy_In. apply filter_In.
Qed.

Lemma aperture2_sorted {A : Type} (R0 : A -> A -> Prop) (l : list A) :
  StronglySorted R0 l -> Forall (fun '(a, b) => R0 a b) (R.aperture2 l).
Proof.
  induction 1 as [|x l Hs IH Hall]; [constructor|].
  destruct l as [|y l]; [constructor|].
  cbn [R.aperture2]. constructor; [|exact IH].
  now apply Forall_inv in Hall.
Qed.

(** ** Doubles in the progress statistics *)

Lemma sameDouble_eq (a b : spec_float) : sameDouble a b = true -> a = b.
Proof.
  destruct a as [s|s| |s m e], b as [s'|s'| |s' m' e']; cbn [sameDouble];
    try discriminate; try reflexivity.
  - intro H. apply Bool.eqb_prop in H. now subst.
  - intro H. apply Bool.eqb_prop in H. now subst.
  - intro H. apply andb_true_iff in H. destruct H as [H He].
    apply andb_true_iff in H. destruct H as [Hs Hm].
    apply Bool.eqb_prop in Hs. apply Pos.eqb_eq in Hm. apply Z.eqb_eq in He.
    now subst.
Qed.

(** All rates of up to 100 sessions, by computation. *)
Lemma rates_checked :
  forallb (fun n => forallb (rateAgrees n) (seq 0 (S n))) (seq 1 100) = true.
Proof. vm_compute. reflexivity. Qed.

(** For up to 100 sessions [completionRate] is a whole percentage between
    0 and 100: the exact percentage rounded half up, or one less. *)
Lemma completion_rate_small_lists (sessions : list SessionModel.t) :
  (1 <= List.length sessions <= 100)%nat ->
  exists k,
    ProgressStats.completionRate (Progress.calculateProgressStats sessions)
    = Double.ofZ k
    /\ 0 <= k <= 100
    /\ (k = exactRate (completedCount sessions) (len sessions)
        \/ k = exactRate (completedCount sessions) (len sessions) - 1).
Proof.
  intro Hlen. unfold Progress.calculateProgressStats. cbv zeta.
  cbn [ProgressStats.completionRate]. rewrite filter_completed_count.
  pose proof (completedCount_bounds sessions) as Hc.
  replace (0 <? len sessions) with true
    by (symmetry; apply Z.ltb_lt; unfold len; lia).
  fold (doubleRate (completedCount sessions) (len sessions)).
  pose proof rates_checked as Hcheck. rewrite forallb_forall in Hcheck.
  specialize (Hcheck (List.length sessions)
                ltac:(apply in_seq; lia)).
  rewrite forallb_forall in Hcheck.
  specialize (Hcheck (Z.to_nat (completedCount sessions))
                ltac:(apply in_seq; unfold len in Hc; lia)).
  unfold rateAgrees in Hcheck. cbv zeta in Hcheck.
  rewrite Z2Nat.id in Hcheck by lia. fold (len sessions) in Hcheck.
  apply andb_true_iff in Hcheck. destruct Hcheck as [Hk Hr].
  apply andb_true_iff in Hk. destruct Hk as [Hk0 Hk1].
  apply Z.leb_le in Hk0. apply Z.leb_le in Hk1.
  apply orb_true_iff in Hr. destruct Hr as [Hr|Hr].
  - apply sameDouble_eq in Hr. eexists. split; [exact Hr|]. split; [lia|].
    now left.
  - apply andb_true_iff in Hr. destruct Hr as [Hk2 Hr].
    apply Z.leb_le in Hk2. apply sameDouble_eq in Hr.
    eexists. split; [exact Hr|]. split; [lia|]. now right.
Qed.

Lemma binary_round_aux_plus (m e : Z) (l : location) :
  plusSigned (binary_round_aux Double.prec Double.emax false m e l).
Proof.
  unfold binary_round_aux.
  destruct (shr_fexp _ _ m e l) as [mrs' e'].
  destruct (shr_fexp _ _ _ e' loc_Exact) as [mrs'' e''].
  destruct (shr_m mrs''); [reflexivity| |exact I].
  destruct (Z.leb _ _); reflexivity.
Qed.

Lemma ofZ_plus (z : Z) : 0 <= z -> plusSigned (Double.ofZ z).
Proof.
  intro Hz. unfold Double.ofZ, binary_normalize.
  destruct z as [|m|m]; [reflexivity| |lia].
  unfold binary_round. destruct (shl_align _ _ _) as [mz ez].
  apply binary_round_aux_plus.
Qed.

Lemma div_plus (x y : spec_float) :
  plusSigned x -> plusSigned y -> plusSigned (Double.div x y).
Proof.
  destruct x as [sx|sx| |sx mx ex], y as [sy|sy| |sy my ey];
    cbn [plusSigned]; intros Hx Hy; subst; try exact I; try reflexivity.
  unfold Double.div, SFdiv.
  destruct (SFdiv_core_binary _ _ _ _ _ _) as [[mz ez] lz].
  apply binary_round_aux_plus.
Qed.

Lemma mul_plus (x y : spec_float) :
  plusSigned x -> plusSigned y -> plusSigned (Double.mul x y).
Proof.
  destruct x as [sx|sx| |sx mx ex], y as [sy|sy| |sy my ey];
    cbn [plusSigned]; intros Hx Hy; subst; try exact I; try reflexivity.
  apply binary_round_aux_plus.
Qed.

Lemma roundHalfUp_plus (m : positive) (e : Z) :
  0 <= Double.roundHalfUp false m e.
Proof.
  unfold Double.roundHalfUp. cbv zeta. destruct e as [|p|p].
  - lia.
  - apply Z.mul_nonneg_nonneg; [lia|]. apply Z.pow_nonneg. lia.
  - apply Z.div_pos.
    + pose proof (Z.pow_nonneg 2 (Zpos p) ltac:(lia)). lia.
    + apply Z.pow_pos_nonneg; lia.
Qed.

Lemma Math_round_plus (x : spec_float) :
  plusSigned x -> plusSigned (Double.Math_round x).
Proof.
  destruct x as [sx|sx| |sx mx ex]; cbn [plusSigned Double.Math_round];
    intro Hx; subst; try exact I; try reflexivity.
  cbv zeta. destruct (_ =? 0); [reflexivity|].
  apply ofZ_plus, roundHalfUp_plus.
Qed.

Lemma plus_not_negative (x : spec_float) :
  plusSigned x -> Double.ltb x Double.zero = false.
Proof.
  destruct x as [sx|sx| |sx mx ex]; cbn [plusSigned]; intro Hx; subst;
    reflexivity.
Qed.

Lemma shr_1_nonneg (mrs : shr_record) :
  0 <= shr_m mrs -> 0 <= shr_m (shr_1 mrs).
Proof.
  destruct mrs as [m r s]. cbn [shr_m]. intro Hm.
  destruct m as [|[p|p|]|p]; cbn; lia.
Qed.

Lemma iter_shr_1_nonneg (p : positive) (mrs : shr_record) :
  0 <= shr_m mrs -> 0 <= shr_m (iter_pos shr_1 p mrs).
Proof.
  revert mrs. induction p as [p IH|p IH|]; intros mrs Hm; cbn [iter_pos].
  - apply IH, IH, shr_1_nonneg, Hm.
  - apply IH, IH, Hm.
  - apply shr_1_nonneg, Hm.
Qed.

Lemma shr_fexp_nonneg (m e : Z) (l : location) :
  0 <= m -> 0 <= shr_m (fst (shr_fexp Double.prec Double.emax m e l)).
Proof.
  intro Hm. unfold shr_fexp, shr.
  assert (H0 : 0 <= shr_m (shr_record_of_loc m l))
    by (destruct l as [|[| |]]; exact Hm).
  destruct (_ - e) as [|p|p]; cbn [fst]; try exact H0.
  now apply iter_shr_1_nonneg.
Qed.

Lemma round_nearest_even_nonneg (m : Z) (l : location) :
  0 <= m -> 0 <= round_nearest_even m l.
Proof.
  intro Hm. unfold round_nearest_even.
  destruct l as [|[| |]]; try lia. destruct (Z.even m); lia.
Qed.

Lemma binary_round_aux_number (m e : Z) (l : location) :
  0 <= m ->
  plusNumber (binary_round_aux Double.prec Double.emax false m e l).
Proof.
  intro Hm. unfold binary_round_aux.
  pose proof (shr_fexp_nonneg m e l Hm) as H1.
  destruct (shr_fexp _ _ m e l) as [mrs' e']. cbn [fst] in H1.
  pose proof (shr_fexp_nonneg _ e' loc_Exact
                (round_nearest_even_nonneg _ (loc_of_shr_record mrs') H1))
    as H2.
  destruct (shr_fexp _ _ _ e' loc_Exact) as [mrs'' e'']. cbn [fst] in H2.
  destruct (shr_m mrs''); [reflexivity| |lia].
  destruct (Z.leb _ _); reflexivity.
Qed.

Lemma ofZ_number (z : Z) : 0 <= z -> plusNumber (Double.ofZ z).
Proof.
  intro Hz. unfold Double.ofZ, binary_normalize.
  destruct z as [|m|m]; [reflexivity| |lia].
  unfold binary_round. destruct (shl_align _ _ _) as [mz ez].
  apply binary_round_aux_number. lia.
Qed.

Lemma div_number (x : spec_float) (m : positive) (e : Z) :
  plusNumber x -> plusNumber (Double.div x (S754_finite false m e)).
Proof.
  destruct x as [sx|sx| |sx mx ex]; cbn [plusNumber]; intro Hx; subst;
    try contradiction; try reflexivity.
  unfold Double.div, SFdiv, SFdiv_core_binary. cbv zeta.
  set (m' := match _ - _ - _ with Z0 => _ | Zpos _ => _ | Zneg _ => _ end).
  assert (Hm' : 0 <= m').
  { subst m'. destruct (_ - _ - _); try lia. apply Z.shiftl_nonneg. lia. }
  pose proof (Z_div_mod m' (Zpos m) ltac:(lia)) as Hdiv.
  destruct (Z.div_eucl m' (Zpos m)) as [q r].
  apply binary_round_aux_number. destruct Hdiv as [Heq Hr]. nia.
Qed.

Lemma mul_number (x : spec_float) (m : positive) (e : Z) :
  plusNumber x -> plusNumber (Double.mul x (S754_finite false m e)).
Proof.
  destruct x as [sx|sx| |sx mx ex]; cbn [plusNumber]; intro Hx; subst;
    try contradiction; try reflexivity.
  apply binary_round_aux_number. lia.
Qed.

Lemma Math_round_number (x : spec_float) :
  plusNumber x -> plusNumber (Double.Math_round x).
Proof.
  destruct x as [sx|sx| |sx mx ex]; cbn [plusNumber Double.Math_round];
    intro Hx; subst; try contradiction; try reflexivity.
  cbv zeta. destruct (_ =? 0); [reflexivity|].
  apply ofZ_number, roundHalfUp_plus.
Qed.

Lemma number_at_least_zero (x : spec_float) :
  plusNumber x -> Double.leb Double.zero x = true.
Proof.
  destruct x as [sx|sx| |sx mx ex]; cbn [plusNumber]; intro Hx; subst;
    try contradiction; reflexivity.
Qed.

Lemma digits2_iter_xO (m k : positive) :
  digits2_pos (Pos.iter xO m k) = (digits2_pos m + k)%positive.
Proof.
  induction k as [|k IH] using Pos.peano_ind.
  - cbn. lia.
  - rewrite Pos.iter_succ. cbn [digits2_pos]. rewrite IH. lia.
Qed.

Lemma digits2_bound (m : positive) (n : Z) :
  0 <= n -> Zpos m < 2 ^ n -> Zpos (digits2_pos m) <= n.
Proof.
  revert n. induction m as [m IH|m IH|]; intros n Hn Hlt; cbn [digits2_pos].
  - destruct (Z.eq_dec n 0) as [->|Hne]; [cbn in Hlt; lia|].
    replace n with (Z.succ (n - 1)) in Hlt by lia.
    rewrite Z.pow_succ_r in Hlt by lia.
    specialize (IH (n - 1) ltac:(lia) ltac:(lia)). lia.
  - destruct (Z.eq_dec n 0) as [->|Hne]; [cbn in Hlt; lia|].
    replace n with (Z.succ (n - 1)) in Hlt by lia.
    rewrite Z.pow_succ_r in Hlt by lia.
    specialize (IH (n - 1) ltac:(lia) ltac:(lia)). lia.
  - destruct (Z.eq_dec n 0) as [->|Hne]; [cbn in Hlt; lia|]. lia.
Qed.

(** Below 2^53 an integer is held as a finite double. *)
Lemma ofZ_finite (z : Z) :
  0 < z < 2 ^ 53 -> exists m e, Double.ofZ z = S754_finite false m e.
Proof.
  intros [Hz Hlt]. destruct z as [|m|m]; try lia.
  pose proof (digits2_bound m 53 ltac:(lia) Hlt) as Hd.
  unfold Double.ofZ, binary_normalize, binary_round.
  set (d := Zpos (digits2_pos m)) in *.
  assert (Hfexp : fexp Double.prec Double.emax (d + 0) = d - 53).
  { unfold fexp, emin, Double.prec, Double.emax. lia. }
  rewrite Hfexp. unfold shl_align.
  assert (Hround : forall mz ez,
             Zpos (digits2_pos mz) = 53 -> -1074 <= ez <= 0 ->
             binary_round_aux Double.prec Double.emax false (Zpos mz) ez
                              loc_Exact
             = S754_finite false mz ez).
  { intros mz ez Hmz Hez. unfold binary_round_aux, shr_fexp.
    cbn [Zdigits2 shr_record_of_loc]. rewrite Hmz.
    assert (Hf : fexp Double.prec Double.emax (53 + ez) - ez = 0)
      by (unfold fexp, emin, Double.prec, Double.emax; lia).
    rewrite Hf. cbn [shr shr_m loc_of_shr_record round_nearest_even].
    cbn [Zdigits2 shr_record_of_loc]. rewrite Hmz, Hf.
    cbn [shr shr_m].
    replace (ez <=? Double.emax - Double.prec) with true
      by (symmetry; apply Z.leb_le; unfold Double.emax, Double.prec; lia).
    reflexivity. }
  destruct (d - 53 - 0) as [|k|k] eqn:Ek.
  - exists m; exists 0. apply Hround; subst d; lia.
  - pose proof (Pos2Z.is_pos (digits2_pos m)). lia.
  - exists (Pos.iter xO m k); exists (d - 53). apply Hround.
    + rewrite digits2_iter_xO. subst d. lia.
    + pose proof (Pos2Z.is_pos (digits2_pos m)). subst d. lia.
Qed.

Lemma spacings_sum_nonneg (sessions : list SessionModel.t) :
  inSequence (R.sortBy SessionModel.startTime sessions) ->
  0 <= R.sum
         (map (fun '(prev, curr) =>
                 differenceInHours (SessionModel.startTime curr)
                                   (SessionModel.endTime prev))
              (R.aperture2 (R.sortBy SessionModel.startTime sessions))).
Proof.
  intro Hseq. set (spacings := map _ (R.aperture2 _)).
  assert (Hpos : Forall (fun h => 0 <= h) spacings).
  { subst spacings. apply Forall_map.
    eapply Forall_impl; [|apply (aperture2_sorted _ _ Hseq)].
    intros [prev curr] H. unfold differenceInHours, MS_PER_HOUR.
    apply Z.quot_pos; lia. }
  unfold R.sum. rewrite sum_fold_right.
  induction Hpos as [|h hs Hh _ IH]; cbn [fold_right]; lia.
Qed.

Lemma calculateAverageSpacing_plus (sessions : list SessionModel.t) :
  inSequence (R.sortBy SessionModel.startTime sessions) ->
  plusSigned (Progress.calculateAverageSpacing sessions).
Proof.
  intro Hseq. pose proof (spacings_sum_nonneg sessions Hseq) as Hsum.
  unfold Progress.calculateAverageSpacing. cbv zeta.
  destruct (len sessions <? 2); [reflexivity|].
  destruct (len _ =? 0); [reflexivity|].
  apply div_plus; [apply div_plus|]; apply ofZ_plus;
    [exact Hsum|unfold len; lia|lia].
Qed.

Lemma calculateAverageSpacing_number (sessions : list SessionModel.t) :
  inSequence (R.sortBy SessionModel.startTime sessions) ->
  len sessions < 2 ^ 53 ->
  plusNumber (Progress.calculateAverageSpacing sessions).
Proof.
  intros Hseq Hlen. pose proof (spacings_sum_nonneg sessions Hseq) as Hsum.
  unfold Progress.calculateAverageSpacing. cbv zeta.
  destruct (len sessions <? 2); [reflexivity|].
  destruct (len _ =? 0) eqn:E0; [reflexivity|]. apply Z.eqb_neq in E0.
  set (spacings := map _ (R.aperture2 _)) in *.
  assert (Hn : 0 < len spacings < 2 ^ 53).
  { unfold len in *. subst spacings.
    rewrite length_map, aperture2_length, sortBy_length in *. lia. }
  destruct (ofZ_finite _ Hn) as [mn [en ->]].
  destruct (ofZ_finite 24 ltac:(lia)) as [m24 [e24 ->]].
  apply div_number, div_number, ofZ_number, Hsum.
Qed.

(** X24. On tables reached through the writing routes from a schedule
    without overlaps, the average spacing the progress route reports is
    never negative; with fewer than 2^53 sessions it is a number that is
    at least 0. *)
Theorem reported_spacing_not_negative (init db : SessionsRoute.Db) :
  scheduleInvariant init -> Api.reachable init db ->
  Double.ltb (ProgressStats.averageSpacing (ProgressRoute.GET db))
             Double.zero = false
  /\ (len (SessionsRoute.sessions db) < 2 ^ 53 ->
      Double.leb Double.zero
                 (ProgressStats.averageSpacing (ProgressRoute.GET db))
      = true).
Proof.
  intros Hinit Hreach.
  destruct (reachable_schedule init db Hinit Hreach) as [Hn [Hp Hd]].
  unfold ProgressRoute.GET, Progress.calculateProgressStats. cbv zeta.
  cbn [ProgressStats.averageSpacing].
  assert (Hseq : inSequence (R.sortBy SessionModel.startTime
                               (SessionsRoute.sessions db))).
  { assert (Hall : filter (fun _ => true) (SessionsRoute.sessions db)
                   = SessionsRoute.sessions db)
      by (apply forallb_filter_id, forallb_forall; reflexivity).
    rewrite <- Hall. now apply schedule_in_sequence. }
  split.
  - apply plus_not_negative, div_plus; [|apply ofZ_plus; lia].
    apply Math_round_plus, mul_plus; [|apply ofZ_plus; lia].
    now apply calculateAverageSpacing_plus.
  - intro Hlen.
    destruct (ofZ_finite 10 ltac:(lia)) as [m10 [e10 E10]]. rewrite E10.
    apply number_at_least_zero, div_number, Math_round_number, mul_number.
    now apply calculateAverageSpacing_number.
Qed.

(* ------------------------------------------------------------------ *)
(** * The route properties on the data of the test suites *)

Lemma db1_schedule : scheduleInvariant Examples.db1.
Proof.
  split; [|split].
  - repeat constructor. intros [].
  - repeat constructor.
  - intros a b [<-|[]] [<-|[]] H. now contradiction H.
Qed.

Lemma db1_join : joinInvariant Examples.db1.
Proof. repeat constructor. Qed.

Lemma db1_priorities : prioritiesValid Examples.db1.
Proof. repeat constructor; discriminate. Qed.

Lemma bookedDb_reachable : Api.reachable Examples.db1 Scenario.bookedDb.
Proof.
  apply (Api.reach_step Examples.db1 Examples.db1 Scenario.bookedDb
           (Api.reach_init Examples.db1)).
  apply (Api.createSession Examples.db1 "session-9" Scenario.bookedRequest).
  intros [H|[]]. discriminate H.
Qed.

Lemma storedWindows_reachable : Api.windowsReachable Scenario.storedWindows.
Proof.
  apply (Api.windows_step [] Scenario.storedWindows Api.windows_init).
  apply (Api.createWindow [] "avail-1"
           (AvailabilityRoute.mkRequest 1 "09:00" "17:00")).
Qed.

Lemma slot11_suggested :
  In Scenario.slot11
     (generateSuggestions 0 (Examples.jan15 0 53) Examples.deepWork
        [Examples.session1] Scenario.storedWindows 60 7).
Proof. vm_compute. right. left. reflexivity. Qed.

Lemma schedule_never_overlaps_witness : scheduleInvariant Scenario.bookedDb.
Proof.
  exact (schedule_never_overlaps Examples.db1 Scenario.bookedDb
           db1_schedule bookedDb_reachable).
Defined.

Lemma sessions_keep_their_type_witness : joinInvariant Scenario.bookedDb.
Proof.
  exact (sessions_keep_their_type Examples.db1 Scenario.bookedDb
           db1_join bookedDb_reachable).
Defined.

Lemma priorities_stay_valid_witness : prioritiesValid Scenario.bookedDb.
Proof.
  exact (priorities_stay_valid Examples.db1 Scenario.bookedDb
           db1_priorities bookedDb_reachable).
Defined.

Lemma suggestion_can_be_booked_witness :
  exists created,
    SessionsRoute.POST Examples.db1 "session-9"
      (SessionsRoute.mkRequest
         (SessionSuggestion.sessionTypeId Scenario.slot11)
         (Some (SessionSuggestion.startTime Scenario.slot11))
         (Some (SessionSuggestion.endTime Scenario.slot11)))
    = (SessionsRoute.Created created,
       SessionsRoute.mkDb (SessionsRoute.sessionTypes Examples.db1)
         (SessionsRoute.sessions Examples.db1 ++ [created]))
    /\ SessionModel.id created = "session-9"%string
    /\ SessionModel.startTime created
       = SessionSuggestion.startTime Scenario.slot11
    /\ SessionModel.endTime created
       = SessionSuggestion.endTime Scenario.slot11
    /\ SessionModel.completed created = false.
Proof.
  exact (suggestion_can_be_booked 0 (Examples.jan15 0 53) Examples.db1
           Scenario.storedWindows "type-1" "session-9" 60 7
           (generateSuggestions 0 (Examples.jan15 0 53) Examples.deepWork
              [Examples.session1] Scenario.storedWindows 60 7)
           Scenario.slot11 eq_refl eq_refl slot11_suggested).
Defined.

Lemma suggestions_route_scores_witness :
  (List.length
     (generateSuggestions 0 (Examples.jan15 0 53) Examples.deepWork
        (SessionsRoute.sessions Scenario.bookedDb) Scenario.storedWindows 60 7)
   <= 10)%nat
  /\ Forall (fun sg =>
               SessionSuggestion.sessionTypeId sg = "type-1"%string
               /\ 30 <= SessionSuggestion.score sg <= 100)
       (generateSuggestions 0 (Examples.jan15 0 53) Examples.deepWork
          (SessionsRoute.sessions Scenario.bookedDb) Scenario.storedWindows
          60 7).
Proof.
  exact (suggestions_route_scores 0 (Examples.jan15 0 53) Examples.db1
           Scenario.bookedDb Scenario.storedWindows "type-1" 60 7 _
           db1_priorities bookedDb_reachable eq_refl).
Defined.

Lemma create_read_delete_witness :
  SessionByIdRoute.GET Scenario.bookedDb "session-9"
  = SessionByIdRoute.Ok Scenario.booked
  /\ SessionByIdRoute.DELETE Scenario.bookedDb "session-9"
     = (SessionByIdRoute.Success, Examples.db1)
  /\ SessionByIdRoute.GET Examples.db1 "session-9" = SessionByIdRoute.NotFound
  /\ SessionByIdRoute.DELETE Examples.db1 "session-9"
     = (SessionByIdRoute.ServerError, Examples.db1).
Proof.
  apply (create_read_delete Examples.db1 Scenario.bookedDb "session-9"
           Scenario.bookedRequest Scenario.booked).
  - intros [H|[]]. discriminate H.
  - reflexivity.
Defined.

Lemma reschedule_within_own_interval_witness :
  fst (SessionByIdRoute.PUT Examples.db1 "session-1"
         (SessionByIdRoute.mkUpdate None
            (Some (Some (Examples.jan15 10 15)))
            (Some (Some (Examples.jan15 10 45)))))
  = SessionByIdRoute.Ok
      (SessionByIdRoute.applyUpdate None
         (Some (Examples.jan15 10 15, Examples.jan15 10 45))
         Examples.session1).
Proof.
  apply (reschedule_within_own_interval Examples.db1 "session-1"
           Examples.session1 None (Examples.jan15 10 15)
           (Examples.jan15 10 45) db1_schedule).
  - reflexivity.
  - apply Z.leb_le. reflexivity.
  - reflexivity.
  - apply Z.leb_le. reflexivity.
Defined.

Lemma store_follows_server_witness :
  Permutation
    (SessionsStore.createSession [Examples.session1] Scenario.booked)
    (SessionsRoute.sessions Scenario.bookedDb).
Proof.
  apply (proj1 (store_follows_server [Examples.session1] Examples.db1
                  Scenario.bookedDb (Permutation_refl _)
                  (proj1 db1_schedule))
           "session-9"%string Scenario.bookedRequest Scenario.booked).
  reflexivity.
Defined.

Lemma stored_windows_well_formed_witness :
  0 <= AvailabilityWindowModel.dayOfWeek Examples.mondayWindow <= 6
  /\ exists p q, windowMinutes Examples.mondayWindow p q.
Proof.
  apply (stored_windows_well_formed Scenario.storedWindows
           Examples.mondayWindow storedWindows_reachable).
  left. reflexivity.
Defined.


Lemma mobile_overlap_misses_shared_ends_witness :
  MobileSession.sessionsOverlap Examples.session1 Examples.session3 = true
  <-> SessionsRoute.overlapsRequest
        (SessionModel.startTime Examples.session1)
        (SessionModel.endTime Examples.session1) Examples.session3 = true
      /\ ~ coversSharingEnd Examples.session1 Examples.session3.
Proof.
  apply (mobile_overlap_misses_shared_ends Examples.session1
           Examples.session3).
  - reflexivity.
  - reflexivity.
Defined.

Lemma stored_sessions_show_no_conflict_witness :
  MobileSession.findConflictingSessions Examples.session1
    (SessionsRoute.sessions Scenario.bookedDb) = [].
Proof.
  apply (stored_sessions_show_no_conflict Examples.db1 Scenario.bookedDb
           Examples.session1 db1_schedule bookedDb_reachable).
  left. reflexivity.
Defined.

Lemma created_session_is_avoided_witness :
  Forall
    (fun sg =>
       ~ halfOpenOverlap
           (SessionSuggestion.startTime sg) (SessionSuggestion.endTime sg)
           (SessionModel.startTime Scenario.booked)
           (SessionModel.endTime Scenario.booked))
    (generateSuggestions 0 (Examples.jan15 0 53) Examples.deepWork
       (SessionsRoute.sessions Scenario.bookedDb) Scenario.storedWindows
       60 7).
Proof.
  apply Forall_forall. intros sg Hsg.
  apply (created_session_is_avoided 0 (Examples.jan15 0 53) Examples.db1
           Scenario.bookedDb Scenario.storedWindows "session-9"
           Scenario.bookedRequest Scenario.booked "type-1" 60 7
           (generateSuggestions 0 (Examples.jan15 0 53) Examples.deepWork
              (SessionsRoute.sessions Scenario.bookedDb)
              Scenario.storedWindows 60 7)
           sg).
  - reflexivity.
  - reflexivity.
  - reflexivity.
  - exact Hsg.
Defined.

Lemma listed_sessions_in_sequence_witness :
  inSequence (SessionsListRoute.GET Scenario.bookedDb (Some "false"%string)
                None None)
  /\ forall s,
       In s (SessionsListRoute.GET Scenario.bookedDb (Some "false"%string)
               None None)
       <-> In s (SessionsRoute.sessions Scenario.bookedDb)
           /\ SessionsListRoute.matches (Some "false"%string) None None s
              = true.
Proof.
  exact (listed_sessions_in_sequence Examples.db1 Scenario.bookedDb
           (Some "false"%string) None None db1_schedule bookedDb_reachable).
Defined.

Lemma reported_spacing_not_negative_witness :
  Double.ltb (ProgressStats.averageSpacing (ProgressRoute.GET Scenario.bookedDb))
             Double.zero = false
  /\ (len (SessionsRoute.sessions Scenario.bookedDb) < 2 ^ 53 ->
      Double.leb Double.zero
                 (ProgressStats.averageSpacing
                    (ProgressRoute.GET Scenario.bookedDb))
      = true).
Proof.
  exact (reported_spacing_not_negative Examples.db1 Scenario.bookedDb
           db1_schedule bookedDb_reachable).
Defined.

Lemma postedWindows_reachable : Api.windowsReachable Scenario.postedWindows.
Proof.
  eapply Api.windows_step;
    [eapply Api.windows_step; [exact storedWindows_reachable|]|].
  - apply (Api.createWindow Scenario.storedWindows "avail-3"
             (AvailabilityRoute.mkRequest 2 "09:00" "17:00")).
  - apply (Api.createWindow _ "avail-4"
             (AvailabilityRoute.mkRequest 1 "09:00" "17:00")).
Qed.

Lemma stored_windows_unique_witness :
  NoDup (map windowKey Scenario.postedWindows)
  /\ forall w newId,
       In w Scenario.postedWindows ->
       AvailabilityRoute.POST Scenario.postedWindows newId
         (AvailabilityRoute.mkRequest
            (AvailabilityWindowModel.dayOfWeek w)
            (AvailabilityWindowModel.startTime w)
            (AvailabilityWindowModel.endTime w))
       = (AvailabilityRoute.ServerError, Scenario.postedWindows).
Proof.
  exact (stored_windows_unique Scenario.postedWindows postedWindows_reachable).
Defined.

(** The table of the witness holds the Monday and the Tuesday window. *)
Example postedWindows_are_two :
  map windowKey Scenario.postedWindows
  = [(1, "09:00", "17:00"); (2, "09:00", "17:00")]%string.
Proof. reflexivity. Qed.

Lemma newYork_steady_january (from days : Z) :
  startOfLocalDay Scenario.newYork from = 1705276800000 ->
  0 <= days <= 7 ->
  steady Scenario.newYork from days (-18000000).
Proof.
  intros E Hd local Hl. rewrite E in Hl. unfold MS_PER_DAY in Hl.
  unfold Scenario.newYork. cbn [offsetOfLocal offsetAt]. split.
  - destruct (Z.ltb_spec local 1710039600000); [reflexivity|lia].
  - destruct (Z.ltb_spec (local - -18000000) 1710054000000);
      [reflexivity|lia].
Qed.

Lemma window_slots_half_hour_grid_witness :
  exists p q,
    windowMinutes Examples.mondayWindow p q
    /\ (In (Scenario.nov3 14 0)
           (windowSlots Scenario.newYork (Scenario.nov3 12 0) 60
              Examples.mondayWindow)
        <-> exists k,
              0 <= k
              /\ Scenario.nov3 14 0
                 = setHours Scenario.newYork (Scenario.nov3 12 0)
                            (p / 60) (p mod 60) 0 0
                   + k * (30 * MS_PER_MINUTE)
              /\ Scenario.nov3 14 0 + 60 * MS_PER_MINUTE
                 <= setHours Scenario.newYork (Scenario.nov3 12 0)
                             (q / 60) (q mod 60) 0 0)
    /\ (forall c,
           steady Scenario.newYork (Scenario.nov3 12 0) 1 c ->
           In (Scenario.nov3 14 0)
              (windowSlots Scenario.newYork (Scenario.nov3 12 0) 60
                 Examples.mondayWindow)
           <-> exists k,
                 0 <= k /\ p + 30 * k + 60 <= q
                 /\ Scenario.nov3 14 0
                    = setHours Scenario.newYork (Scenario.nov3 12 0) 0 0 0 0
                      + (p + 30 * k) * MS_PER_MINUTE).
Proof.
  apply (window_slots_half_hour_grid Scenario.newYork (Scenario.nov3 12 0) 60
           Scenario.storedWindows Examples.mondayWindow (Scenario.nov3 14 0)
           storedWindows_reachable).
  left. reflexivity.
Defined.

(** In New York on 3 November 2024, when the clocks go back, the 09:00
    slot is 14:00 UTC, ten hours after local midnight (04:00 UTC). *)
Example clock_back_day_slot :
  In (Scenario.nov3 14 0)
     (windowSlots Scenario.newYork (Scenario.nov3 12 0) 60
        Examples.mondayWindow)
  /\ setHours Scenario.newYork (Scenario.nov3 12 0) 9 0 0 0
     = Scenario.nov3 14 0
  /\ setHours Scenario.newYork (Scenario.nov3 12 0) 0 0 0 0
     = Scenario.nov3 4 0.
Proof.
  split; [vm_compute; left; reflexivity|]. split; reflexivity.
Qed.

(** On that day a window from 01:30 to 03:00 yields the slot at the
    second 01:00 (06:00 UTC), which starts before the window by the
    clock: its availability factor is 50. *)
Example clock_back_day_partial_fit :
  In (Scenario.nov3 6 0)
     (generateTimeSlots Scenario.newYork (Scenario.nov3 12 0) 60
        [Scenario.earlyWindow])
  /\ format_HHmm Scenario.newYork (Scenario.nov3 6 0) = "01:00"%string
  /\ calculateAvailabilityScore Scenario.newYork (Scenario.nov3 6 0)
       (addHours (Scenario.nov3 6 0) (inject_Z 60 / 60))
       [Scenario.earlyWindow] = 50%Q.
Proof.
  split; [vm_compute; right; left; reflexivity|].
  split; vm_compute; reflexivity.
Qed.

Lemma generated_slots_fit_a_window_witness :
  calculateAvailabilityScore Scenario.newYork (Examples.jan15 14 30)
    (addHours (Examples.jan15 14 30) (inject_Z 60 / 60))
    Scenario.storedWindows = 100%Q.
Proof.
  apply (generated_slots_fit_a_window Scenario.newYork (Examples.jan15 12 0)
           60 (-18000000) Scenario.storedWindows (Examples.jan15 14 30)
           storedWindows_reachable).
  - lia.
  - apply newYork_steady_january; [reflexivity|lia].
  - vm_compute. discriminate.
  - vm_compute. right. left. reflexivity.
Defined.

Lemma suggestions_within_look_ahead_witness :
  exists k,
    0 <= k < 7
    /\ setHours Scenario.newYork (Examples.jan15 6 0) 0 0 0 0
       + k * MS_PER_DAY
       <= SessionSuggestion.startTime Scenario.slotNewYork
    /\ SessionSuggestion.endTime Scenario.slotNewYork
       <= setHours Scenario.newYork (Examples.jan15 6 0) 0 0 0 0
          + (k + 1) * MS_PER_DAY.
Proof.
  apply (suggestions_within_look_ahead Scenario.newYork (Examples.jan15 6 0)
           (-18000000) Examples.deepWork [Examples.session1]
           Scenario.storedWindows 60 7 Scenario.slotNewYork
           storedWindows_reachable).
  - apply newYork_steady_january; [reflexivity|lia].
  - vm_compute. left. reflexivity.
Defined.
